(** * Baruk parcel hub: the custody state engine of [src/src/App.jsx]

    [App.jsx] comes in two editions that share the fee engine, the code
    generator and the rider and admin screens:

    - the in-memory edition keeps [packages] and [logs] in React state
      (module [InMemory] below);
    - the Supabase edition writes the same updates to the [packages] and
      [transit_logs] tables of a remote store (module [Supabase] below).

    Conventions of the embedding.

    - A finite JavaScript number is the rational ([Q]) it denotes, an
      integer-valued one an integer ([Z]).  Products and sums are rounded
      to binary64 (module [Binary64]): to the nearest number of 53
      significant bits, a tie going to the even one.  A result that can
      overflow is a [Binary64.t], which has the infinities and [NaN].
      The numbers that enter the engine (the declared value of a booking,
      the draws of [Math.random]) are finite.
    - A string is the sequence of the bytes of its UTF-8 text; [trim],
      [toLowerCase] and [toUpperCase] are modelled on ASCII text.
    - [null] and [undefined] are [None].
    - A timestamp field holds the instant (milliseconds since the epoch)
      whose ISO rendering the source stores.
    - Clock readings, random draws and store-generated column defaults are
      inputs of the operation that consumes them: [clk k] is the reading
      at the k-th place of the handler's text where the clock is read.
    - React state updates are applied in the order they are queued, and a
      handler sees the state left by the previous one. *)

From Stdlib Require Import ZArith QArith Qround Qabs Qpower Qreduction.
From Stdlib Require Import String Ascii List Lia Lqa.
From Stdlib Require Qcanon.
From Stdlib Require Import DecimalString DecimalPos DecimalZ.
From Stdlib Require Import SpecFloat.
From stdpp Require Import base option list gmap strings.

Local Open Scope string_scope.
Local Open Scope Z_scope.

(** ** Binary64 arithmetic

    JavaScript computes [*] and [+] on the exact values of its operands
    and rounds the result to binary64. *)

Module Binary64.

(** [2^e], for any integer [e]. *)
Definition pow2 (e : Z) : Q := (2 ^ e)%Q.

(** The integer part of the base-2 logarithm of a positive rational. *)
Definition ilog2 (x : Q) : Z :=
  let k := Z.log2 (Qnum x) - Z.log2 (Zpos (Qden x)) in
  if Qle_bool (pow2 k) x then k else k - 1.

(** The nearest integer, a tie going to the even one. *)
Definition rne (x : Q) : Z :=
  let f := Qfloor x in
  match (x - inject_Z f ?= 1 # 2)%Q with
  | Lt => f
  | Gt => f + 1
  | Eq => if Z.even f then f else f + 1
  end.

(** The exponent of the last place of the binary64 numbers around [x]:
    53 significant bits, and -1074 in the subnormal range. *)
Definition exponent (x : Q) : Z := Z.max (ilog2 (Qabs x) - 52) (-1074).

(** The multiple of [2^e] nearest to [x], a tie going to the even
    multiple. *)
Definition roundAt (e : Z) (x : Q) : Q := (inject_Z (rne (x / pow2 e)) * pow2 e)%Q.

(** Round to nearest, ties to even: the binary64 value of an exact result
    [x] that does not overflow, in lowest terms. *)
Definition nearest (x : Q) : Q := Qred (roundAt (exponent x) x).

(** The same on an integer; the result is an integer. *)
Definition nearestZ (n : Z) : Z := Qfloor (nearest (inject_Z n)).

(** A binary64 value. *)
Inductive t := NaN | Inf (negative : bool) | Fin (x : Q).

(** The binary64 value of an exact result [x]: an infinity once the
    rounded magnitude reaches [2^1024]. *)
Definition round (x : Q) : t :=
  if Qle_bool (pow2 1024) (Qabs (nearest x)) then Inf (negb (Qle_bool 0 x))
  else Fin (nearest x).

(** [a + b]. *)
Definition plus (a b : t) : t :=
  match a, b with
  | NaN, _ | _, NaN => NaN
  | Inf s, Inf s' => if Bool.eqb s s' then Inf s else NaN
  | Inf s, Fin _ | Fin _, Inf s => Inf s
  | Fin x, Fin y => round (x + y)
  end.

(** [x] is a finite binary64 number. *)
Definition isDouble (x : Q) : bool :=
  Qeq_bool (nearest x) x && negb (Qle_bool (pow2 1024) (Qabs x)).

(** The rational a finite number of the Standard Library's [spec_float]
    denotes. *)
Definition ofSpecFloat (f : spec_float) : option Q :=
  match f with
  | S754_zero _ => Some 0%Q
  | S754_finite s m e =>
      Some (Qred ((if s then - inject_Z (Zpos m) else inject_Z (Zpos m)) * pow2 e))
  | _ => None
  end.

(** The finite value of a [t]. *)
Definition finite (d : t) : option Q :=
  match d with
  | Fin x => Some x
  | _ => None
  end.

End Binary64.

(** ** JavaScript built-ins used by the engine *)

Module JS.

(** [Math.floor] on a finite number. *)
Definition Math_floor (x : Q) : Z := Qfloor x.

(** [Math.round]: the nearest integer, ties towards plus infinity. *)
Definition Math_round (x : Q) : Z := Qfloor (x + (1 # 2)).

(** [x > y] on finite numbers. *)
Definition gt (x y : Q) : bool := negb (Qle_bool x y).

(** [Number.prototype.toString] on an integer below [10^21] in
    magnitude, as clock readings and codes are: its decimal digits. *)
Definition toString (n : Z) : string := NilZero.string_of_int (Z.to_int n).

(** The significand of the shortest decimal of [k] digits that denotes
    the binary64 integer [x] of [p] digits, if there is one: of the two
    [k]-digit decimals around [x], the one that rounds to [x]; the nearer
    of the two, and the even one on a tie, when both do. *)
Definition shortest (x p k : Z) : option Z :=
  let scale := 10 ^ (p - k) in
  let lo := x / scale in
  let hi := lo + 1 in
  let ok s := Z.eqb (Binary64.nearestZ (s * scale)) x in
  match ok lo, ok hi with
  | true, true =>
      match (x - lo * scale ?= hi * scale - x) with
      | Lt => Some lo
      | Gt => Some hi
      | Eq => Some (if Z.even lo then lo else hi)
      end
  | true, false => Some lo
  | false, true => Some hi
  | false, false => None
  end.

(** The least number of digits [k] that denotes [x], with its
    significand. *)
Fixpoint search (x p k : Z) (fuel : nat) : Z * Z :=
  match fuel with
  | O => (x, p)
  | S fuel' =>
      match shortest x p k with
      | Some s => (s, k)
      | None => search x p (k + 1) fuel'
      end
  end.

(** [Number.prototype.toString] on a binary64 integer of 22 digits or
    more: the shortest significand, then the exponent. *)
Definition exponential (x : Z) : string :=
  let p := Z.of_nat (String.length (toString x)) in
  let (s, k) := search x p 1 17 in
  if Z.eqb s (10 ^ k) then "1e+" ++ toString p
  else
    match toString s with
    | String d EmptyString => String d ("e+" ++ toString (p - 1))
    | String d rest => String d ("." ++ rest ++ "e+" ++ toString (p - 1))
    | EmptyString => EmptyString
    end.

(** [Number.prototype.toString] on a binary64 integer of any size:
    decimal digits below [10^21], exponent notation from there on. *)
Definition numberToString (n : Z) : string :=
  if Z.abs n <? 10 ^ 21 then toString n
  else (if n <? 0 then "-" else "") ++ exponential (Z.abs n).

(** [x || 0] where [x] is a number: [NaN] (here [None]) and [0] both
    give [0]. *)
Definition orZero (x : option Q) : Q := default 0%Q x.

(** [s || ""] where [s] is a string or [undefined]. *)
Definition orEmpty (s : option string) : string := default "" s.

(** [a === b] where [a] is a string and [b] a string or [null]. *)
Definition strictEq (a : string) (b : option string) : bool :=
  match b with
  | Some c => String.eqb a c
  | None => false
  end.

(** A non-empty string is truthy. *)
Definition truthy (s : string) : bool := negb (String.eqb s "").

Definition upper (c : ascii) : ascii :=
  let n := nat_of_ascii c in
  if (97 <=? n)%nat && (n <=? 122)%nat then ascii_of_nat (n - 32) else c.

(** [String.prototype.toUpperCase] on ASCII text. *)
Fixpoint toUpperCase (s : string) : string :=
  match s with
  | EmptyString => EmptyString
  | String c r => String (upper c) (toUpperCase r)
  end.

(** [s.substring(a, b)] for [a <= b]. *)
Definition substring (a b : nat) (s : string) : string :=
  String.substring a (b - a) s.

Definition isDigit (c : ascii) : bool :=
  let n := nat_of_ascii c in (48 <=? n)%nat && (n <=? 57)%nat.

Fixpoint allDigits (s : string) : bool :=
  match s with
  | EmptyString => true
  | String c r => isDigit c && allDigits r
  end.

(** The number a string of decimal digits denotes. *)
Fixpoint digitsValue (acc : Z) (s : string) : Z :=
  match s with
  | EmptyString => acc
  | String c r => digitsValue (10 * acc + (Z.of_nat (nat_of_ascii c) - 48)) r
  end.

End JS.

(** ** Fee engine and credential generator *)

Module Fees.
Record t := mk {
  base : Z;
  protectionFee : Z;
  total : Z;
  isHighValue : bool
}.
End Fees.

(** The binary64 number the literal [0.015] denotes. *)
Definition rate : Q := 1080863910568919 # 72057594037927936.

(** [calcFees], lines 82-86, on a finite declared value.  The product
    [declaredValue * 0.015] and the sum [base + protectionFee] are rounded
    to binary64; neither overflows ([product_is_finite],
    [total_is_finite] below). *)
Definition calcFees (declaredValue : Q) : Fees.t :=
  let base := 200 in
  let protectionFee :=
    if JS.gt declaredValue 5000
    then JS.Math_round (Binary64.nearest (declaredValue * rate))
    else 0 in
  {| Fees.base := base;
     Fees.protectionFee := protectionFee;
     Fees.total := Binary64.nearestZ (base + protectionFee);
     Fees.isHighValue := JS.gt declaredValue 10000 |}.

(** [generateOTP], line 79; [random] is the value [Math.random()]
    returned, a binary64 number from 0 (included) to 1 (excluded).  The
    product and the sum are rounded to binary64; neither overflows
    ([code_sum_is_finite] below). *)
Definition generateOTP (random : Q) : string :=
  JS.toString (JS.Math_floor (Binary64.nearest (1000 + Binary64.nearest (random * 9000)))).

(** [generateTracking], line 80; [random36] is the text
    [Math.random().toString(36)] returned. *)
Definition generateTracking (random36 : string) : string :=
  "MHB-" ++ JS.toUpperCase (JS.substring 2 8 random36).

(** ** Data model *)

(** The six values of [packages.status]. *)
Inductive Status :=
| searching_rider | picked_up | at_warehouse | out_for_delivery | delivered | cancelled.

Definition Status_eqb (a b : Status) : bool :=
  match a, b with
  | searching_rider, searching_rider | picked_up, picked_up
  | at_warehouse, at_warehouse | out_for_delivery, out_for_delivery
  | delivered, delivered | cancelled, cancelled => true
  | _, _ => false
  end.

(** Position in the custody order
    searching_rider < picked_up < at_warehouse < out_for_delivery < delivered;
    [cancelled] is the alternate terminal state, above all of them. *)
Definition rank (s : Status) : nat :=
  match s with
  | searching_rider => 0
  | picked_up => 1
  | at_warehouse => 2
  | out_for_delivery => 3
  | delivered => 4
  | cancelled => 5
  end.

(** A package, with the fields of [initialPackages] and [onCreatePackage]. *)
Module Pkg.
Record t := mk {
  id : string;
  trackingCode : string;
  customerId : string;
  customerName : string;
  riderCollectionId : option string;
  riderDeliveryId : option string;
  pickupAddress : string;
  deliveryAddress : string;
  deliveryZone : string;
  description : string;
  size : string;
  declaredValue : Q;
  base : Z;
  protectionFee : Z;
  total : Z;
  isHighValue : bool;
  status : Status;
  otpWarehouse : option string;
  otpDelivery : option string;
  otpWarehouseVerified : bool;
  otpDeliveryVerified : bool;
  createdAt : Z;
  updatedAt : option Z
}.
End Pkg.

(** A custody ledger entry, with the fields of [addLog]. *)
Module Log.
Record t := mk {
  id : string;
  packageId : string;
  actorId : option string;
  actorRole : string;
  actorName : option string;
  event : string;
  location : option string;
  notes : option string;
  createdAt : Z
}.
End Log.

Module Rider.
Record t := mk {
  id : string;
  name : string;
  phone : string;
  zone : string;
  role : string
}.
End Rider.

(** The signed-in account, as far as the engine reads it. *)
Module User.
Record t := mk { id : string; name : string }.
End User.

(** The booking form of [CustomerApp]. *)
Module Form.
Record t := mk {
  pickupAddress : string;
  deliveryAddress : string;
  deliveryZone : string;
  description : string;
  size : string;
  declaredValue : string
}.
End Form.

(** The object literals handed to [updatePkg]: only these five keys are
    ever given, and a key that is absent is [None]. *)
Module Updates.
Record t := mk {
  status : option Status;
  riderCollectionId : option string;
  riderDeliveryId : option string;
  otpWarehouseVerified : option bool;
  otpDeliveryVerified : option bool
}.
End Updates.

(** [{ ...p, ...updates }]: the keys present in [updates] replace those of
    [p], every other field is copied. *)
Definition assign (u : Updates.t) (p : Pkg.t) : Pkg.t :=
  {| Pkg.id := Pkg.id p;
     Pkg.trackingCode := Pkg.trackingCode p;
     Pkg.customerId := Pkg.customerId p;
     Pkg.customerName := Pkg.customerName p;
     Pkg.riderCollectionId :=
       match Updates.riderCollectionId u with
       | Some r => Some r
       | None => Pkg.riderCollectionId p
       end;
     Pkg.riderDeliveryId :=
       match Updates.riderDeliveryId u with
       | Some r => Some r
       | None => Pkg.riderDeliveryId p
       end;
     Pkg.pickupAddress := Pkg.pickupAddress p;
     Pkg.deliveryAddress := Pkg.deliveryAddress p;
     Pkg.deliveryZone := Pkg.deliveryZone p;
     Pkg.description := Pkg.description p;
     Pkg.size := Pkg.size p;
     Pkg.declaredValue := Pkg.declaredValue p;
     Pkg.base := Pkg.base p;
     Pkg.protectionFee := Pkg.protectionFee p;
     Pkg.total := Pkg.total p;
     Pkg.isHighValue := Pkg.isHighValue p;
     Pkg.status := default (Pkg.status p) (Updates.status u);
     Pkg.otpWarehouse := Pkg.otpWarehouse p;
     Pkg.otpDelivery := Pkg.otpDelivery p;
     Pkg.otpWarehouseVerified :=
       default (Pkg.otpWarehouseVerified p) (Updates.otpWarehouseVerified u);
     Pkg.otpDeliveryVerified :=
       default (Pkg.otpDeliveryVerified p) (Updates.otpDeliveryVerified u);
     Pkg.createdAt := Pkg.createdAt p;
     Pkg.updatedAt := Pkg.updatedAt p |}.

(** [{ ...p, updatedAt: new Date().toISOString() }]. *)
Definition touch (now : Z) (p : Pkg.t) : Pkg.t :=
  {| Pkg.id := Pkg.id p;
     Pkg.trackingCode := Pkg.trackingCode p;
     Pkg.customerId := Pkg.customerId p;
     Pkg.customerName := Pkg.customerName p;
     Pkg.riderCollectionId := Pkg.riderCollectionId p;
     Pkg.riderDeliveryId := Pkg.riderDeliveryId p;
     Pkg.pickupAddress := Pkg.pickupAddress p;
     Pkg.deliveryAddress := Pkg.deliveryAddress p;
     Pkg.deliveryZone := Pkg.deliveryZone p;
     Pkg.description := Pkg.description p;
     Pkg.size := Pkg.size p;
     Pkg.declaredValue := Pkg.declaredValue p;
     Pkg.base := Pkg.base p;
     Pkg.protectionFee := Pkg.protectionFee p;
     Pkg.total := Pkg.total p;
     Pkg.isHighValue := Pkg.isHighValue p;
     Pkg.status := Pkg.status p;
     Pkg.otpWarehouse := Pkg.otpWarehouse p;
     Pkg.otpDelivery := Pkg.otpDelivery p;
     Pkg.otpWarehouseVerified := Pkg.otpWarehouseVerified p;
     Pkg.otpDeliveryVerified := Pkg.otpDeliveryVerified p;
     Pkg.createdAt := Pkg.createdAt p;
     Pkg.updatedAt := Some now |}.

(** [ps.map(p => p.id === id ? f(p) : p)]: every element carrying the id
    is rewritten, the others and the order are kept. *)
Definition mapById (id : string) (f : Pkg.t -> Pkg.t) (ps : list Pkg.t) : list Pkg.t :=
  map (fun p => if String.eqb (Pkg.id p) id then f p else p) ps.

(** [ps.find(p => p.id === id)]: the first element carrying the id. *)
Definition findById (id : string) (ps : list Pkg.t) : option Pkg.t :=
  List.find (fun p => String.eqb (Pkg.id p) id) ps.

(** How a handler call ends: it returns, or it throws after the effects it
    had already queued. *)
Inductive Completion (S : Type) :=
| Returned (s : S)
| Threw (s : S).
Arguments Returned {S} s.
Arguments Threw {S} s.

Definition after {S : Type} (c : Completion S) : S :=
  match c with
  | Returned s => s
  | Threw s => s
  end.

(** [RIDERS], lines 134-139. *)
Definition RIDERS : list Rider.t :=
  [ Rider.mk "rider-01" "Kip Mutai" "0712345001" "Westlands" "rider";
    Rider.mk "rider-02" "Faith Wanjiru" "0712345002" "Ngong" "rider";
    Rider.mk "rider-03" "Zawadi Mwangi" "0712345003" "Ruiru" "rider";
    Rider.mk "rider-04" "Brian Omondi" "0712345004" "Kasarani" "rider" ].

(** [riders.find(r => r.id === riderId)?.name]. *)
Definition riderName (riders : list Rider.t) (riderId : string) : option string :=
  Rider.name <$> List.find (fun r => String.eqb (Rider.id r) riderId) riders.

(** ** The in-memory edition (lines 74-980) *)

Module InMemory.

(** The two pieces of React state of [App]. *)
Record State := mkState {
  packages : list Pkg.t;
  logs : list Log.t
}.

(** The three entries of [initialPackages], lines 88-122; [loaded] is the
    clock reading when the module is evaluated. *)
Definition pkg_001 (loaded : Z) : Pkg.t :=
  {| Pkg.id := "pkg-001"; Pkg.trackingCode := "MHB-ALPHA1";
     Pkg.customerId := "cust-01"; Pkg.customerName := "Amara Osei";
     Pkg.riderCollectionId := Some "rider-01"; Pkg.riderDeliveryId := None;
     Pkg.pickupAddress := "Sarit Centre, Westlands";
     Pkg.deliveryAddress := "Garden City Mall, Kasarani";
     Pkg.deliveryZone := "Kasarani"; Pkg.description := "Laptop bag";
     Pkg.size := "medium"; Pkg.declaredValue := 8500%Q;
     Pkg.base := 200; Pkg.protectionFee := 128; Pkg.total := 328;
     Pkg.isHighValue := false; Pkg.status := at_warehouse;
     Pkg.otpWarehouse := Some "7423"; Pkg.otpDelivery := Some "3891";
     Pkg.otpWarehouseVerified := true; Pkg.otpDeliveryVerified := false;
     Pkg.createdAt := loaded - 3600000; Pkg.updatedAt := None |}.

Definition pkg_002 (loaded : Z) : Pkg.t :=
  {| Pkg.id := "pkg-002"; Pkg.trackingCode := "MHB-BETA22";
     Pkg.customerId := "cust-02"; Pkg.customerName := "Njeri Kamau";
     Pkg.riderCollectionId := Some "rider-02"; Pkg.riderDeliveryId := None;
     Pkg.pickupAddress := "Ngong Hills Estate";
     Pkg.deliveryAddress := "Eastgate Mall, Embakasi";
     Pkg.deliveryZone := "Embakasi"; Pkg.description := "Electronics package";
     Pkg.size := "small"; Pkg.declaredValue := 15000%Q;
     Pkg.base := 200; Pkg.protectionFee := 225; Pkg.total := 425;
     Pkg.isHighValue := true; Pkg.status := at_warehouse;
     Pkg.otpWarehouse := Some "5512"; Pkg.otpDelivery := Some "2267";
     Pkg.otpWarehouseVerified := false; Pkg.otpDeliveryVerified := false;
     Pkg.createdAt := loaded - 7200000; Pkg.updatedAt := None |}.

Definition pkg_003 (loaded : Z) : Pkg.t :=
  {| Pkg.id := "pkg-003"; Pkg.trackingCode := "MHB-GAMMA3";
     Pkg.customerId := "cust-03"; Pkg.customerName := "David Otieno";
     Pkg.riderCollectionId := Some "rider-01";
     Pkg.riderDeliveryId := Some "rider-03";
     Pkg.pickupAddress := "Muthaiga Road";
     Pkg.deliveryAddress := "Two Rivers Mall, Ruiru";
     Pkg.deliveryZone := "Ruiru"; Pkg.description := "Fashion items";
     Pkg.size := "large"; Pkg.declaredValue := 3200%Q;
     Pkg.base := 200; Pkg.protectionFee := 0; Pkg.total := 200;
     Pkg.isHighValue := false; Pkg.status := out_for_delivery;
     Pkg.otpWarehouse := None; Pkg.otpDelivery := None;
     Pkg.otpWarehouseVerified := false; Pkg.otpDeliveryVerified := false;
     Pkg.createdAt := loaded - 5400000; Pkg.updatedAt := None |}.

Definition initialPackages (loaded : Z) : list Pkg.t :=
  [pkg_001 loaded; pkg_002 loaded; pkg_003 loaded].

(** [initialLogs], lines 124-132. *)
Definition initialLogs (loaded : Z) : list Log.t :=
  [ Log.mk "log-001" "pkg-001" (Some "rider-01") "rider" (Some "Kip Mutai")
      "COLLECTED_FROM_CUSTOMER" (Some "Sarit Centre, Westlands")
      (Some "Package in good condition") (loaded - 3600000);
    Log.mk "log-002" "pkg-001" (Some "rider-01") "rider" (Some "Kip Mutai")
      "ARRIVED_AT_WAREHOUSE" (Some "Baruk Central, CBD") None (loaded - 2400000);
    Log.mk "log-003" "pkg-002" (Some "rider-02") "rider" (Some "Faith Wanjiru")
      "COLLECTED_FROM_CUSTOMER" (Some "Ngong Hills Estate")
      (Some "Sealed electronics box") (loaded - 7200000);
    Log.mk "log-004" "pkg-002" (Some "rider-02") "rider" (Some "Faith Wanjiru")
      "ARRIVED_AT_WAREHOUSE" (Some "Baruk Central, CBD")
      (Some "High value - OTP required") (loaded - 6000000);
    Log.mk "log-005" "pkg-003" (Some "rider-01") "rider" (Some "Kip Mutai")
      "COLLECTED_FROM_CUSTOMER" (Some "Muthaiga Road") None (loaded - 5400000);
    Log.mk "log-006" "pkg-003" (Some "admin-01") "admin" (Some "Admin Hub")
      "DISPATCHED_TO_RIDER" (Some "Baruk Central, CBD")
      (Some "Dispatched to Rider Zawadi") (loaded - 3000000);
    Log.mk "log-007" "pkg-003" (Some "rider-03") "rider" (Some "Zawadi Mwangi")
      "OUT_FOR_DELIVERY" (Some "Baruk Central, CBD") None (loaded - 2700000) ].

(** The state [App] starts from, lines 876-877. *)
Definition initial (loaded : Z) : State :=
  {| packages := initialPackages loaded; logs := initialLogs loaded |}.

(** [addLog], lines 882-886: the entry goes to the end of [logs].  [named]
    is the reading of [Date.now()] and [dated] that of [new Date()]. *)
Definition addLog (named dated : Z) (packageId : string) (actorId : option string)
    (actorRole : string) (actorName : option string) (event : string)
    (location notes : option string) (s : State) : State :=
  let log := {| Log.id := "log-" ++ JS.toString named;
                Log.packageId := packageId; Log.actorId := actorId;
                Log.actorRole := actorRole; Log.actorName := actorName;
                Log.event := event; Log.location := location;
                Log.notes := notes; Log.createdAt := dated |} in
  {| packages := packages s; logs := logs s ++ [log] |}.

(** [updatePkg], lines 888-890. *)
Definition updatePkg (now : Z) (id : string) (updates : Updates.t) (s : State) : State :=
  {| packages := mapById id (fun p => touch now (assign updates p)) (packages s);
     logs := logs s |}.

Section Create.

(** [parseFloat] on the text of the declared value, which comes from a
    number input (lines 309 and 1290): a finite binary64 number, or
    [NaN], for which [None] stands. *)
Variable parseFloat : string -> option Q.

(** [onCreatePackage], lines 892-908, with the package it returns.
    [clk 0] names the package, [clk 1] dates it, [clk 2] names and
    [clk 3] dates the ledger entry; [random36] feeds the tracking code
    and [rnd 0], [rnd 1] the two codes. *)
Definition onCreatePackage (clk : nat -> Z) (random36 : string) (rnd : nat -> Q)
    (user : User.t) (form : Form.t) (s : State) : State * Pkg.t :=
  let fees := calcFees (JS.orZero (parseFloat (Form.declaredValue form))) in
  let isHighValue := Fees.isHighValue fees in
  let pkg :=
    {| Pkg.id := "pkg-" ++ JS.toString (clk 0%nat);
       Pkg.trackingCode := generateTracking random36;
       Pkg.customerId := User.id user; Pkg.customerName := User.name user;
       Pkg.riderCollectionId := None; Pkg.riderDeliveryId := None;
       Pkg.pickupAddress := Form.pickupAddress form;
       Pkg.deliveryAddress := Form.deliveryAddress form;
       Pkg.deliveryZone := Form.deliveryZone form;
       Pkg.description := Form.description form;
       Pkg.size := Form.size form;
       Pkg.declaredValue := JS.orZero (parseFloat (Form.declaredValue form));
       Pkg.base := Fees.base fees;
       Pkg.protectionFee := Fees.protectionFee fees;
       Pkg.total := Fees.total fees;
       Pkg.isHighValue := isHighValue;
       Pkg.status := searching_rider;
       Pkg.otpWarehouse := if isHighValue then Some (generateOTP (rnd 0%nat)) else None;
       Pkg.otpDelivery := if isHighValue then Some (generateOTP (rnd 1%nat)) else None;
       Pkg.otpWarehouseVerified := false; Pkg.otpDeliveryVerified := false;
       Pkg.createdAt := clk 1%nat; Pkg.updatedAt := None |} in
  let s1 := {| packages := pkg :: packages s; logs := logs s |} in
  (addLog (clk 2%nat) (clk 3%nat) (Pkg.id pkg) (Some (User.id user)) "customer"
     (Some (User.name user)) "ORDER_PLACED" (Some (Pkg.pickupAddress pkg))
     (Some ("Booking confirmed — KES " ++ JS.numberToString (Pkg.total pkg))) s1,
   pkg).

End Create.

(** [onAcceptCollection], lines 910-914. *)
Definition onAcceptCollection (clk : nat -> Z) (pkgId riderId : string) (s : State) : State :=
  let rider := riderName RIDERS riderId in
  let s1 := updatePkg (clk 0%nat) pkgId
              {| Updates.status := Some picked_up;
                 Updates.riderCollectionId := Some riderId;
                 Updates.riderDeliveryId := None;
                 Updates.otpWarehouseVerified := None;
                 Updates.otpDeliveryVerified := None |} s in
  addLog (clk 1%nat) (clk 2%nat) pkgId (Some riderId) "rider" rider "COLLECTED_FROM_CUSTOMER"
    (Pkg.pickupAddress <$> findById pkgId (packages s)) (Some "Package collected") s1.

(** [onMarkAtWarehouse], lines 916-920. *)
Definition onMarkAtWarehouse (clk : nat -> Z) (pkgId riderId : string) (s : State) : State :=
  let rider := riderName RIDERS riderId in
  let s1 := updatePkg (clk 0%nat) pkgId
              {| Updates.status := Some at_warehouse;
                 Updates.riderCollectionId := None;
                 Updates.riderDeliveryId := None;
                 Updates.otpWarehouseVerified := None;
                 Updates.otpDeliveryVerified := None |} s in
  addLog (clk 1%nat) (clk 2%nat) pkgId (Some riderId) "rider" rider "ARRIVED_AT_WAREHOUSE"
    (Some "Baruk Central, CBD") None s1.

(** [onDispatch], lines 922-927. *)
Definition onDispatch (clk : nat -> Z) (pkgId riderId : string) (s : State) : State :=
  let rider := riderName RIDERS riderId in
  let s1 := updatePkg (clk 0%nat) pkgId
              {| Updates.status := Some out_for_delivery;
                 Updates.riderCollectionId := None;
                 Updates.riderDeliveryId := Some riderId;
                 Updates.otpWarehouseVerified := None;
                 Updates.otpDeliveryVerified := None |} s in
  let s2 := addLog (clk 1%nat) (clk 2%nat) pkgId (Some "admin-01") "admin" (Some "Admin Hub")
              "DISPATCHED_TO_RIDER" (Some "Baruk Central, CBD")
              (Some ("Assigned to " ++ default "undefined" rider)) s1 in
  addLog (clk 3%nat) (clk 4%nat) pkgId (Some riderId) "rider" rider "OUT_FOR_DELIVERY"
    (Some "Baruk Central, CBD") None s2.

(** [onAcceptDelivery], lines 929-933. *)
Definition onAcceptDelivery (clk : nat -> Z) (pkgId riderId : string) (s : State) : State :=
  let rider := riderName RIDERS riderId in
  let s1 := updatePkg (clk 0%nat) pkgId
              {| Updates.status := None;
                 Updates.riderCollectionId := None;
                 Updates.riderDeliveryId := Some riderId;
                 Updates.otpWarehouseVerified := None;
                 Updates.otpDeliveryVerified := None |} s in
  addLog (clk 1%nat) (clk 2%nat) pkgId (Some riderId) "rider" rider "ACCEPTED_DELIVERY_JOB"
    (Some "Baruk Central, CBD") None s1.

(** [riders.find(r => r.id === id)?.name] where [id] may be [null]. *)
Definition boundRiderName (id : option string) : option string :=
  id ≫= riderName RIDERS.

(** [onVerifyOTP], lines 935-944.  [pkg] is read without a guard: when no
    package carries [pkgId] the property access throws, after
    [updatePkg] was queued and before [addLog] is called. *)
Definition onVerifyOTP (clk : nat -> Z) (pkgId type : string) (s : State)
    : Completion State :=
  let pkg := findById pkgId (packages s) in
  if String.eqb type "warehouse" then
    let s1 := updatePkg (clk 0%nat) pkgId
                {| Updates.status := None;
                   Updates.riderCollectionId := None;
                   Updates.riderDeliveryId := None;
                   Updates.otpWarehouseVerified := Some true;
                   Updates.otpDeliveryVerified := None |} s in
    match pkg with
    | None => Threw s1
    | Some pkg =>
        Returned
          (addLog (clk 1%nat) (clk 2%nat) pkgId (Pkg.riderCollectionId pkg) "rider"
             (boundRiderName (Pkg.riderCollectionId pkg)) "OTP_WAREHOUSE_VERIFIED"
             (Some "Baruk Central, CBD") (Some "High-value handoff confirmed") s1)
    end
  else
    let s1 := updatePkg (clk 0%nat) pkgId
                {| Updates.status := None;
                   Updates.riderCollectionId := None;
                   Updates.riderDeliveryId := None;
                   Updates.otpWarehouseVerified := None;
                   Updates.otpDeliveryVerified := Some true |} s in
    match pkg with
    | None => Threw s1
    | Some pkg =>
        Returned
          (addLog (clk 1%nat) (clk 2%nat) pkgId (Pkg.riderDeliveryId pkg) "rider"
             (boundRiderName (Pkg.riderDeliveryId pkg)) "OTP_DELIVERY_VERIFIED"
             (Some (Pkg.deliveryAddress pkg))
             (Some "High-value delivery OTP confirmed") s1)
    end.

(** [onMarkDelivered], lines 946-951. *)
Definition onMarkDelivered (clk : nat -> Z) (pkgId riderId : string) (s : State) : State :=
  let rider := riderName RIDERS riderId in
  let pkg := findById pkgId (packages s) in
  let s1 := updatePkg (clk 0%nat) pkgId
              {| Updates.status := Some delivered;
                 Updates.riderCollectionId := None;
                 Updates.riderDeliveryId := None;
                 Updates.otpWarehouseVerified := None;
                 Updates.otpDeliveryVerified := None |} s in
  addLog (clk 1%nat) (clk 2%nat) pkgId (Some riderId) "rider" rider "DELIVERED"
    (Pkg.deliveryAddress <$> pkg) (Some "Package delivered successfully") s1.

End InMemory.

(** ** The Supabase edition (lines 981-2275)

    The handlers send their writes to the remote store and read the
    client's copies [packages] and [riders], which the realtime channel
    refreshes.  The store is modelled by the contents of its two tables;
    [update(...).eq("id", id)] rewrites the rows carrying the id and
    [insert] appends a row, filling [id] and [created_at] with the
    column defaults the store generates.  Every request is taken to be
    applied: the handlers never look at the error a request returns. *)

Module Supabase.

(** The tables [packages] and [transit_logs]. *)
Record Db := mkDb {
  packages : list Pkg.t;
  transit_logs : list Log.t
}.

(** Column defaults generated for an inserted row. *)
Record Defaults := mkDefaults {
  gen_random_uuid : string;
  now : Z
}.

(** What a handler closes over: the signed-in user and the client's
    copies of the packages and of the rider profiles. *)
Record Client := mkClient {
  user : User.t;
  cache : list Pkg.t;
  riders : list Rider.t
}.

(** [addLog], lines 2137-2142. *)
Definition addLog (d : Defaults) (packageId : string) (actorId : option string)
    (actorRole : string) (actorName : option string) (event : string)
    (location notes : option string) (db : Db) : Db :=
  let row := {| Log.id := gen_random_uuid d;
                Log.packageId := packageId; Log.actorId := actorId;
                Log.actorRole := actorRole; Log.actorName := actorName;
                Log.event := event; Log.location := location;
                Log.notes := notes; Log.createdAt := now d |} in
  {| packages := packages db; transit_logs := transit_logs db ++ [row] |}.

(** [updatePkg], lines 2145-2155: the five keys are copied to their
    columns when present; no other column is written. *)
Definition updatePkg (id : string) (updates : Updates.t) (db : Db) : Db :=
  {| packages := mapById id (assign updates) (packages db);
     transit_logs := transit_logs db |}.

Section Create.

Variable parseFloat : string -> option Q.

(** [onCreatePackage], lines 2158-2181.  [inserted] is [None] when the
    store refuses the row; otherwise it carries the generated [id] and
    [created_at], and the columns the request leaves out take their
    declared defaults (no rider, nothing verified).  The package is in the
    shape [dbPkgToApp] (lines 1831-1855) gives a row, which has no
    [updatedAt]. *)
Definition onCreatePackage (inserted : option Defaults) (logged : Defaults)
    (random36 : string) (rnd : nat -> Q) (c : Client) (form : Form.t) (db : Db)
    : Db * option Pkg.t :=
  let fees := calcFees (JS.orZero (parseFloat (Form.declaredValue form))) in
  let isHighValue := Fees.isHighValue fees in
  let trackingCode := generateTracking random36 in
  match inserted with
  | None => (db, None)
  | Some d =>
      let data :=
        {| Pkg.id := gen_random_uuid d;
           Pkg.trackingCode := trackingCode;
           Pkg.customerId := User.id (user c);
           Pkg.customerName := User.name (user c);
           Pkg.riderCollectionId := None; Pkg.riderDeliveryId := None;
           Pkg.pickupAddress := Form.pickupAddress form;
           Pkg.deliveryAddress := Form.deliveryAddress form;
           Pkg.deliveryZone := Form.deliveryZone form;
           Pkg.description := Form.description form;
           Pkg.size := Form.size form;
           Pkg.declaredValue := JS.orZero (parseFloat (Form.declaredValue form));
           Pkg.base := Fees.base fees;
           Pkg.protectionFee := Fees.protectionFee fees;
           Pkg.total := Fees.total fees;
           Pkg.isHighValue := isHighValue;
           Pkg.status := searching_rider;
           Pkg.otpWarehouse :=
             if isHighValue then Some (generateOTP (rnd 0%nat)) else None;
           Pkg.otpDelivery :=
             if isHighValue then Some (generateOTP (rnd 1%nat)) else None;
           Pkg.otpWarehouseVerified := false; Pkg.otpDeliveryVerified := false;
           Pkg.createdAt := now d; Pkg.updatedAt := None |} in
      let db1 := {| packages := packages db ++ [data];
                    transit_logs := transit_logs db |} in
      (addLog logged (Pkg.id data) (Some (User.id (user c))) "customer"
         (Some (User.name (user c))) "ORDER_PLACED" (Some (Form.pickupAddress form))
         (Some ("Booking confirmed ‚Äî KES " ++ JS.numberToString (Fees.total fees))) db1,
       Some data)
  end.

End Create.

(** [onAcceptCollection], lines 2184-2188. *)
Definition onAcceptCollection (d : nat -> Defaults) (c : Client)
    (pkgId riderId : string) (db : Db) : Db :=
  let pkg := findById pkgId (cache c) in
  let db1 := updatePkg pkgId
               {| Updates.status := Some picked_up;
                  Updates.riderCollectionId := Some riderId;
                  Updates.riderDeliveryId := None;
                  Updates.otpWarehouseVerified := None;
                  Updates.otpDeliveryVerified := None |} db in
  addLog (d 0%nat) pkgId (Some riderId) "rider" (Some (User.name (user c)))
    "COLLECTED_FROM_CUSTOMER" (Pkg.pickupAddress <$> pkg) (Some "Package collected") db1.

(** [onMarkAtWarehouse], lines 2190-2193. *)
Definition onMarkAtWarehouse (d : nat -> Defaults) (c : Client)
    (pkgId : string) (db : Db) : Db :=
  let db1 := updatePkg pkgId
               {| Updates.status := Some at_warehouse;
                  Updates.riderCollectionId := None;
                  Updates.riderDeliveryId := None;
                  Updates.otpWarehouseVerified := None;
                  Updates.otpDeliveryVerified := None |} db in
  addLog (d 0%nat) pkgId (Some (User.id (user c))) "rider" (Some (User.name (user c)))
    "ARRIVED_AT_WAREHOUSE" (Some "Baruk Central, CBD") None db1.

(** [onDispatch], lines 2195-2200. *)
Definition onDispatch (d : nat -> Defaults) (c : Client)
    (pkgId riderId : string) (db : Db) : Db :=
  let rider := riderName (riders c) riderId in
  let db1 := updatePkg pkgId
               {| Updates.status := Some out_for_delivery;
                  Updates.riderCollectionId := None;
                  Updates.riderDeliveryId := Some riderId;
                  Updates.otpWarehouseVerified := None;
                  Updates.otpDeliveryVerified := None |} db in
  let db2 := addLog (d 0%nat) pkgId (Some (User.id (user c))) "admin"
               (Some (User.name (user c))) "DISPATCHED_TO_RIDER"
               (Some "Baruk Central, CBD")
               (Some ("Assigned to " ++ default "undefined" rider)) db1 in
  addLog (d 1%nat) pkgId (Some riderId) "rider" rider "OUT_FOR_DELIVERY"
    (Some "Baruk Central, CBD") None db2.

(** [onAcceptDelivery], lines 2202-2205. *)
Definition onAcceptDelivery (d : nat -> Defaults) (c : Client)
    (pkgId riderId : string) (db : Db) : Db :=
  let db1 := updatePkg pkgId
               {| Updates.status := None;
                  Updates.riderCollectionId := None;
                  Updates.riderDeliveryId := Some riderId;
                  Updates.otpWarehouseVerified := None;
                  Updates.otpDeliveryVerified := None |} db in
  addLog (d 0%nat) pkgId (Some riderId) "rider" (Some (User.name (user c)))
    "ACCEPTED_DELIVERY_JOB" (Some "Baruk Central, CBD") None db1.

(** [onVerifyOTP], lines 2207-2216; [pkg?.deliveryAddress] cannot throw. *)
Definition onVerifyOTP (d : nat -> Defaults) (c : Client)
    (pkgId type : string) (db : Db) : Completion Db :=
  let pkg := findById pkgId (cache c) in
  if String.eqb type "warehouse" then
    let db1 := updatePkg pkgId
                 {| Updates.status := None;
                    Updates.riderCollectionId := None;
                    Updates.riderDeliveryId := None;
                    Updates.otpWarehouseVerified := Some true;
                    Updates.otpDeliveryVerified := None |} db in
    Returned
      (addLog (d 0%nat) pkgId (Some (User.id (user c))) "rider"
         (Some (User.name (user c))) "OTP_WAREHOUSE_VERIFIED"
         (Some "Baruk Central, CBD") (Some "High-value handoff confirmed") db1)
  else
    let db1 := updatePkg pkgId
                 {| Updates.status := None;
                    Updates.riderCollectionId := None;
                    Updates.riderDeliveryId := None;
                    Updates.otpWarehouseVerified := None;
                    Updates.otpDeliveryVerified := Some true |} db in
    Returned
      (addLog (d 0%nat) pkgId (Some (User.id (user c))) "rider"
         (Some (User.name (user c))) "OTP_DELIVERY_VERIFIED"
         (Pkg.deliveryAddress <$> pkg)
         (Some "High-value delivery OTP confirmed") db1).

(** [onMarkDelivered], lines 2218-2222. *)
Definition onMarkDelivered (d : nat -> Defaults) (c : Client)
    (pkgId : string) (db : Db) : Db :=
  let pkg := findById pkgId (cache c) in
  let db1 := updatePkg pkgId
               {| Updates.status := Some delivered;
                  Updates.riderCollectionId := None;
                  Updates.riderDeliveryId := None;
                  Updates.otpWarehouseVerified := None;
                  Updates.otpDeliveryVerified := None |} db in
  addLog (d 0%nat) pkgId (Some (User.id (user c))) "rider" (Some (User.name (user c)))
    "DELIVERED" (Pkg.deliveryAddress <$> pkg) (Some "Package delivered successfully") db1.

End Supabase.

(** ** The rider screen ([RiderApp], lines 381-513 and 1362-1494)

    The screen is the same in both editions.  It receives the handlers as
    props; [S] is the state those handlers act on. *)

Inductive Feed := collection | delivery | active.

Module RiderApp.

(** The screen's own React state. *)
Record UI := mkUI {
  feed : Feed;
  otpInput : gmap string string;
  otpError : gmap string bool
}.

(** The key [`${pkg.id}-${type}`]. *)
Definition key (pkg : Pkg.t) (type : string) : string :=
  Pkg.id pkg ++ "-" ++ type.

(** [!p.riderDeliveryId]: [null] and the empty string are falsy. *)
Definition unbound (r : option string) : bool :=
  match r with
  | None => true
  | Some x => negb (JS.truthy x)
  end.

Section Lists.
Variable rider : Rider.t.

Definition collectionFeed (packages : list Pkg.t) : list Pkg.t :=
  List.filter (fun p => Status_eqb (Pkg.status p) searching_rider
                        && negb (String.eqb (Pkg.deliveryZone p) (Rider.zone rider)))
    packages.

Definition myActive (packages : list Pkg.t) : list Pkg.t :=
  List.filter (fun p => JS.strictEq (Rider.id rider) (Pkg.riderCollectionId p)
                        || JS.strictEq (Rider.id rider) (Pkg.riderDeliveryId p))
    packages.

Definition deliveryFeed (packages : list Pkg.t) : list Pkg.t :=
  List.filter (fun p => Status_eqb (Pkg.status p) at_warehouse
                        && String.eqb (Pkg.deliveryZone p) (Rider.zone rider)
                        && unbound (Pkg.riderDeliveryId p))
    packages.

(** The packages for which a [PkgCard] is rendered, lines 490-509. *)
Definition cards (f : Feed) (packages : list Pkg.t) : list Pkg.t :=
  match f with
  | collection => collectionFeed packages
  | delivery => deliveryFeed packages
  | active => myActive packages
  end.

(** [PkgCard], lines 402-462: the conditions under which each control
    of a card is rendered. *)
Definition isMyCollection (pkg : Pkg.t) : bool :=
  JS.strictEq (Rider.id rider) (Pkg.riderCollectionId pkg).

Definition isMyDelivery (pkg : Pkg.t) : bool :=
  JS.strictEq (Rider.id rider) (Pkg.riderDeliveryId pkg).

Definition needsWarehouseOTP (pkg : Pkg.t) : bool :=
  Pkg.isHighValue pkg && isMyCollection pkg
  && Status_eqb (Pkg.status pkg) at_warehouse && negb (Pkg.otpWarehouseVerified pkg).

Definition needsDeliveryOTP (pkg : Pkg.t) : bool :=
  Pkg.isHighValue pkg && isMyDelivery pkg
  && Status_eqb (Pkg.status pkg) out_for_delivery && negb (Pkg.otpDeliveryVerified pkg).

Definition showsAcceptCollection (pkg : Pkg.t) : bool :=
  Status_eqb (Pkg.status pkg) searching_rider && negb (isMyCollection pkg).

Definition showsMarkAtWarehouse (pkg : Pkg.t) : bool :=
  Status_eqb (Pkg.status pkg) searching_rider && isMyCollection pkg.

Definition showsAcceptDelivery (pkg : Pkg.t) : bool :=
  Status_eqb (Pkg.status pkg) at_warehouse && negb (isMyDelivery pkg)
  && String.eqb (Pkg.deliveryZone pkg) (Rider.zone rider).

Definition showsMarkDelivered (pkg : Pkg.t) : bool :=
  Status_eqb (Pkg.status pkg) out_for_delivery && isMyDelivery pkg
  && (negb (Pkg.isHighValue pkg) || Pkg.otpDeliveryVerified pkg).

(** The verify button of kind [type] sits in the matching code panel. *)
Definition showsVerify (type : string) (pkg : Pkg.t) : bool :=
  if String.eqb type "warehouse" then needsWarehouseOTP pkg
  else if String.eqb type "delivery" then needsDeliveryOTP pkg
  else false.

End Lists.

Section Handlers.
Context {S : Type}.

(** The [onVerifyOTP] prop. *)
Variable onVerifyOTP : string -> string -> S -> Completion S.

(** [handleOTPVerify], lines 391-400.  When the handler throws, the
    error flag is left as it was. *)
Definition handleOTPVerify (pkg : Pkg.t) (type : string) (ui : UI) (s : S)
    : UI * Completion S :=
  let entered := JS.orEmpty (otpInput ui !! key pkg type) in
  let correct :=
    if String.eqb type "warehouse" then Pkg.otpWarehouse pkg else Pkg.otpDelivery pkg in
  if JS.strictEq entered correct then
    match onVerifyOTP (Pkg.id pkg) type s with
    | Returned s' =>
        ({| feed := feed ui; otpInput := otpInput ui;
            otpError := <[key pkg type := false]> (otpError ui) |},
         Returned s')
    | Threw s' => (ui, Threw s')
    end
  else
    ({| feed := feed ui; otpInput := otpInput ui;
        otpError := <[key pkg type := true]> (otpError ui) |},
     Returned s).

(** The [onChange] of a code field, lines 439 and 453. *)
Definition typeCode (pkg : Pkg.t) (type value : string) (ui : UI) : UI :=
  {| feed := feed ui;
     otpInput := <[key pkg type := value]> (otpInput ui);
     otpError := otpError ui |}.

End Handlers.

End RiderApp.

(** ** The hub screen ([AdminDashboard], lines 518-640 and 1499-1640) *)

Module AdminDashboard.

(** The part of the screen's React state the dispatch control reads. *)
Record UI := mkUI {
  selectedPkg : option Pkg.t;
  selectedRider : string
}.

(** The rows of the hub inventory. *)
Definition atHub (packages : list Pkg.t) : list Pkg.t :=
  List.filter (fun p => Status_eqb (Pkg.status p) at_warehouse) packages.

(** The Dispatch button of a row is rendered when the row is the
    selected one and is enabled when a rider is chosen. *)
Definition showsDispatch (ui : UI) (pkg : Pkg.t) : bool :=
  match selectedPkg ui with
  | Some sel => String.eqb (Pkg.id sel) (Pkg.id pkg) && JS.truthy (selectedRider ui)
  | None => false
  end.

Section Handlers.
Context {S : Type}.

(** The [onDispatch] prop. *)
Variable onDispatch : string -> string -> S -> S.

(** [handleDispatch], lines 531-536. *)
Definition handleDispatch (pkg : Pkg.t) (ui : UI) (s : S) : UI * S :=
  if negb (JS.truthy (selectedRider ui)) then (ui, s)
  else ({| selectedPkg := None; selectedRider := "" |},
        onDispatch (Pkg.id pkg) (selectedRider ui) s).

End Handlers.

End AdminDashboard.

(** ** Calls of the six handlers *)

(** A call of one of the handlers that act on an existing package, named
    after the operation it implements. *)
Inductive Call :=
| AcceptCollection (pkgId riderId : string)
| MarkAtWarehouse (pkgId riderId : string)
| AcceptDelivery (pkgId riderId : string)
| Dispatch (pkgId riderId : string)
| VerifyCode (pkgId type : string)
| MarkDelivered (pkgId riderId : string).

Module InMemoryRun.
Import InMemory.

(** The state a call leaves behind. *)
Definition call (clk : nat -> Z) (c : Call) (s : State) : State :=
  match c with
  | AcceptCollection pkgId riderId => onAcceptCollection clk pkgId riderId s
  | MarkAtWarehouse pkgId riderId => onMarkAtWarehouse clk pkgId riderId s
  | AcceptDelivery pkgId riderId => onAcceptDelivery clk pkgId riderId s
  | Dispatch pkgId riderId => onDispatch clk pkgId riderId s
  | VerifyCode pkgId type => after (onVerifyOTP clk pkgId type s)
  | MarkDelivered pkgId riderId => onMarkDelivered clk pkgId riderId s
  end.

(** Calls made one after the other, each with its own clock readings. *)
Fixpoint calls (cs : list ((nat -> Z) * Call)) (s : State) : State :=
  match cs with
  | [] => s
  | (clk, c) :: rest => calls rest (call clk c s)
  end.

End InMemoryRun.

Module SupabaseRun.
Import Supabase.

(** The tables a call leaves behind; the rider id the screen passes to
    [onMarkAtWarehouse] and [onMarkDelivered] is ignored by them. *)
Definition call (d : nat -> Defaults) (cl : Client) (c : Call) (db : Db) : Db :=
  match c with
  | AcceptCollection pkgId riderId => onAcceptCollection d cl pkgId riderId db
  | MarkAtWarehouse pkgId _ => onMarkAtWarehouse d cl pkgId db
  | AcceptDelivery pkgId riderId => onAcceptDelivery d cl pkgId riderId db
  | Dispatch pkgId riderId => onDispatch d cl pkgId riderId db
  | VerifyCode pkgId type => after (onVerifyOTP d cl pkgId type db)
  | MarkDelivered pkgId _ => onMarkDelivered d cl pkgId db
  end.

(** Calls made one after the other, possibly by different clients. *)
Fixpoint calls (cs : list ((nat -> Defaults) * Client * Call)) (db : Db) : Db :=
  match cs with
  | [] => db
  | (d, cl, c) :: rest => calls rest (call d cl c db)
  end.

End SupabaseRun.

(** ** Sessions of the in-memory edition

    What users can do to the engine through the two screens: press a
    control that is rendered for a package shown to them. *)

Module Session.
Import InMemory.

Inductive Click :=
| ClickAcceptCollection (rider : Rider.t) (ui : RiderApp.UI) (pkg : Pkg.t)
| ClickMarkAtWarehouse (rider : Rider.t) (ui : RiderApp.UI) (pkg : Pkg.t)
| ClickAcceptDelivery (rider : Rider.t) (ui : RiderApp.UI) (pkg : Pkg.t)
| ClickVerify (rider : Rider.t) (ui : RiderApp.UI) (pkg : Pkg.t) (type : string)
| ClickMarkDelivered (rider : Rider.t) (ui : RiderApp.UI) (pkg : Pkg.t)
| ClickDispatch (ui : AdminDashboard.UI) (pkg : Pkg.t).

(** The control is on screen: its card (or hub row) is rendered from the
    current packages and the control's own condition holds. *)
Definition offered (s : State) (c : Click) : Prop :=
  match c with
  | ClickAcceptCollection rider ui pkg =>
      In pkg (RiderApp.cards rider (RiderApp.feed ui) (packages s))
      /\ RiderApp.showsAcceptCollection rider pkg = true
  | ClickMarkAtWarehouse rider ui pkg =>
      In pkg (RiderApp.cards rider (RiderApp.feed ui) (packages s))
      /\ RiderApp.showsMarkAtWarehouse rider pkg = true
  | ClickAcceptDelivery rider ui pkg =>
      In pkg (RiderApp.cards rider (RiderApp.feed ui) (packages s))
      /\ RiderApp.showsAcceptDelivery rider pkg = true
  | ClickVerify rider ui pkg type =>
      In pkg (RiderApp.cards rider (RiderApp.feed ui) (packages s))
      /\ RiderApp.showsVerify rider type pkg = true
  | ClickMarkDelivered rider ui pkg =>
      In pkg (RiderApp.cards rider (RiderApp.feed ui) (packages s))
      /\ RiderApp.showsMarkDelivered rider pkg = true
  | ClickDispatch ui pkg =>
      In pkg (AdminDashboard.atHub (packages s))
      /\ AdminDashboard.showsDispatch ui pkg = true
  end.

(** The [onClick] of the control. *)
Definition press (clk : nat -> Z) (c : Click) (s : State) : State :=
  match c with
  | ClickAcceptCollection rider _ pkg =>
      onAcceptCollection clk (Pkg.id pkg) (Rider.id rider) s
  | ClickMarkAtWarehouse rider _ pkg =>
      onMarkAtWarehouse clk (Pkg.id pkg) (Rider.id rider) s
  | ClickAcceptDelivery rider _ pkg =>
      onAcceptDelivery clk (Pkg.id pkg) (Rider.id rider) s
  | ClickVerify _ ui pkg type =>
      after (snd (RiderApp.handleOTPVerify (onVerifyOTP clk) pkg type ui s))
  | ClickMarkDelivered rider _ pkg =>
      onMarkDelivered clk (Pkg.id pkg) (Rider.id rider) s
  | ClickDispatch ui pkg =>
      snd (AdminDashboard.handleDispatch (onDispatch clk) pkg ui s)
  end.

(** States reached by pressing controls that are on screen. *)
Inductive reaches (s : State) : State -> Prop :=
| reaches_here : reaches s s
| reaches_press s1 clk c :
    reaches s s1 -> offered s1 c -> reaches s (press clk c s1).

End Session.

(** ** The custody timeline of a package

    [transitLogs.filter(l => l.packageId === pkg.id)], lines 367 and 1348:
    the entries the customer screen hands to [Timeline], in ledger order. *)
Definition timeline (pkgId : string) (logs : list Log.t) : list Log.t :=
  List.filter (fun l => String.eqb (Log.packageId l) pkgId) logs.

(** ** More JavaScript string built-ins, on ASCII text *)

Module JSText.

Definition lower (c : ascii) : ascii :=
  let n := nat_of_ascii c in
  if (65 <=? n)%nat && (n <=? 90)%nat then ascii_of_nat (n + 32) else c.

(** [String.prototype.toLowerCase]. *)
Fixpoint toLowerCase (s : string) : string :=
  match s with
  | EmptyString => EmptyString
  | String c r => String (lower c) (toLowerCase r)
  end.

(** The white space and line terminators of ASCII: tab, line feed,
    vertical tab, form feed, carriage return and space. *)
Definition isSpace (c : ascii) : bool :=
  let n := nat_of_ascii c in
  ((9 <=? n)%nat && (n <=? 13)%nat) || Nat.eqb n 32.

Fixpoint trimStart (s : string) : string :=
  match s with
  | EmptyString => EmptyString
  | String c r => if isSpace c then trimStart r else s
  end.

Fixpoint trimEnd (s : string) : string :=
  match s with
  | EmptyString => EmptyString
  | String c r =>
      match trimEnd r with
      | EmptyString => if isSpace c then EmptyString else String c EmptyString
      | t => String c t
      end
  end.

(** [String.prototype.trim]. *)
Definition trim (s : string) : string := trimEnd (trimStart s).

(** The UTF-16 code units a byte of UTF-8 text stands for: one for an
    ASCII byte and for the first byte of a character of two or three
    bytes, two for the first byte of a character of four bytes (a
    surrogate pair), none for a continuation byte. *)
Definition units (c : ascii) : nat :=
  let n := nat_of_ascii c in
  if (n <? 128)%nat then 1%nat
  else if (n <? 192)%nat then 0%nat
  else if (n <? 240)%nat then 1%nat
  else 2%nat.

(** [String.prototype.length]: the number of UTF-16 code units. *)
Fixpoint length (s : string) : nat :=
  match s with
  | EmptyString => 0%nat
  | String c r => (units c + length r)%nat
  end.

(** [email.trim().toLowerCase()], as the login and account forms
    normalise an address. *)
Definition normalise (email : string) : string := toLowerCase (trim email).

End JSText.

(** [ZONES], lines 77 and 1058. *)
Definition ZONES : list string :=
  ["Westlands"; "Kasarani"; "CBD"; "Ngong"; "Embakasi"; "Thika Road"; "Karen"; "Ruiru"].

(** ** The customer screen ([CustomerApp], lines 241-377 and 1222-1358)

    The screen is the same in both editions.  [S] is the state the
    [onCreatePackage] prop acts on and [R] what that prop returns. *)

Module CustomerApp.

Inductive View := track | new.

(** The screen's own React state. *)
Record UI (R : Type) := mkUI {
  view : View;
  form : Form.t;
  submitted : option R;
  expandedPkg : option string
}.
Arguments mkUI {R} _ _ _ _.
Arguments view {R} _.
Arguments form {R} _.
Arguments submitted {R} _.
Arguments expandedPkg {R} _.

(** The form the screen starts with and returns to after a booking. *)
Definition emptyForm : Form.t :=
  {| Form.pickupAddress := ""; Form.deliveryAddress := "";
     Form.deliveryZone := List.hd "" ZONES; Form.description := "";
     Form.size := "small"; Form.declaredValue := "" |}.

(** The [packages] prop: [packages.filter(p => p.customerId === user.id)],
    lines 975 and 2271. *)
Definition owned (user : User.t) (packages : list Pkg.t) : list Pkg.t :=
  List.filter (fun p => String.eqb (Pkg.customerId p) (User.id user)) packages.

(** [myPackages], line 247. *)
Definition myPackages (packages : list Pkg.t) : list Pkg.t :=
  List.filter (fun p => String.eqb (Pkg.customerId p) "cust-current") packages.

(** The cards of the tracking view, line 345:
    [[...myPackages, ...packages.slice(0, 2)]]. *)
Definition listed (packages : list Pkg.t) : list Pkg.t :=
  (myPackages packages ++ firstn 2 packages)%list.

Section Handlers.
Context {S R : Type}.

(** [parseFloat]; [None] stands for [NaN]. *)
Variable parseFloat : string -> option Q.

(** The [onCreatePackage] prop. *)
Variable onCreatePackage : Form.t -> S -> S * R.

(** The fee preview [fees], line 248. *)
Definition fees (ui : UI R) : Fees.t :=
  calcFees (JS.orZero (parseFloat (Form.declaredValue (form ui)))).

(** [handleSubmit], lines 250-256. *)
Definition handleSubmit (ui : UI R) (s : S) : UI R * S :=
  if negb (JS.truthy (Form.pickupAddress (form ui)))
     || negb (JS.truthy (Form.deliveryAddress (form ui)))
     || negb (JS.truthy (Form.description (form ui)))
  then (ui, s)
  else
    let (s', pkg) := onCreatePackage (form ui) s in
    ({| view := track; form := emptyForm; submitted := Some pkg;
        expandedPkg := expandedPkg ui |}, s').

End Handlers.

(** [TrackingProgress], lines 258-280. *)
Definition steps : list Status :=
  [searching_rider; picked_up; at_warehouse; out_for_delivery; delivered].

(** [steps.indexOf(status)], counting from [i]; -1 when absent. *)
Fixpoint indexOfFrom (i : Z) (status : Status) (l : list Status) : Z :=
  match l with
  | [] => -1
  | x :: r => if Status_eqb x status then i else indexOfFrom (i + 1) status r
  end.

Definition idx (status : Status) : Z := indexOfFrom 0 status steps.

(** Step [i] is drawn as reached: [i <= idx]. *)
Definition reached (status : Status) (i : Z) : bool := i <=? idx status.

(** Step [i] is drawn with a tick: [i < idx]. *)
Definition ticked (status : Status) (i : Z) : bool := i <? idx status.

End CustomerApp.

(** ** More of the hub screen: counters, rider choice, rider cards *)

Module AdminHub.

(** [inTransit], lines 526 and 1530. *)
Definition inTransit (packages : list Pkg.t) : list Pkg.t :=
  List.filter
    (fun p => existsb (Status_eqb (Pkg.status p)) [searching_rider; picked_up; out_for_delivery])
    packages.

(** [totalFees], lines 528 and 1532: a sum of binary64 numbers, from
    the left. *)
Definition totalFees (packages : list Pkg.t) : Binary64.t :=
  fold_left (fun s p => Binary64.plus s (Binary64.Fin (inject_Z (Pkg.total p))))
    packages (Binary64.Fin 0).

(** [totalValue], lines 529 and 1533. *)
Definition totalValue (packages : list Pkg.t) : Binary64.t :=
  fold_left (fun s p => Binary64.plus s (Binary64.Fin (Pkg.declaredValue p)))
    (inTransit packages) (Binary64.Fin 0).

(** The riders of the package's delivery zone, lines 607 and 1611. *)
Definition inZone (riders : list Rider.t) (pkg : Pkg.t) : list Rider.t :=
  List.filter (fun r => String.eqb (Rider.zone r) (Pkg.deliveryZone pkg)) riders.

(** The values of the rider [<select>] of a row, lines 605-611: the empty
    placeholder, the riders of the zone, and every rider when the zone has
    none. *)
Definition riderOptions (riders : list Rider.t) (pkg : Pkg.t) : list string :=
  ("" :: List.map Rider.id (inZone riders pkg)
      ++ (if Nat.eqb (length (inZone riders pkg)) 0 then List.map Rider.id riders else []))%list.

(** The row's first button, [setSelectedPkg(pkg)], lines 620 and 1624. *)
Definition openRow (pkg : Pkg.t) (ui : AdminDashboard.UI) : AdminDashboard.UI :=
  {| AdminDashboard.selectedPkg := Some pkg;
     AdminDashboard.selectedRider := AdminDashboard.selectedRider ui |}.

(** Cancel, [setSelectedPkg(null)], lines 616 and 1620. *)
Definition cancel (ui : AdminDashboard.UI) : AdminDashboard.UI :=
  {| AdminDashboard.selectedPkg := None;
     AdminDashboard.selectedRider := AdminDashboard.selectedRider ui |}.

(** The [onChange] of the rider [<select>], lines 605 and 1609. *)
Definition chooseRider (value : string) (ui : AdminDashboard.UI) : AdminDashboard.UI :=
  {| AdminDashboard.selectedPkg := AdminDashboard.selectedPkg ui;
     AdminDashboard.selectedRider := value |}.

(** The rider cards, lines 639-640 and 1643-1644. *)
Definition myPkgs (rider : Rider.t) (packages : list Pkg.t) : list Pkg.t :=
  List.filter (fun p => JS.strictEq (Rider.id rider) (Pkg.riderCollectionId p)
                        || JS.strictEq (Rider.id rider) (Pkg.riderDeliveryId p))
    packages.

Definition active (rider : Rider.t) (packages : list Pkg.t) : list Pkg.t :=
  List.filter (fun p => negb (Status_eqb (Pkg.status p) delivered)) (myPkgs rider packages).

Definition done (rider : Rider.t) (packages : list Pkg.t) : list Pkg.t :=
  List.filter (fun p => Status_eqb (Pkg.status p) delivered) (myPkgs rider packages).

(** [delivered], lines 527 and 1531. *)
Definition delivered (packages : list Pkg.t) : list Pkg.t :=
  List.filter (fun p => Status_eqb (Pkg.status p) delivered) packages.

End AdminHub.

(** ** Accounts

    Addresses and names pass through [trim] and [toLowerCase], which are
    modelled on ASCII text. *)

(** Every character of the text is ASCII. *)
Fixpoint isAscii (s : string) : bool :=
  match s with
  | EmptyString => true
  | String c r => (nat_of_ascii c <? 128)%nat && isAscii r
  end.

(** An entry of [MOCK_ACCOUNTS]. *)
Module Account.
Record t := mk {
  id : string;
  email : string;
  password : string;
  role : string;
  name : string;
  zone : option string
}.
End Account.

(** [MOCK_ACCOUNTS], lines 755-760. *)
Definition MOCK_ACCOUNTS : list Account.t :=
  [ Account.mk "cust-current" "customer@baruk.co" "customer123" "customer" "Amara Osei" None;
    Account.mk "rider-01" "kip@baruk.co" "rider123" "rider" "Kip Mutai" (Some "Westlands");
    Account.mk "rider-02" "faith@baruk.co" "rider123" "rider" "Faith Wanjiru" (Some "Ngong");
    Account.mk "admin-01" "admin@baruk.co" "admin123" "admin" "Hub Admin" None ].

(** The sign-in screen of the in-memory edition, lines 765-784. *)
Module LoginScreen.

(** [handleLogin], lines 772-784: the account [onLogin] is called with
    when the timer fires, or [None] when the error message is set. *)
Definition handleLogin (email password : string) : option Account.t :=
  List.find (fun a => String.eqb (Account.email a) (JSText.normalise email)
                      && String.eqb (Account.password a) password)
    MOCK_ACCOUNTS.

End LoginScreen.

(** The argument of [supabase.auth.signUp]: address, password and the
    user metadata; [home_zone] and [license_number] are absent from a
    customer's. *)
Module SignUp.
Record t := mk {
  email : string;
  password : string;
  name : string;
  phone : string;
  role : string;
  home_zone : option string;
  license_number : option string
}.
End SignUp.

(** What [signUp] answers: success, or an error with its [message]. *)
Inductive SignUpResult :=
| SignedUp
| SignUpError (message : option string).

(** The sign-up screen of the Supabase edition, lines 1913-1948. *)
Module SignupScreen.

Record Form := mkForm {
  name : string;
  email : string;
  phone : string;
  password : string;
  confirm : string
}.

(** The messages on screen and the request that was sent, if any. *)
Record Out := mkOut {
  error : string;
  success : string;
  sent : option SignUp.t
}.

(** [handleSignup], lines 1920-1948. *)
Definition handleSignup (signUp : SignUp.t -> SignUpResult) (form : Form) : Out :=
  if negb (JS.truthy (name form)) || negb (JS.truthy (email form))
     || negb (JS.truthy (phone form)) || negb (JS.truthy (password form))
     || negb (JS.truthy (confirm form))
  then {| error := "Please fill in all fields."; success := ""; sent := None |}
  else if (JSText.length (password form) <? 6)%nat
  then {| error := "Password must be at least 6 characters."; success := ""; sent := None |}
  else if negb (String.eqb (password form) (confirm form))
  then {| error := "Passwords do not match."; success := ""; sent := None |}
  else
    let request :=
      {| SignUp.email := JSText.normalise (email form);
         SignUp.password := password form;
         SignUp.name := JSText.trim (name form);
         SignUp.phone := JSText.trim (phone form);
         SignUp.role := "customer";
         SignUp.home_zone := None;
         SignUp.license_number := None |} in
    match signUp request with
    | SignedUp =>
        {| error := ""; success := "Account created! You are now signed in.";
           sent := Some request |}
    | SignUpError message =>
        {| error := if JS.truthy (JS.orEmpty message) then JS.orEmpty message
                    else "Signup failed. Please try again.";
           success := ""; sent := Some request |}
    end.

End SignupScreen.

(** The Add Rider panel of the admin screen, Supabase edition,
    lines 1502-1525 and 2225-2244. *)
Module AddRider.

(** [riderForm]: it starts as [{}], so a key is [undefined] (here [None])
    until its field is edited. *)
Record Form := mkForm {
  name : option string;
  email : option string;
  phone : option string;
  password : option string;
  licenseNumber : option string;
  zone : option string
}.

Definition emptyForm : Form := mkForm None None None None None None.

(** The zone the [<select>] displays, line 1674: [riderForm.zone || ZONES[0]]. *)
Definition shownZone (f : Form) : string :=
  if JS.truthy (JS.orEmpty (zone f)) then JS.orEmpty (zone f) else List.hd "" ZONES.

(** [newRider], lines 1515-1520. *)
Record NewRider := mkNewRider {
  riderId : string;
  riderRole : string;
  riderName : string;
  riderEmail : string;
  riderPhone : string;
  riderPassword : string;
  riderLicenseNumber : string;
  riderZone : string
}.

(** The [email] keys of [accounts], line 2273: [[...riders, user]].  The
    riders [loadRiders] builds (line 2093) have no [email] key, the
    signed-in user has [authUser.email]. *)
Definition accounts (riders : list Rider.t) (userEmail : option string)
    : list (option string) :=
  (List.map (fun _ => None) riders ++ [userEmail])%list.

(** [!x] on a string or [undefined]. *)
Definition missing (x : option string) : bool := negb (JS.truthy (JS.orEmpty x)).

(** The messages and form [handleAddRider] leaves, and the rider it hands
    to [onAddRider], if any. *)
Record Out := mkOut {
  riderFormError : string;
  riderFormSuccess : string;
  riderForm : Form;
  added : option NewRider
}.

(** [handleAddRider], lines 1508-1525; [now] is the reading of
    [Date.now()].  [onAddRider] is called and not awaited: what it
    answers is not looked at. *)
Definition handleAddRider (accounts : list (option string)) (now : Z) (f : Form) : Out :=
  if missing (name f) || missing (email f) || missing (phone f)
     || missing (password f) || missing (licenseNumber f) || missing (zone f)
  then {| riderFormError := "Please fill in all fields."; riderFormSuccess := "";
          riderForm := f; added := None |}
  else if existsb (JS.strictEq (JSText.normalise (JS.orEmpty (email f)))) accounts
  then {| riderFormError := "An account with this email already exists.";
          riderFormSuccess := ""; riderForm := f; added := None |}
  else
    {| riderFormError := "";
       riderFormSuccess :=
         "Rider account created for " ++ JS.orEmpty (name f)
         ++ ". They can now log in with " ++ JS.orEmpty (email f) ++ ".";
       riderForm := emptyForm;
       added :=
         Some {| riderId := "rider-" ++ JS.toString now; riderRole := "rider";
                 riderName := JSText.trim (JS.orEmpty (name f));
                 riderEmail := JSText.normalise (JS.orEmpty (email f));
                 riderPhone := JSText.trim (JS.orEmpty (phone f));
                 riderPassword := JS.orEmpty (password f);
                 riderLicenseNumber := JSText.trim (JS.orEmpty (licenseNumber f));
                 riderZone := shownZone f |} |}.

(** The request [onAddRider] sends, lines 2229-2241. *)
Definition onAddRider (riderData : NewRider) : SignUp.t :=
  {| SignUp.email := riderEmail riderData;
     SignUp.password := riderPassword riderData;
     SignUp.name := riderName riderData;
     SignUp.phone := riderPhone riderData;
     SignUp.role := "rider";
     SignUp.home_zone := Some (riderZone riderData);
     SignUp.license_number := Some (riderLicenseNumber riderData) |}.

End AddRider.

(** ** Properties the theorems speak about *)

(** A verification code as the source policy wants it: exactly four
    decimal digits, denoting a number between 1000 and 9999. *)
Definition fourDigits (code : string) : Prop :=
  String.length code = 4%nat
  /\ JS.allDigits code = true
  /\ 1000 <= JS.digitsValue 0 code <= 9999.

(** The fee invariant of a package. *)
Definition feesAddUp (p : Pkg.t) : Prop :=
  Pkg.total p = Pkg.base p + Pkg.protectionFee p.

(** Two versions of a package with the same three fee fields. *)
Definition sameFees (p p' : Pkg.t) : Prop :=
  Pkg.base p' = Pkg.base p
  /\ Pkg.protectionFee p' = Pkg.protectionFee p
  /\ Pkg.total p' = Pkg.total p.

(** A verified flag that is set stays set. *)
Definition verifiedKept (p p' : Pkg.t) : Prop :=
  (Pkg.otpWarehouseVerified p = true -> Pkg.otpWarehouseVerified p' = true)
  /\ (Pkg.otpDeliveryVerified p = true -> Pkg.otpDeliveryVerified p' = true).

(** The status did not move backward in the custody order. *)
Definition notBackward (p p' : Pkg.t) : Prop :=
  Pkg.id p' = Pkg.id p /\ (rank (Pkg.status p) <= rank (Pkg.status p'))%nat.

(** The fields no handler writes: identity, parties, route, valuation,
    fees, codes and creation time. *)
Definition sameDetails (p p' : Pkg.t) : Prop :=
  Pkg.id p' = Pkg.id p
  /\ Pkg.trackingCode p' = Pkg.trackingCode p
  /\ Pkg.customerId p' = Pkg.customerId p
  /\ Pkg.customerName p' = Pkg.customerName p
  /\ Pkg.pickupAddress p' = Pkg.pickupAddress p
  /\ Pkg.deliveryAddress p' = Pkg.deliveryAddress p
  /\ Pkg.deliveryZone p' = Pkg.deliveryZone p
  /\ Pkg.description p' = Pkg.description p
  /\ Pkg.size p' = Pkg.size p
  /\ Pkg.declaredValue p' = Pkg.declaredValue p
  /\ Pkg.base p' = Pkg.base p
  /\ Pkg.protectionFee p' = Pkg.protectionFee p
  /\ Pkg.total p' = Pkg.total p
  /\ Pkg.isHighValue p' = Pkg.isHighValue p
  /\ Pkg.otpWarehouse p' = Pkg.otpWarehouse p
  /\ Pkg.otpDelivery p' = Pkg.otpDelivery p
  /\ Pkg.createdAt p' = Pkg.createdAt p.

(** What a dispatch to [riderId] makes of a package: the delivery rider
    and the status are set, every field other than [updatedAt] is kept. *)
Definition dispatchedTo (riderId : string) (p p' : Pkg.t) : Prop :=
  Pkg.riderDeliveryId p' = Some riderId
  /\ Pkg.status p' = out_for_delivery
  /\ sameDetails p p'
  /\ Pkg.riderCollectionId p' = Pkg.riderCollectionId p
  /\ Pkg.otpWarehouseVerified p' = Pkg.otpWarehouseVerified p
  /\ Pkg.otpDeliveryVerified p' = Pkg.otpDeliveryVerified p.

(** The ledger event a verification of kind [type] records. *)
Definition verifiedEvent (type : string) : string :=
  if String.eqb type "warehouse" then "OTP_WAREHOUSE_VERIFIED" else "OTP_DELIVERY_VERIFIED".

(** The verified flag a verification of kind [type] is about. *)
Definition verifiedFlag (type : string) (p : Pkg.t) : bool :=
  if String.eqb type "warehouse" then Pkg.otpWarehouseVerified p
  else Pkg.otpDeliveryVerified p.

(** The stored code a verification of kind [type] is compared with. *)
Definition storedCode (type : string) (p : Pkg.t) : option string :=
  if String.eqb type "warehouse" then Pkg.otpWarehouse p else Pkg.otpDelivery p.

(** The code policy at creation, for a request that declares the value
    [declared]: the package carries that value; above 10000 it is
    high-value and carries two four-digit codes, otherwise it carries
    none. *)
Definition codesAsPolicy (declared : Q) (pkg : Pkg.t) : Prop :=
  Pkg.declaredValue pkg = declared
  /\ ((10000 < declared)%Q ->
      Pkg.isHighValue pkg = true
      /\ exists w d, Pkg.otpWarehouse pkg = Some w /\ Pkg.otpDelivery pkg = Some d
                     /\ fourDigits w /\ fourDigits d)
  /\ ((declared <= 10000)%Q ->
      Pkg.isHighValue pkg = false
      /\ Pkg.otpWarehouse pkg = None /\ Pkg.otpDelivery pkg = None).


(** The update literals of the handlers never clear a verified flag. *)
Definition neverClears (u : Updates.t) : Prop :=
  Updates.otpWarehouseVerified u <> Some false
  /\ Updates.otpDeliveryVerified u <> Some false.

(** Position by position, the packages carrying [id] satisfy [hit] and the
    others are unchanged. *)
Definition rewritten (id : string) (hit : Pkg.t -> Pkg.t -> Prop)
    (ps ps' : list Pkg.t) : Prop :=
  Forall2 (fun p p' => if String.eqb (Pkg.id p) id then hit p p' else p' = p) ps ps'.

(** The two ledger entries of a dispatch, the admin's then the rider's,
    appended to [old]. *)
Definition dispatchLedger (pkgId riderId : string) (old new : list Log.t) : Prop :=
  exists e1 e2,
    new = (old ++ [e1; e2])%list
    /\ Log.packageId e1 = pkgId /\ Log.actorRole e1 = "admin"
    /\ Log.event e1 = "DISPATCHED_TO_RIDER"
    /\ Log.packageId e2 = pkgId /\ Log.actorRole e2 = "rider"
    /\ Log.actorId e2 = Some riderId /\ Log.event e2 = "OUT_FOR_DELIVERY".

(** One ledger entry for [pkgId] with the given event, appended to [old]. *)
Definition oneEntry (pkgId event : string) (old new : list Log.t) : Prop :=
  exists e, new = (old ++ [e])%list /\ Log.packageId e = pkgId /\ Log.event e = event.

(** The update literal of [onVerifyOTP] for a delivery code. *)
Definition deliveryVerified : Updates.t :=
  {| Updates.status := None;
     Updates.riderCollectionId := None;
     Updates.riderDeliveryId := None;
     Updates.otpWarehouseVerified := None;
     Updates.otpDeliveryVerified := Some true |}.

(** The update literals of [onDispatch] and of [onAcceptCollection]. *)
Definition dispatchUpdates (riderId : string) : Updates.t :=
  {| Updates.status := Some out_for_delivery;
     Updates.riderCollectionId := None;
     Updates.riderDeliveryId := Some riderId;
     Updates.otpWarehouseVerified := None;
     Updates.otpDeliveryVerified := None |}.

Definition collectionUpdates (riderId : string) : Updates.t :=
  {| Updates.status := Some picked_up;
     Updates.riderCollectionId := Some riderId;
     Updates.riderDeliveryId := None;
     Updates.otpWarehouseVerified := None;
     Updates.otpDeliveryVerified := None |}.


(** The decimal digit [k] put in front of the digits [x]. *)
Definition digit (k : Z) (x : Decimal.uint) : Decimal.uint :=
  match k with
  | 0 => Decimal.D0 x | 1 => Decimal.D1 x | 2 => Decimal.D2 x | 3 => Decimal.D3 x
  | 4 => Decimal.D4 x | 5 => Decimal.D5 x | 6 => Decimal.D6 x | 7 => Decimal.D7 x
  | 8 => Decimal.D8 x | _ => Decimal.D9 x
  end.

(** The character of the decimal digit [k]. *)
Definition digitChar (k : Z) : ascii := ascii_of_nat (48 + Z.to_nat k).

(** The package id a call is made on. *)
Definition target (c : Call) : string :=
  match c with
  | AcceptCollection pkgId _ | MarkAtWarehouse pkgId _ | AcceptDelivery pkgId _
  | Dispatch pkgId _ | VerifyCode pkgId _ | MarkDelivered pkgId _ => pkgId
  end.

(** The statuses no control of the screens starts from. *)
Definition absorbing (s : Status) : bool :=
  match s with
  | picked_up | delivered | cancelled => true
  | _ => false
  end.

(** The package kept its id, and its status if that status is absorbing. *)
Definition stays (p p' : Pkg.t) : Prop :=
  Pkg.id p' = Pkg.id p
  /\ (absorbing (Pkg.status p) = true -> Pkg.status p' = Pkg.status p).

(** No character of the text is a lower-case ASCII letter. *)
Fixpoint noLowerCase (s : string) : bool :=
  match s with
  | EmptyString => true
  | String c r =>
      negb ((97 <=? nat_of_ascii c)%nat && (nat_of_ascii c <=? 122)%nat) && noLowerCase r
  end.

(** How many entries of the ledger record [event] for [pkgId]. *)
Definition countEvent (pkgId event : string) (logs : list Log.t) : nat :=
  length (List.filter (fun l => String.eqb (Log.packageId l) pkgId
                                && String.eqb (Log.event l) event) logs).

(** The ledger entries a handler writes per call: two for a dispatch, one
    for the others. *)
Definition entries (c : Call) : nat :=
  match c with
  | Dispatch _ _ => 2
  | _ => 1
  end.

(** The call is a verification. *)
Definition isVerify (c : Call) : bool :=
  match c with
  | VerifyCode _ _ => true
  | _ => false
  end.

(** The update literal of [onAcceptDelivery]. *)
Definition deliveryUpdates (riderId : string) : Updates.t :=
  {| Updates.status := None;
     Updates.riderCollectionId := None;
     Updates.riderDeliveryId := Some riderId;
     Updates.otpWarehouseVerified := None;
     Updates.otpDeliveryVerified := None |}.

(** The last entry of [new] is the only one added to [old]; it is for
    [pkgId], records [event] and names [actor]. *)
Definition oneEntryBy (pkgId event : string) (actor : option string)
    (old new : list Log.t) : Prop :=
  exists e, new = (old ++ [e])%list /\ Log.packageId e = pkgId
            /\ Log.event e = event /\ Log.actorId e = actor.

(** How many entries a flag going from [before] to [later] accounts for. *)
Definition bump (before later : bool) : nat :=
  if before then 0 else if later then 1 else 0.

(** Between the ledgers [logs0] and [logs1], the package kept its id and
    its set flags, and each kind of verification was recorded for it at
    most once more, and only if its flag of that kind went from unset to
    set. *)
Definition verifiedOnce (logs0 logs1 : list Log.t) (p0 p1 : Pkg.t) : Prop :=
  Pkg.id p1 = Pkg.id p0
  /\ verifiedKept p0 p1
  /\ (countEvent (Pkg.id p0) "OTP_WAREHOUSE_VERIFIED" logs1
      <= countEvent (Pkg.id p0) "OTP_WAREHOUSE_VERIFIED" logs0
         + bump (Pkg.otpWarehouseVerified p0) (Pkg.otpWarehouseVerified p1))%nat
  /\ (countEvent (Pkg.id p0) "OTP_DELIVERY_VERIFIED" logs1
      <= countEvent (Pkg.id p0) "OTP_DELIVERY_VERIFIED" logs0
         + bump (Pkg.otpDeliveryVerified p0) (Pkg.otpDeliveryVerified p1))%nat.

(** An entry that records neither kind of verification. *)
Definition notVerification (e : Log.t) : Prop :=
  Log.event e <> "OTP_WAREHOUSE_VERIFIED" /\ Log.event e <> "OTP_DELIVERY_VERIFIED".

(** The update literal of [onVerifyOTP] for a warehouse code. *)
Definition warehouseVerified : Updates.t :=
  {| Updates.status := None;
     Updates.riderCollectionId := None;
     Updates.riderDeliveryId := None;
     Updates.otpWarehouseVerified := Some true;
     Updates.otpDeliveryVerified := None |}.

(** What pressing a control on [pkg] does to the state [s]: nothing, a
    rewrite of the package that touches no flag with entries that record
    no verification, or the verification of one kind of code that was
    not verified, with its one entry. *)
Definition pressEffect (now : Z) (pkg : Pkg.t) (s s' : InMemory.State) : Prop :=
  s' = s
  \/ (exists u added,
        Updates.otpWarehouseVerified u = None /\ Updates.otpDeliveryVerified u = None
        /\ InMemory.packages s'
           = mapById (Pkg.id pkg) (fun p => touch now (assign u p)) (InMemory.packages s)
        /\ InMemory.logs s' = (InMemory.logs s ++ added)%list
        /\ Forall notVerification added)
  \/ (exists e,
        Pkg.otpWarehouseVerified pkg = false
        /\ InMemory.packages s'
           = mapById (Pkg.id pkg) (fun p => touch now (assign warehouseVerified p))
               (InMemory.packages s)
        /\ InMemory.logs s' = (InMemory.logs s ++ [e])%list
        /\ Log.packageId e = Pkg.id pkg /\ Log.event e = "OTP_WAREHOUSE_VERIFIED")
  \/ (exists e,
        Pkg.otpDeliveryVerified pkg = false
        /\ InMemory.packages s'
           = mapById (Pkg.id pkg) (fun p => touch now (assign deliveryVerified p))
               (InMemory.packages s)
        /\ InMemory.logs s' = (InMemory.logs s ++ [e])%list
        /\ Log.packageId e = Pkg.id pkg /\ Log.event e = "OTP_DELIVERY_VERIFIED").

(** The package a control belongs to. *)
Definition pressed (c : Session.Click) : Pkg.t :=
  match c with
  | Session.ClickAcceptCollection _ _ pkg | Session.ClickMarkAtWarehouse _ _ pkg
  | Session.ClickAcceptDelivery _ _ pkg | Session.ClickVerify _ _ pkg _
  | Session.ClickMarkDelivered _ _ pkg | Session.ClickDispatch _ pkg => pkg
  end.

(** A fresh booking as [onCreatePackage] leaves it: owned by the user,
    with the route of the form, waiting for a rider, nobody bound,
    nothing verified. *)
Definition freshBooking (user : User.t) (f : Form.t) (pkg : Pkg.t) : Prop :=
  Pkg.customerId pkg = User.id user
  /\ Pkg.pickupAddress pkg = Form.pickupAddress f
  /\ Pkg.deliveryAddress pkg = Form.deliveryAddress f
  /\ Pkg.deliveryZone pkg = Form.deliveryZone f
  /\ Pkg.description pkg = Form.description f
  /\ Pkg.size pkg = Form.size f
  /\ Pkg.status pkg = searching_rider
  /\ Pkg.riderCollectionId pkg = None /\ Pkg.riderDeliveryId pkg = None
  /\ Pkg.otpWarehouseVerified pkg = false /\ Pkg.otpDeliveryVerified pkg = false.

(** The package carries the fees [fees]. *)
Definition charged (fees : Fees.t) (pkg : Pkg.t) : Prop :=
  Pkg.base pkg = Fees.base fees
  /\ Pkg.protectionFee pkg = Fees.protectionFee fees
  /\ Pkg.total pkg = Fees.total fees
  /\ Pkg.isHighValue pkg = Fees.isHighValue fees.

(** The package kept its id and was not cancelled: it is [cancelled]
    only if it was. *)
Definition notCancelled (p p' : Pkg.t) : Prop :=
  Pkg.id p' = Pkg.id p /\ (Pkg.status p' = cancelled -> Pkg.status p = cancelled).

(** The progress bar of the customer screen lost no step: every step
    drawn as reached for [p] is drawn as reached for [p']. *)
Definition progressKept (p p' : Pkg.t) : Prop :=
  Pkg.id p' = Pkg.id p
  /\ forall i, CustomerApp.reached (Pkg.status p) i = true ->
               CustomerApp.reached (Pkg.status p') i = true.

(** The package is not cancelled. *)
Definition live (p : Pkg.t) : bool := negb (Status_eqb (Pkg.status p) cancelled).

(** The confirmation card of the tracking view is rendered, lines 340 and
    1321: [submitted] holds an object, a package or a promise. *)
Definition confirmationShown {R : Type} (ui : CustomerApp.UI R) : bool :=
  match CustomerApp.submitted ui with
  | Some _ => true
  | None => false
  end.

(** The exact sum of the totals. *)
Definition sumTotals (packages : list Pkg.t) : Z :=
  fold_right (fun p s => Pkg.total p + s) 0 packages.

(** A customer of the in-memory edition, and the state after three
    bookings of theirs on the packages [App] starts with. *)
Definition wanjiku : User.t := User.mk "cust-77" "Wanjiku Njoroge".

Definition booked (now : Z) (description : string) (s : InMemory.State) : InMemory.State :=
  fst (InMemory.onCreatePackage (fun _ => None) (fun _ => now) "0.k3x9q2m7p"
         (fun _ => 1 # 2)%Q wanjiku
         (Form.mk "Sarit Centre" "Garden City Mall" "Kasarani" description "small" "") s).

Definition threeBookings : InMemory.State :=
  booked 1700000003000 "Books"
    (booked 1700000002000 "Shoes" (booked 1700000001000 "Lamp" (InMemory.initial 0))).

(** * Theorems *)

(** ** Binary64 rounding *)

Lemma pow2_pos (e : Z) : (0 < Binary64.pow2 e)%Q.
Proof. apply Qpower_0_lt. reflexivity. Qed.

Lemma pow2_add (a b : Z) : (Binary64.pow2 (a + b) == Binary64.pow2 a * Binary64.pow2 b)%Q.
Proof. apply Qpower_plus. discriminate. Qed.

Lemma pow2_le (a b : Z) : a <= b -> (Binary64.pow2 a <= Binary64.pow2 b)%Q.
Proof. intros H. apply Qpower_le_compat_l; [exact H | discriminate]. Qed.

Lemma pow2_lt (a b : Z) : a < b -> (Binary64.pow2 a < Binary64.pow2 b)%Q.
Proof. intros H. apply Qpower_lt_compat_l; [exact H | reflexivity]. Qed.

Lemma pow2_Z (e : Z) : 0 <= e -> (Binary64.pow2 e == inject_Z (2 ^ e))%Q.
Proof. intros H. unfold Binary64.pow2. rewrite Zpower_Qpower by exact H. reflexivity. Qed.

Lemma div_pow2 (x : Q) (e : Z) : (x / Binary64.pow2 e == x * Binary64.pow2 (- e))%Q.
Proof. unfold Qdiv, Binary64.pow2. rewrite Qpower_opp. reflexivity. Qed.


(** *** Rounding to an integer *)

Ltac qcompare H :=
  first [apply Qeq_alt in H | apply Qlt_alt in H | apply Qgt_alt in H].

Lemma rne_bounds (x : Q) : Qfloor x <= Binary64.rne x <= Qfloor x + 1.
Proof.
  unfold Binary64.rne. destruct (x - inject_Z (Qfloor x) ?= 1 # 2)%Q; [destruct (Z.even _) | |]; lia.
Qed.

Lemma rne_mono (x y : Q) : (x <= y)%Q -> Binary64.rne x <= Binary64.rne y.
Proof.
  intros H. pose proof (Qfloor_resp_le x y H) as Hf.
  destruct (Z.eq_dec (Qfloor x) (Qfloor y)) as [E | N].
  - unfold Binary64.rne. rewrite <- E.
    destruct (x - inject_Z (Qfloor x) ?= 1 # 2)%Q eqn:Cx,
             (y - inject_Z (Qfloor x) ?= 1 # 2)%Q eqn:Cy;
      try (destruct (Z.even (Qfloor x))); try lia; exfalso;
      qcompare Cx; qcompare Cy; lra.
  - pose proof (rne_bounds x). pose proof (rne_bounds y). lia.
Qed.

Lemma rne_Z (n : Z) : Binary64.rne (inject_Z n) = n.
Proof.
  unfold Binary64.rne. rewrite Qfloor_Z.
  replace (inject_Z n - inject_Z n ?= 1 # 2)%Q with Lt; [reflexivity |].
  symmetry. apply Qlt_alt. unfold Qminus. rewrite Qplus_opp_r. reflexivity.
Qed.

Lemma rne_comp (x y : Q) : (x == y)%Q -> Binary64.rne x = Binary64.rne y.
Proof.
  intros H. unfold Binary64.rne. rewrite (Qfloor_comp x y H).
  replace (x - inject_Z (Qfloor y) ?= 1 # 2)%Q with (y - inject_Z (Qfloor y) ?= 1 # 2)%Q;
    [reflexivity |].
  apply Qcompare_comp; [rewrite H |]; reflexivity.
Qed.


(** *** The binary logarithm *)

Lemma ilog2_window (x : Q) (k : Z) :
  (0 < x)%Q -> k = Z.log2 (Qnum x) - Z.log2 (Zpos (Qden x)) ->
  (Binary64.pow2 (k - 1) < x)%Q /\ (x < Binary64.pow2 (k + 1))%Q.
Proof.
  intros Hx Hk. destruct x as [a b]. cbn [Qnum Qden] in Hk.
  assert (Ha : 0 < a) by (unfold Qlt in Hx; cbn in Hx; lia).
  set (ka := Z.log2 a) in *. set (kb := Z.log2 (Zpos b)) in *.
  assert (Hka : 0 <= ka) by apply Z.log2_nonneg.
  assert (Hkb : 0 <= kb) by apply Z.log2_nonneg.
  destruct (Z.log2_spec a Ha) as [La Ua]. fold ka in La, Ua.
  destruct (Z.log2_spec (Zpos b) (Pos2Z.is_pos b)) as [Lb Ub]. fold kb in Lb, Ub.
  assert (Eab : ((a # b) * inject_Z (Zpos b) == inject_Z a)%Q).
  { rewrite (Qmake_Qdiv a b). field. discriminate. }
  rewrite Zle_Qle in La, Lb. rewrite Zlt_Qlt in Ua, Ub.
  rewrite <- pow2_Z in La, Lb, Ua, Ub by lia.
  assert (E1 : (Binary64.pow2 (Z.succ ka) == Binary64.pow2 (k + 1) * Binary64.pow2 kb)%Q).
  { rewrite <- pow2_add. replace (k + 1 + kb) with (Z.succ ka) by lia. reflexivity. }
  assert (E2 : (Binary64.pow2 ka == Binary64.pow2 (k - 1) * Binary64.pow2 (Z.succ kb))%Q).
  { rewrite <- pow2_add. replace (k - 1 + Z.succ kb) with ka by lia. reflexivity. }
  pose proof (pow2_pos (k + 1)) as P1. pose proof (pow2_pos (k - 1)) as P2.
  pose proof (pow2_pos kb) as P3.
  revert Eab La Lb Ua Ub E1 E2 P1 P2 P3 Hx.
  generalize (Binary64.pow2 (k + 1)) (Binary64.pow2 (k - 1)) (Binary64.pow2 kb) (Binary64.pow2 (Z.succ kb)) (Binary64.pow2 ka)
    (Binary64.pow2 (Z.succ ka)) (inject_Z a) (inject_Z (Zpos b)) (a # b).
  intros p1 p2 q1 q2 r1 r2 A B x. intros. split.
  - destruct (Qlt_le_dec p2 x) as [H | H]; [exact H | exfalso]. nra.
  - destruct (Qlt_le_dec x p1) as [H | H]; [exact H | exfalso]. nra.
Qed.

Lemma ilog2_spec (x : Q) :
  (0 < x)%Q -> (Binary64.pow2 (Binary64.ilog2 x) <= x)%Q /\ (x < Binary64.pow2 (Binary64.ilog2 x + 1))%Q.
Proof.
  intros Hx. destruct (ilog2_window x _ Hx eq_refl) as [Hl Hu].
  unfold Binary64.ilog2. set (k := Z.log2 (Qnum x) - Z.log2 (Zpos (Qden x))) in *.
  destruct (Qle_bool (Binary64.pow2 k) x) eqn:E.
  - apply Qle_bool_iff in E. auto.
  - assert (H : (x < Binary64.pow2 k)%Q).
    { apply Qnot_le_lt. intros H. apply Qle_bool_iff in H. congruence. }
    replace (k - 1 + 1) with k by lia. split; [apply Qlt_le_weak, Hl | exact H].
Qed.

Lemma ilog2_unique (x : Q) (k : Z) :
  (Binary64.pow2 k <= x)%Q -> (x < Binary64.pow2 (k + 1))%Q -> Binary64.ilog2 x = k.
Proof.
  intros Hl Hu.
  assert (Hx : (0 < x)%Q) by (eapply Qlt_le_trans; [apply pow2_pos | exact Hl]).
  destruct (ilog2_spec x Hx) as [Hl' Hu'].
  destruct (Z.lt_trichotomy (Binary64.ilog2 x) k) as [H | [H | H]]; [exfalso | exact H | exfalso].
  - assert (Binary64.pow2 (Binary64.ilog2 x + 1) <= Binary64.pow2 k)%Q by (apply pow2_le; lia). lra.
  - assert (Binary64.pow2 (k + 1) <= Binary64.pow2 (Binary64.ilog2 x))%Q by (apply pow2_le; lia). lra.
Qed.

Lemma ilog2_mono (x y : Q) : (0 < x)%Q -> (x <= y)%Q -> Binary64.ilog2 x <= Binary64.ilog2 y.
Proof.
  intros Hx Hxy. assert (Hy : (0 < y)%Q) by lra.
  destruct (ilog2_spec x Hx) as [Hl _]. destruct (ilog2_spec y Hy) as [_ Hu].
  destruct (Z.le_gt_cases (Binary64.ilog2 x) (Binary64.ilog2 y)) as [H | H]; [exact H | exfalso].
  assert (Binary64.pow2 (Binary64.ilog2 y + 1) <= Binary64.pow2 (Binary64.ilog2 x))%Q by (apply pow2_le; lia). lra.
Qed.

(** *** Rounding to binary64 *)

Lemma roundAt_mono (e : Z) (x y : Q) : (x <= y)%Q -> (Binary64.roundAt e x <= Binary64.roundAt e y)%Q.
Proof.
  intros H. unfold Binary64.roundAt. apply Qmult_le_compat_r; [| apply Qlt_le_weak, pow2_pos].
  rewrite <- Zle_Qle. apply rne_mono.
  apply Qmult_le_compat_r; [exact H |]. apply Qlt_le_weak, Qinv_lt_0_compat, pow2_pos.
Qed.

(** A multiple of [2^e] is kept. *)
Lemma roundAt_multiple (e : Z) (m : Z) : (Binary64.roundAt e (inject_Z m * Binary64.pow2 e) == inject_Z m * Binary64.pow2 e)%Q.
Proof.
  unfold Binary64.roundAt.
  rewrite (rne_comp (inject_Z m * Binary64.pow2 e / Binary64.pow2 e) (inject_Z m)).
  - rewrite rne_Z. reflexivity.
  - apply Qdiv_mult_l. intros H. pose proof (pow2_pos e) as P. rewrite H in P. discriminate P.
Qed.

Lemma roundAt_pow2 (e j : Z) : e <= j -> (Binary64.roundAt e (Binary64.pow2 j) == Binary64.pow2 j)%Q.
Proof.
  intros H.
  assert (E : (Binary64.pow2 j == inject_Z (2 ^ (j - e)) * Binary64.pow2 e)%Q).
  { rewrite <- pow2_Z by lia. rewrite <- pow2_add. replace (j - e + e) with j by lia. reflexivity. }
  unfold Binary64.roundAt at 1. rewrite (rne_comp _ _ (Qdiv_comp _ _ E _ _ (Qeq_refl (Binary64.pow2 e)))).
  fold (Binary64.roundAt e (inject_Z (2 ^ (j - e)) * Binary64.pow2 e)).
  rewrite roundAt_multiple. symmetry. exact E.
Qed.

Lemma roundAt_comp (e : Z) (x y : Q) : (x == y)%Q -> Binary64.roundAt e x = Binary64.roundAt e y.
Proof.
  intros H. unfold Binary64.roundAt. rewrite (rne_comp (x / Binary64.pow2 e) (y / Binary64.pow2 e)); [reflexivity |].
  rewrite H. reflexivity.
Qed.

Lemma nearest_roundAt (x : Q) : (Binary64.nearest x == Binary64.roundAt (Binary64.exponent x) x)%Q.
Proof. apply Qred_correct. Qed.

Lemma roundAt_zero (e : Z) : (Binary64.roundAt e 0 == 0)%Q.
Proof.
  unfold Binary64.roundAt. rewrite (rne_comp (0 / Binary64.pow2 e) (inject_Z 0)).
  - rewrite rne_Z. reflexivity.
  - unfold Qdiv. apply Qmult_0_l.
Qed.

Lemma roundAt_nonneg (e : Z) (x : Q) : (0 <= x)%Q -> (0 <= Binary64.roundAt e x)%Q.
Proof. intros H. rewrite <- (roundAt_zero e). apply roundAt_mono, H. Qed.

Lemma exponent_pos (x : Q) :
  (0 < x)%Q -> Binary64.exponent x = Z.max (Binary64.ilog2 x - 52) (-1074).
Proof.
  intros H. unfold Binary64.exponent.
  assert (E : Binary64.ilog2 (Qabs x) = Binary64.ilog2 x); [| rewrite E; reflexivity].
  destruct (ilog2_spec x H) as [Hl Hu].
  apply ilog2_unique; rewrite Qabs_pos by lra; assumption.
Qed.

(** Rounding is monotone on the non-negative numbers. *)
Lemma nearest_mono (x y : Q) : (0 <= x)%Q -> (x <= y)%Q -> (Binary64.nearest x <= Binary64.nearest y)%Q.
Proof.
  intros Hx Hxy. rewrite !nearest_roundAt.
  destruct (Qlt_le_dec 0 x) as [Px | Zx].
  2:{ assert (E : (x == 0)%Q) by lra.
      rewrite (roundAt_comp _ x 0 E), roundAt_zero. apply roundAt_nonneg. lra. }
  assert (Py : (0 < y)%Q) by lra.
  rewrite (exponent_pos x Px), (exponent_pos y Py).
  pose proof (ilog2_mono x y Px Hxy) as Hk.
  destruct (ilog2_spec x Px) as [_ Ux]. destruct (ilog2_spec y Py) as [Ly _].
  set (ex := Z.max (Binary64.ilog2 x - 52) (-1074)). set (ey := Z.max (Binary64.ilog2 y - 52) (-1074)).
  destruct (Z.eq_dec ex ey) as [E | N].
  - rewrite E. apply roundAt_mono, Hxy.
  - assert (Hlt : ex < ey) by lia.
    assert (Hky : ey = Binary64.ilog2 y - 52) by lia.
    assert (Hkx : Binary64.ilog2 x + 1 <= Binary64.ilog2 y) by lia.
    apply Qle_trans with (Binary64.pow2 (Binary64.ilog2 y)).
    + rewrite <- (roundAt_pow2 ex (Binary64.ilog2 y)) by lia. apply roundAt_mono.
      apply Qle_trans with (Binary64.pow2 (Binary64.ilog2 x + 1)); [lra | apply pow2_le; lia].
    + rewrite <- (roundAt_pow2 ey (Binary64.ilog2 y)) at 1 by lia. apply roundAt_mono, Ly.
Qed.

(** An integer of fewer than 54 bits is a binary64 number. *)
Lemma nearest_Z (n : Z) : Z.abs n < 2 ^ 53 -> Binary64.nearest (inject_Z n) = inject_Z n.
Proof.
  intros Hn.
  assert (Hred : Qred (inject_Z n) = inject_Z n).
  { apply Qcanon.Qred_identity. cbn. apply Z.gcd_1_r. }
  rewrite <- Hred at 2. unfold Binary64.nearest. apply Qred_complete.
  destruct (Z.eq_dec n 0) as [-> | Hnz]; [apply roundAt_zero |].
  set (a := Qabs (inject_Z n)).
  assert (Ea : a = inject_Z (Z.abs n)) by reflexivity.
  assert (Pa : (0 < a)%Q).
  { rewrite Ea. change 0%Q with (inject_Z 0). rewrite <- Zlt_Qlt. lia. }
  destruct (ilog2_spec a Pa) as [Hl Hu].
  assert (Hk : Binary64.ilog2 a <= 52).
  { destruct (Z.le_gt_cases (Binary64.ilog2 a) 52) as [H | H]; [exact H | exfalso].
    assert (Binary64.pow2 53 <= Binary64.pow2 (Binary64.ilog2 a))%Q by (apply pow2_le; lia).
    assert (a < Binary64.pow2 53)%Q.
    { rewrite Ea. rewrite (pow2_Z 53) by lia. rewrite <- Zlt_Qlt. exact Hn. }
    lra. }
  assert (Hk0 : 0 <= Binary64.ilog2 a).
  { destruct (Z.le_gt_cases 0 (Binary64.ilog2 a)) as [H | H]; [exact H | exfalso].
    assert (Binary64.pow2 (Binary64.ilog2 a + 1) <= Binary64.pow2 0)%Q by (apply pow2_le; lia).
    assert (1 <= a)%Q.
    { rewrite Ea. change 1%Q with (inject_Z 1). rewrite <- Zle_Qle. lia. }
    change (Binary64.pow2 0) with 1%Q in *. lra. }
  unfold Binary64.exponent. fold a. set (e := Z.max (Binary64.ilog2 a - 52) (-1074)).
  assert (He : e <= 0) by lia.
  assert (E : (inject_Z n == inject_Z (n * 2 ^ (- e)) * Binary64.pow2 e)%Q).
  { rewrite inject_Z_mult, <- (pow2_Z (- e)) by lia.
    rewrite <- Qmult_assoc, <- pow2_add. replace (- e + e) with 0 by lia.
    change (Binary64.pow2 0) with 1%Q. rewrite Qmult_1_r. reflexivity. }
  rewrite (roundAt_comp e _ _ E), roundAt_multiple. symmetry. exact E.
Qed.

Lemma nearestZ_exact (n : Z) : Z.abs n < 2 ^ 53 -> Binary64.nearestZ n = n.
Proof. intros H. unfold Binary64.nearestZ. rewrite (nearest_Z n H). apply Qfloor_Z. Qed.

Lemma nearestZ_mono (a b : Z) : 0 <= a -> a <= b -> Binary64.nearestZ a <= Binary64.nearestZ b.
Proof.
  intros Ha Hab. unfold Binary64.nearestZ. apply Qfloor_resp_le, nearest_mono.
  - change 0%Q with (inject_Z 0). rewrite <- Zle_Qle. exact Ha.
  - rewrite <- Zle_Qle. exact Hab.
Qed.

(** The binary64 numbers below 1 end at [1 - 2^-53]. *)
Lemma double_below_one (r : Q) :
  Binary64.isDouble r = true -> (0 <= r)%Q -> (r < 1)%Q -> (r <= 1 - Binary64.pow2 (-53))%Q.
Proof.
  intros Hd H0 H1. unfold Binary64.isDouble in Hd. apply andb_true_iff in Hd.
  destruct Hd as [Hd _]. apply Qeq_bool_iff in Hd. rewrite nearest_roundAt in Hd.
  destruct (Qlt_le_dec r (1 # 2)) as [Hs | Hb].
  { apply Qle_trans with (1 # 2); [lra | discriminate]. }
  assert (Pr : (0 < r)%Q) by lra.
  assert (Hk : Binary64.ilog2 r = -1) by (apply ilog2_unique; [exact Hb | exact H1]).
  rewrite (exponent_pos r Pr), Hk in Hd. change (Z.max (-1 - 52) (-1074)) with (-53) in Hd.
  unfold Binary64.roundAt in Hd. set (m := Binary64.rne (r / Binary64.pow2 (-53))) in Hd.
  assert (Hm : m < 2 ^ 53).
  { rewrite Zlt_Qlt. rewrite <- (pow2_Z 53) by lia.
    apply Qmult_lt_r with (Binary64.pow2 (-53)); [apply pow2_pos |].
    rewrite Hd, <- pow2_add. exact H1. }
  assert (Hm' : (inject_Z m <= inject_Z (2 ^ 53 - 1))%Q) by (rewrite <- Zle_Qle; lia).
  rewrite <- Hd.
  apply Qle_trans with (inject_Z (2 ^ 53 - 1) * Binary64.pow2 (-53))%Q.
  - apply Qmult_le_compat_r; [exact Hm' | discriminate].
  - discriminate.
Qed.

(** ** Numbers *)

Lemma gt_spec (x y : Q) : JS.gt x y = true <-> (y < x)%Q.
Proof.
  unfold JS.gt. rewrite negb_true_iff. split.
  - intros H. apply Qnot_le_lt. intros Hle.
    apply Qle_bool_iff in Hle. congruence.
  - intros H. destruct (Qle_bool x y) eqn:E; [| reflexivity].
    apply Qle_bool_iff in E. exfalso. exact (Qlt_not_le _ _ H E).
Qed.

Lemma gt_false (x y : Q) : JS.gt x y = false <-> (x <= y)%Q.
Proof.
  unfold JS.gt. rewrite negb_false_iff. apply Qle_bool_iff.
Qed.

(** [Math.round] returns the integer nearest to its argument. *)
Lemma Math_round_nearest (x : Q) :
  (inject_Z (JS.Math_round x) - (1 # 2) <= x)%Q
  /\ (x < inject_Z (JS.Math_round x) + (1 # 2))%Q.
Proof.
  unfold JS.Math_round.
  pose proof (Qfloor_le (x + (1 # 2))) as Hlo.
  pose proof (Qlt_floor (x + (1 # 2))) as Hhi.
  rewrite inject_Z_plus in Hhi.
  change (inject_Z 1) with 1%Q in Hhi.
  split; lra.
Qed.

Lemma Math_round_mono (x y : Q) : (x <= y)%Q -> JS.Math_round x <= JS.Math_round y.
Proof. intros H. unfold JS.Math_round. apply Qfloor_resp_le. lra. Qed.

Lemma Math_round_at_least (n : Z) (x : Q) : (inject_Z n <= x)%Q -> n <= JS.Math_round x.
Proof.
  intros H. unfold JS.Math_round. rewrite <- (Qfloor_Z n) at 1.
  apply Qfloor_resp_le. lra.
Qed.


(** *** The fee product and the code sum *)

Lemma rate_pos : (0 < rate)%Q.
Proof. reflexivity. Qed.

Lemma product_mono (v w : Q) :
  (0 <= v)%Q -> (v <= w)%Q ->
  (Binary64.nearest (v * rate) <= Binary64.nearest (w * rate))%Q.
Proof. intros Hv Hvw. pose proof rate_pos. apply nearest_mono; nra. Qed.

Lemma fee_mono (v w : Q) :
  (0 <= v)%Q -> (v <= w)%Q ->
  JS.Math_round (Binary64.nearest (v * rate))
  <= JS.Math_round (Binary64.nearest (w * rate)).
Proof. intros Hv Hvw. apply Math_round_mono, product_mono; assumption. Qed.

Lemma protectionFee_above (v : Q) :
  (5000 < v)%Q ->
  Fees.protectionFee (calcFees v) = JS.Math_round (Binary64.nearest (v * rate)).
Proof.
  intros H. unfold calcFees; cbn [Fees.protectionFee].
  apply gt_spec in H. rewrite H. reflexivity.
Qed.

Lemma protectionFee_upto (v : Q) : (v <= 5000)%Q -> Fees.protectionFee (calcFees v) = 0.
Proof.
  intros H. unfold calcFees; cbn [Fees.protectionFee].
  apply gt_false in H. rewrite H. reflexivity.
Qed.

(** Above 5000 the fee is at least 75. *)
Lemma protectionFee_from_75 (v : Q) : (5000 < v)%Q -> 75 <= Fees.protectionFee (calcFees v).
Proof.
  intros H. rewrite (protectionFee_above v H).
  change 75 with (JS.Math_round (Binary64.nearest (5000 * rate))).
  apply fee_mono; lra.
Qed.

Lemma protectionFee_nonneg (v : Q) : 0 <= Fees.protectionFee (calcFees v).
Proof.
  destruct (Qlt_le_dec 5000 v) as [H | H].
  - pose proof (protectionFee_from_75 v H). lia.
  - rewrite (protectionFee_upto v H). lia.
Qed.

(** Up to a declared value of [10^17] the fee stays below [2^53 - 200]. *)
Lemma protectionFee_bounded (v : Q) :
  (v <= 100000000000000000)%Q -> Fees.protectionFee (calcFees v) <= 1500000000000000.
Proof.
  intros Hv. destruct (Qlt_le_dec 5000 v) as [H | H].
  - rewrite (protectionFee_above v H).
    change 1500000000000000
      with (JS.Math_round (Binary64.nearest (100000000000000000 * rate))).
    apply fee_mono; lra.
  - rewrite (protectionFee_upto v H). lia.
Qed.

(** In that range the sum of base and fee is a binary64 number: the
    total is exact. *)
Lemma total_exact (v : Q) :
  (v <= 100000000000000000)%Q ->
  Fees.total (calcFees v) = Fees.base (calcFees v) + Fees.protectionFee (calcFees v).
Proof.
  intros Hv. pose proof (protectionFee_bounded v Hv). pose proof (protectionFee_nonneg v).
  change (Fees.total (calcFees v))
    with (Binary64.nearestZ (200 + Fees.protectionFee (calcFees v))).
  change (Fees.base (calcFees v)) with 200.
  apply nearestZ_exact. lia.
Qed.

Lemma total_from_200 (v : Q) : 200 <= Fees.total (calcFees v).
Proof.
  pose proof (protectionFee_nonneg v).
  change (Fees.total (calcFees v))
    with (Binary64.nearestZ (200 + Fees.protectionFee (calcFees v))).
  rewrite <- (nearestZ_exact 200) at 1 by (cbn; lia).
  apply nearestZ_mono; lia.
Qed.



(** Neither the product nor the sum of [calcFees] overflows. *)
Lemma nearest_nonneg (x : Q) : (0 <= x)%Q -> (0 <= Binary64.nearest x)%Q.
Proof.
  intros H. change 0%Q with (Binary64.nearest 0) at 1. apply nearest_mono; [lra | exact H].
Qed.

Lemma round_finite (x : Q) :
  (0 <= x)%Q -> (x <= Binary64.pow2 1023)%Q ->
  Binary64.round x = Binary64.Fin (Binary64.nearest x).
Proof.
  intros H0 Hx. unfold Binary64.round.
  pose proof (nearest_nonneg x H0) as Hn.
  pose proof (nearest_mono x (Binary64.pow2 1023) H0 Hx) as Hu.
  assert (Hc : (Binary64.nearest (Binary64.pow2 1023) < Binary64.pow2 1024)%Q)
    by (vm_compute; reflexivity).
  destruct (Qle_bool (Binary64.pow2 1024) (Qabs (Binary64.nearest x))) eqn:E;
    [exfalso | reflexivity].
  apply Qle_bool_iff in E. rewrite Qabs_pos in E by exact Hn. lra.
Qed.

Lemma double_below_max (v : Q) :
  Binary64.isDouble v = true -> (0 <= v)%Q -> (v < Binary64.pow2 1024)%Q.
Proof.
  intros Hd H0. unfold Binary64.isDouble in Hd. apply andb_true_iff in Hd.
  destruct Hd as [_ Hd]. apply negb_true_iff in Hd.
  apply Qnot_le_lt. intros H. rewrite <- (Qabs_pos v) in H by exact H0.
  apply Qle_bool_iff in H. congruence.
Qed.

Lemma product_is_finite (v : Q) :
  Binary64.isDouble v = true -> (0 <= v)%Q ->
  Binary64.round (v * rate) = Binary64.Fin (Binary64.nearest (v * rate)).
Proof.
  intros Hd H0. pose proof (double_below_max v Hd H0) as Hv.
  assert (E : (Binary64.pow2 1024 == 2 * Binary64.pow2 1023)%Q) by reflexivity.
  assert (R : (rate <= 1 # 2)%Q) by discriminate.
  pose proof rate_pos. apply round_finite; nra.
Qed.

(** Rounding an integer gives an integer. *)
Lemma nearestZ_inject (n : Z) :
  (inject_Z (Binary64.nearestZ n) == Binary64.nearest (inject_Z n))%Q.
Proof.
  destruct (Z.lt_ge_cases (Z.abs n) (2 ^ 53)) as [Hs | Hb].
  { rewrite (nearestZ_exact n Hs), (nearest_Z n Hs). reflexivity. }
  unfold Binary64.nearestZ. rewrite (Qfloor_comp _ _ (nearest_roundAt (inject_Z n))).
  rewrite nearest_roundAt.
  set (a := Qabs (inject_Z n)).
  assert (Ea : a = inject_Z (Z.abs n)) by reflexivity.
  assert (La : (Binary64.pow2 53 <= a)%Q).
  { rewrite Ea, (pow2_Z 53) by lia. rewrite <- Zle_Qle. exact Hb. }
  assert (Pa : (0 < a)%Q) by (pose proof (pow2_pos 53); lra).
  destruct (ilog2_spec a Pa) as [_ Hu].
  assert (Hk : 53 <= Binary64.ilog2 a).
  { destruct (Z.le_gt_cases 53 (Binary64.ilog2 a)) as [H | H]; [exact H | exfalso].
    assert (Binary64.pow2 (Binary64.ilog2 a + 1) <= Binary64.pow2 53)%Q
      by (apply pow2_le; lia).
    lra. }
  unfold Binary64.exponent. fold a. set (e := Z.max (Binary64.ilog2 a - 52) (-1074)).
  assert (He : 0 <= e) by lia.
  unfold Binary64.roundAt. set (m := Binary64.rne (inject_Z n / Binary64.pow2 e)).
  assert (E : (inject_Z m * Binary64.pow2 e == inject_Z (m * 2 ^ e))%Q).
  { rewrite inject_Z_mult, (pow2_Z e) by exact He. reflexivity. }
  rewrite (Qfloor_comp _ _ E), Qfloor_Z. symmetry. exact E.
Qed.

Lemma total_is_finite (v : Q) :
  Binary64.isDouble v = true -> (0 <= v)%Q ->
  Binary64.round (inject_Z (Fees.base (calcFees v) + Fees.protectionFee (calcFees v)))
  = Binary64.Fin (Binary64.nearest
                    (inject_Z (Fees.base (calcFees v) + Fees.protectionFee (calcFees v)))).
Proof.
  intros Hd H0. pose proof (double_below_max v Hd H0) as Hv.
  pose proof (protectionFee_nonneg v) as Hf.
  change (Fees.base (calcFees v)) with 200.
  apply round_finite.
  { change 0%Q with (inject_Z 0). rewrite <- Zle_Qle. lia. }
  destruct (Qlt_le_dec 5000 v) as [H | H].
  - rewrite (protectionFee_above v H).
    assert (E : (Binary64.pow2 1024 == 64 * Binary64.pow2 1018)%Q) by reflexivity.
    assert (R : (rate <= 1 # 64)%Q) by discriminate.
    pose proof rate_pos as Rp.
    assert (Hx : (v * rate <= Binary64.pow2 1018)%Q) by nra.
    assert (Hp : (0 <= v * rate)%Q) by nra.
    pose proof (nearest_mono _ _ Hp Hx) as Hn.
    assert (Hc : (Binary64.nearest (Binary64.pow2 1018) + 201 <= Binary64.pow2 1023)%Q)
      by (vm_compute; discriminate).
    destruct (Math_round_nearest (Binary64.nearest (v * rate))) as [Hr _].
    rewrite inject_Z_plus. change (inject_Z 200) with 200%Q. lra.
  - rewrite (protectionFee_upto v H). vm_compute. discriminate.
Qed.

(** The integer [generateOTP] prints lies between 1000 and 9999. *)
Lemma otp_number_range (random : Q) :
  Binary64.isDouble random = true -> (0 <= random)%Q -> (random < 1)%Q ->
  1000 <= JS.Math_floor (Binary64.nearest (1000 + Binary64.nearest (random * 9000)))
       <= 9999.
Proof.
  intros Hd H0 H1. pose proof (double_below_one random Hd H0 H1) as Hmax.
  set (top := (1 - Binary64.pow2 (-53))%Q) in Hmax.
  assert (Hp0 : (0 <= Binary64.nearest (random * 9000))%Q) by (apply nearest_nonneg; lra).
  assert (Hp1 : (Binary64.nearest (random * 9000) <= Binary64.nearest (top * 9000))%Q)
    by (apply nearest_mono; lra).
  unfold JS.Math_floor. split.
  - change 1000 with (Qfloor (Binary64.nearest 1000)) at 1.
    apply Qfloor_resp_le, nearest_mono; lra.
  - change 9999
      with (Qfloor (Binary64.nearest (1000 + Binary64.nearest (top * 9000)))).
    apply Qfloor_resp_le, nearest_mono; lra.
Qed.

(** Neither the product nor the sum of [generateOTP] overflows. *)
Lemma code_sum_is_finite (random : Q) :
  (0 <= random)%Q -> (random < 1)%Q ->
  Binary64.round (random * 9000) = Binary64.Fin (Binary64.nearest (random * 9000))
  /\ Binary64.round (1000 + Binary64.nearest (random * 9000))
     = Binary64.Fin (Binary64.nearest (1000 + Binary64.nearest (random * 9000))).
Proof.
  intros H0 H1.
  assert (Hb : (10000 <= Binary64.pow2 1023)%Q) by (vm_compute; discriminate).
  assert (Hp0 : (0 <= Binary64.nearest (random * 9000))%Q) by (apply nearest_nonneg; lra).
  assert (Hp1 : (Binary64.nearest (random * 9000) <= Binary64.nearest 9000)%Q)
    by (apply nearest_mono; lra).
  change (Binary64.nearest 9000) with 9000%Q in Hp1.
  split; apply round_finite; lra.
Qed.

(** Case analysis on a decimal digit. *)
Ltac each_digit k :=
  let H := fresh in
  assert (H : k = 0 \/ k = 1 \/ k = 2 \/ k = 3 \/ k = 4 \/ k = 5 \/ k = 6 \/ k = 7
                  \/ k = 8 \/ k = 9) by lia;
  repeat (destruct H as [-> | H]); [.. | subst k].

Lemma of_lu_digit k x :
  0 <= k <= 9 -> Unsigned.of_lu (digit k x) = (Z.to_N k + 10 * Unsigned.of_lu x)%N.
Proof. intros Hk. each_digit k; cbn [digit Unsigned.of_lu]; lia. Qed.

Lemma revapp_digit k x acc :
  0 <= k <= 9 -> Decimal.revapp (digit k x) acc = Decimal.revapp x (digit k acc).
Proof. intros Hk. each_digit k; reflexivity. Qed.

Lemma unorm_digit k x : 1 <= k <= 9 -> Decimal.unorm (digit k x) = digit k x.
Proof. intros Hk. each_digit k; try lia; reflexivity. Qed.

Lemma string_of_digit k x :
  0 <= k <= 9 ->
  NilZero.string_of_uint (digit k x) = String (digitChar k) (NilEmpty.string_of_uint x).
Proof. intros Hk. each_digit k; reflexivity. Qed.

Lemma string_of_digits k x :
  0 <= k <= 9 ->
  NilEmpty.string_of_uint (digit k x) = String (digitChar k) (NilEmpty.string_of_uint x).
Proof. intros Hk. each_digit k; reflexivity. Qed.

Lemma digitChar_isDigit k : 0 <= k <= 9 -> JS.isDigit (digitChar k) = true.
Proof. intros Hk. each_digit k; reflexivity. Qed.

Lemma digitChar_value k : 0 <= k <= 9 -> Z.of_nat (nat_of_ascii (digitChar k)) - 48 = k.
Proof. intros Hk. each_digit k; reflexivity. Qed.

(** An integer between 1000 and 9999 prints as its four decimal digits. *)
Lemma toString_digits (n : Z) :
  1000 <= n <= 9999 ->
  JS.toString n
  = String (digitChar (n / 1000))
      (String (digitChar (n / 100 mod 10))
         (String (digitChar (n / 10 mod 10))
            (String (digitChar (n mod 10)) EmptyString))).
Proof.
  intros Hn.
  set (a := n / 1000). set (b := n / 100 mod 10). set (c := n / 10 mod 10).
  set (d := n mod 10).
  assert (Ha : 1 <= a <= 9) by (subst a; Z.div_mod_to_equations; lia).
  assert (Hb : 0 <= b <= 9) by (subst b; Z.div_mod_to_equations; lia).
  assert (Hc : 0 <= c <= 9) by (subst c; Z.div_mod_to_equations; lia).
  assert (Hd : 0 <= d <= 9) by (subst d; Z.div_mod_to_equations; lia).
  assert (Hsum : n = 1000 * a + 100 * b + 10 * c + d)
    by (subst a b c d; Z.div_mod_to_equations; lia).
  set (u := digit a (digit b (digit c (digit d Decimal.Nil)))).
  assert (Hu : Z.of_int (Decimal.Pos u) = n).
  { cbn [Z.of_int]. unfold Z.of_uint. rewrite Unsigned.of_uint_alt.
    unfold u, Decimal.rev. rewrite !revapp_digit by lia. cbn [Decimal.revapp].
    rewrite !of_lu_digit by lia. cbn [Unsigned.of_lu]. lia. }
  unfold JS.toString. rewrite <- Hu at 1. rewrite DecimalZ.to_of.
  cbn [Decimal.norm]. unfold u. rewrite unorm_digit by lia.
  cbn [NilZero.string_of_int].
  rewrite string_of_digit by lia. rewrite !string_of_digits by lia.
  reflexivity.
Qed.

(** The print of such an integer has the four-digit shape and reads back
    as the integer. *)
Lemma toString_four_digits (n : Z) :
  1000 <= n <= 9999 ->
  fourDigits (JS.toString n) /\ JS.digitsValue 0 (JS.toString n) = n.
Proof.
  intros Hn. rewrite (toString_digits n Hn).
  assert (Ha : 0 <= n / 1000 <= 9) by (Z.div_mod_to_equations; lia).
  assert (Hb : 0 <= n / 100 mod 10 <= 9) by (Z.div_mod_to_equations; lia).
  assert (Hc : 0 <= n / 10 mod 10 <= 9) by (Z.div_mod_to_equations; lia).
  assert (Hd : 0 <= n mod 10 <= 9) by (Z.div_mod_to_equations; lia).
  assert (Hv : JS.digitsValue 0
                 (String (digitChar (n / 1000))
                    (String (digitChar (n / 100 mod 10))
                       (String (digitChar (n / 10 mod 10))
                          (String (digitChar (n mod 10)) EmptyString)))) = n).
  { cbn [JS.digitsValue]. rewrite !digitChar_value by assumption.
    Z.div_mod_to_equations; lia. }
  split; [| exact Hv]. unfold fourDigits. rewrite Hv.
  split; [reflexivity |]. split; [| exact Hn].
  cbn [JS.allDigits]. rewrite !digitChar_isDigit by assumption. reflexivity.
Qed.

Lemma generateOTP_four_digits (random : Q) :
  Binary64.isDouble random = true -> (0 <= random)%Q -> (random < 1)%Q ->
  fourDigits (generateOTP random).
Proof.
  intros Hd H0 H1. unfold generateOTP.
  apply toString_four_digits, otp_number_range; assumption.
Qed.

(** ** C5: the fee engine *)




(** ** C6: codes at creation *)

Lemma codes_from_fees (declared : Q) (pkg : Pkg.t) (r0 r1 : Q) :
  Binary64.isDouble r0 = true -> (0 <= r0)%Q -> (r0 < 1)%Q ->
  Binary64.isDouble r1 = true -> (0 <= r1)%Q -> (r1 < 1)%Q ->
  Pkg.declaredValue pkg = declared ->
  Pkg.isHighValue pkg = JS.gt declared 10000 ->
  Pkg.otpWarehouse pkg = (if Pkg.isHighValue pkg then Some (generateOTP r0) else None) ->
  Pkg.otpDelivery pkg = (if Pkg.isHighValue pkg then Some (generateOTP r1) else None) ->
  codesAsPolicy declared pkg.
Proof.
  intros D0 H0 H0' D1 H1 H1' Hdv Hhv Hw Hd. split; [exact Hdv |]. split; intros Hv.
  - apply gt_spec in Hv. rewrite Hv in Hhv. rewrite Hhv in Hw, Hd.
    split; [exact Hhv |].
    exists (generateOTP r0), (generateOTP r1).
    auto using generateOTP_four_digits.
  - apply gt_false in Hv. rewrite Hv in Hhv. rewrite Hhv in Hw, Hd. auto.
Qed.

(** C6.  When [Math.random] returns binary64 numbers in the interval from
    0 (included) to 1 (excluded), a package created by [onCreatePackage]
    from a form whose declared value parses to a number above 10000
    carries that value, is high-value, and both its codes are strings of
    exactly four decimal digits denoting a number between 1000 and 9999;
    when the value is at most 10000, or is not a number and counts as 0,
    both codes are [null].  This holds for the package the in-memory
    edition returns and puts in front of [packages], and for the row the
    Supabase edition inserts. *)
Theorem onCreatePackage_codes (parseFloat : string -> option Q)
    (random36 : string) (rnd : nat -> Q) (form : Form.t)
    (clk : nat -> Z) (user : User.t) (s : InMemory.State)
    (inserted logged : Supabase.Defaults) (c : Supabase.Client) (db : Supabase.Db) :
  Binary64.isDouble (rnd 0%nat) = true -> (0 <= rnd 0%nat)%Q -> (rnd 0%nat < 1)%Q ->
  Binary64.isDouble (rnd 1%nat) = true -> (0 <= rnd 1%nat)%Q -> (rnd 1%nat < 1)%Q ->
  let declared := JS.orZero (parseFloat (Form.declaredValue form)) in
  (let (s', pkg) := InMemory.onCreatePackage parseFloat clk random36 rnd user form s in
   codesAsPolicy declared pkg
   /\ InMemory.packages s' = pkg :: InMemory.packages s)
  /\ (exists data,
        snd (Supabase.onCreatePackage parseFloat (Some inserted) logged random36 rnd c form db)
          = Some data
        /\ codesAsPolicy declared data
        /\ In data (Supabase.packages
                      (fst (Supabase.onCreatePackage parseFloat (Some inserted) logged
                              random36 rnd c form db)))).
Proof.
  intros D0 H0 H0' D1 H1 H1'. cbv zeta. split.
  - unfold InMemory.onCreatePackage. split; [| reflexivity].
    apply (codes_from_fees _ _ (rnd 0%nat) (rnd 1%nat)); auto; reflexivity.
  - unfold Supabase.onCreatePackage. eexists. split; [reflexivity |]. split.
    + apply (codes_from_fees _ _ (rnd 0%nat) (rnd 1%nat)); auto; reflexivity.
    + cbn. apply in_or_app. right. left. reflexivity.
Qed.

Lemma onCreatePackage_codes_witness :
  let parseFloat := fun text => if String.eqb text "15000" then Some 15000%Q else None in
  let form := Form.mk "Sarit Centre" "Garden City Mall" "Kasarani" "Camera" "small" "15000" in
  let created :=
    snd (InMemory.onCreatePackage parseFloat (fun _ => 1700000000000) "0.k3x9q2m7p"
           (fun _ => 1 # 2)%Q (User.mk "cust-09" "Wanjiku") form (InMemory.initial 0)) in
  Pkg.otpWarehouse created = Some "5500" /\ codesAsPolicy 15000 created.
Proof.
  cbv zeta. split; [reflexivity |].
  pose proof (onCreatePackage_codes
                (fun text => if String.eqb text "15000" then Some 15000%Q else None)
                "0.k3x9q2m7p" (fun _ => 1 # 2)%Q
                (Form.mk "Sarit Centre" "Garden City Mall" "Kasarani" "Camera" "small" "15000")
                (fun _ => 1700000000000) (User.mk "cust-09" "Wanjiku") (InMemory.initial 0)
                (Supabase.mkDefaults "row-1" 0) (Supabase.mkDefaults "row-2" 0)
                (Supabase.mkClient (User.mk "cust-09" "Wanjiku") [] [])
                (Supabase.mkDb [] [])) as H.
  destruct H as [H _];
    [reflexivity | discriminate | reflexivity | reflexivity | discriminate | reflexivity |].
  exact (proj1 H).
Defined.

(** ** How the handlers rewrite the packages *)

Lemma mapById_Forall2 (R : Pkg.t -> Pkg.t -> Prop) (id : string) (f : Pkg.t -> Pkg.t)
    (ps : list Pkg.t) :
  (forall p, R p p) -> (forall p, Pkg.id p = id -> R p (f p)) ->
  Forall2 R ps (mapById id f ps).
Proof.
  intros Hrefl Hf. induction ps as [| p ps IH]; cbn; constructor; [| exact IH].
  destruct (String.eqb (Pkg.id p) id) eqn:E; [| apply Hrefl].
  apply Hf. apply String.eqb_eq, E.
Qed.

Lemma In_mapById (id : string) (f : Pkg.t -> Pkg.t) (ps : list Pkg.t) (p' : Pkg.t) :
  In p' (mapById id f ps) ->
  exists p, In p ps /\ p' = (if String.eqb (Pkg.id p) id then f p else p).
Proof.
  unfold mapById. rewrite in_map_iff. intros (p & Hp & Hin). eauto.
Qed.

Lemma findById_In (id : string) (ps : list Pkg.t) (p : Pkg.t) :
  In p ps -> Pkg.id p = id -> exists q, findById id ps = Some q.
Proof.
  intros Hin Hid. unfold findById.
  destruct (List.find _ ps) as [q |] eqn:E; [eauto |].
  exfalso. pose proof (find_none _ _ E p Hin) as Hn. cbn in Hn.
  apply String.eqb_eq in Hid. congruence.
Qed.

(** Every call of the in-memory edition rewrites the packages carrying one
    id with one of the handlers' update literals and the time stamp. *)
Lemma InMemory_call_packages (clk : nat -> Z) (c : Call) (s : InMemory.State) :
  exists id u,
    neverClears u
    /\ InMemory.packages (InMemoryRun.call clk c s)
       = mapById id (fun p => touch (clk 0%nat) (assign u p)) (InMemory.packages s).
Proof.
  destruct c as [pkgId r | pkgId r | pkgId r | pkgId r | pkgId type | pkgId r]; cbn;
    try (eexists _, _; split; [| reflexivity]; split; cbn; discriminate).
  unfold InMemory.onVerifyOTP.
  destruct (String.eqb type "warehouse"), (findById pkgId (InMemory.packages s));
    cbn; eexists _, _; (split; [| reflexivity]); split; cbn; discriminate.
Qed.

(** Every call of the Supabase edition rewrites the rows carrying one id
    with one of the handlers' update literals. *)
Lemma Supabase_call_packages (d : nat -> Supabase.Defaults) (cl : Supabase.Client)
    (c : Call) (db : Supabase.Db) :
  exists id u,
    neverClears u
    /\ Supabase.packages (SupabaseRun.call d cl c db)
       = mapById id (assign u) (Supabase.packages db).
Proof.
  destruct c as [pkgId r | pkgId r | pkgId r | pkgId r | pkgId type | pkgId r]; cbn;
    try (eexists _, _; split; [| reflexivity]; split; cbn; discriminate).
  unfold Supabase.onVerifyOTP.
  destruct (String.eqb type "warehouse");
    cbn; eexists _, _; (split; [| reflexivity]); split; cbn; discriminate.
Qed.

(** A relation between the versions of a package that holds across every
    rewrite the handlers make holds, position by position, across every
    call and every sequence of calls. *)
Section AcrossCalls.
Variable R : Pkg.t -> Pkg.t -> Prop.
Hypothesis R_refl : forall p, R p p.
Hypothesis R_trans : forall p q r, R p q -> R q r -> R p r.
Hypothesis R_assign : forall u p, neverClears u -> R p (assign u p).
Hypothesis R_touch : forall now p, R p (touch now p).

Lemma InMemory_call_related clk c s :
  Forall2 R (InMemory.packages s) (InMemory.packages (InMemoryRun.call clk c s)).
Proof.
  destruct (InMemory_call_packages clk c s) as (id & u & Hu & ->).
  apply mapById_Forall2; [exact R_refl |].
  intros p _. eapply R_trans; [apply R_assign, Hu | apply R_touch].
Qed.

Lemma Supabase_call_related d cl c db :
  Forall2 R (Supabase.packages db) (Supabase.packages (SupabaseRun.call d cl c db)).
Proof.
  destruct (Supabase_call_packages d cl c db) as (id & u & Hu & ->).
  apply mapById_Forall2; [exact R_refl |].
  intros p _. apply R_assign, Hu.
Qed.

Lemma Forall2_R_refl (ps : list Pkg.t) : Forall2 R ps ps.
Proof. induction ps; constructor; auto. Qed.

Lemma Forall2_R_trans (ps qs rs : list Pkg.t) :
  Forall2 R ps qs -> Forall2 R qs rs -> Forall2 R ps rs.
Proof.
  intros H. revert rs. induction H as [| p q ps qs Hpq _ IH]; intros rs Hqr.
  - inversion Hqr. constructor.
  - inversion Hqr as [| ? r ? rs' Hqr1 Hqr2]; subst. constructor; eauto.
Qed.

Lemma InMemory_calls_related cs s :
  Forall2 R (InMemory.packages s) (InMemory.packages (InMemoryRun.calls cs s)).
Proof.
  revert s. induction cs as [| [clk c] cs IH]; intros s; cbn.
  - apply Forall2_R_refl.
  - eapply Forall2_R_trans; [apply InMemory_call_related | apply IH].
Qed.

Lemma Supabase_calls_related cs db :
  Forall2 R (Supabase.packages db) (Supabase.packages (SupabaseRun.calls cs db)).
Proof.
  revert db. induction cs as [| [[d cl] c] cs IH]; intros db; cbn.
  - apply Forall2_R_refl.
  - eapply Forall2_R_trans; [apply Supabase_call_related | apply IH].
Qed.

End AcrossCalls.

(** ** C7: the fee fields *)

Lemma sameFees_refl (p : Pkg.t) : sameFees p p.
Proof. repeat split. Qed.

Lemma sameFees_trans (p q r : Pkg.t) : sameFees p q -> sameFees q r -> sameFees p r.
Proof. unfold sameFees. intros (? & ? & ?) (? & ? & ?). repeat split; congruence. Qed.

Lemma sameFees_assign (u : Updates.t) (p : Pkg.t) : neverClears u -> sameFees p (assign u p).
Proof. intros _. repeat split. Qed.

Lemma sameFees_touch (now : Z) (p : Pkg.t) : sameFees p (touch now p).
Proof. repeat split. Qed.

Lemma sameFees_feesAddUp (ps qs : list Pkg.t) :
  Forall2 sameFees ps qs -> Forall feesAddUp ps -> Forall feesAddUp qs.
Proof.
  induction 1 as [| p q ps qs (Hb & Hf & Ht) _ IH]; intros Hall; [constructor |].
  inversion Hall as [| ? ? Hp Hps]; subst. constructor; [| auto].
  unfold feesAddUp in *. congruence.
Qed.

(** C7, as the claim states it, fails at creation: the total is the
    binary64 sum of base and protection fee.  A booking that declares
    [10^23] (as binary64) creates a package whose total equals its
    protection fee, 1499999999999999737856, not base plus protection
    fee. *)
Lemma creation_breaks_fee_sum :
  let parseFloat := fun text =>
    if String.eqb text "1e23" then Some 99999999999999991611392%Q else None in
  let form := Form.mk "Sarit Centre" "Garden City Mall" "Kasarani" "Bullion" "large" "1e23" in
  let created :=
    snd (InMemory.onCreatePackage parseFloat (fun _ => 1700000000000) "0.k3x9q2m7p"
           (fun _ => 1 # 2)%Q (User.mk "cust-09" "Wanjiku") form (InMemory.initial 0)) in
  Binary64.isDouble 99999999999999991611392 = true
  /\ Pkg.base created = 200
  /\ Pkg.protectionFee created = 1499999999999999737856
  /\ Pkg.total created = 1499999999999999737856
  /\ ~ feesAddUp created.
Proof.
  cbv zeta. split; [vm_compute; reflexivity |].
  split; [reflexivity |]. split; [vm_compute; reflexivity |].
  split; [vm_compute; reflexivity |].
  unfold feesAddUp. vm_compute. discriminate.
Qed.

(** C7, amended.  The package [onCreatePackage] creates has
    [total = base + protectionFee], in both editions, whenever the
    declared value is at most [10^17]; for larger values the total, a
    binary64 sum, can fall short.  The packages [App] starts with
    satisfy the invariant.  No call of AcceptCollection, MarkAtWarehouse,
    AcceptDelivery, Dispatch, VerifyCode or MarkDelivered, and no sequence
    of such calls, changes the [base], [protectionFee] or [total] of any
    package; so when the invariant holds of all packages it still holds
    after such a creation and after any sequence of calls. *)
Theorem fees_invariant (parseFloat : string -> option Q)
    (random36 : string) (rnd : nat -> Q) (form : Form.t) (loaded : Z)
    (clk : nat -> Z) (user : User.t) (s : InMemory.State)
    (cs : list ((nat -> Z) * Call))
    (inserted : option Supabase.Defaults) (logged : Supabase.Defaults)
    (cl : Supabase.Client) (db : Supabase.Db)
    (dcs : list ((nat -> Supabase.Defaults) * Supabase.Client * Call)) :
  let declared := JS.orZero (parseFloat (Form.declaredValue form)) in
  let created := InMemory.onCreatePackage parseFloat clk random36 rnd user form s in
  let inserting := Supabase.onCreatePackage parseFloat inserted logged random36 rnd cl form db in
  ((declared <= 100000000000000000)%Q ->
   feesAddUp (snd created)
   /\ (forall data, snd inserting = Some data -> feesAddUp data)
   /\ (Forall feesAddUp (InMemory.packages s) ->
       Forall feesAddUp (InMemory.packages (fst created)))
   /\ (Forall feesAddUp (Supabase.packages db) ->
       Forall feesAddUp (Supabase.packages (fst inserting))))
  /\ Forall feesAddUp (InMemory.initialPackages loaded)
  /\ Forall2 sameFees (InMemory.packages s) (InMemory.packages (InMemoryRun.calls cs s))
  /\ Forall2 sameFees (Supabase.packages db) (Supabase.packages (SupabaseRun.calls dcs db))
  /\ (Forall feesAddUp (InMemory.packages s) ->
      Forall feesAddUp (InMemory.packages (InMemoryRun.calls cs s)))
  /\ (Forall feesAddUp (Supabase.packages db) ->
      Forall feesAddUp (Supabase.packages (SupabaseRun.calls dcs db))).
Proof.
  cbv zeta.
  assert (Hmem : Forall2 sameFees (InMemory.packages s)
                   (InMemory.packages (InMemoryRun.calls cs s))).
  { apply InMemory_calls_related;
      auto using sameFees_refl, sameFees_assign, sameFees_touch.
    exact sameFees_trans. }
  assert (Hdb : Forall2 sameFees (Supabase.packages db)
                  (Supabase.packages (SupabaseRun.calls dcs db))).
  { apply Supabase_calls_related; auto using sameFees_refl, sameFees_assign.
    exact sameFees_trans. }
  split.
  { intros Hv. pose proof (total_exact _ Hv) as Ht.
    split; [exact Ht |]. split; [| split].
    - unfold Supabase.onCreatePackage. destruct inserted; cbn [snd]; [| discriminate].
      intros data [= <-]. exact Ht.
    - intros Hall. unfold InMemory.onCreatePackage.
      cbn [fst InMemory.addLog InMemory.packages].
      constructor; [exact Ht | exact Hall].
    - intros Hall. unfold Supabase.onCreatePackage.
      destruct inserted; cbn [fst Supabase.addLog Supabase.packages]; [| exact Hall].
      apply Forall_app. split; [exact Hall |].
      constructor; [exact Ht | constructor]. }
  split; [repeat constructor |].
  split; [exact Hmem |]. split; [exact Hdb |]. split.
  - intros Hall. eapply sameFees_feesAddUp; eauto.
  - intros Hall. eapply sameFees_feesAddUp; eauto.
Qed.

Lemma fees_invariant_witness :
  Forall feesAddUp
    (InMemory.packages
       (InMemoryRun.calls
          [ (fun _ => 5, Dispatch "pkg-002" "rider-04");
            (fun _ => 9, VerifyCode "pkg-002" "delivery");
            (fun _ => 12, MarkDelivered "pkg-002" "rider-04") ]
          (fst (InMemory.onCreatePackage
                  (fun text => if String.eqb text "15000" then Some 15000%Q else None)
                  (fun _ => 1) "0.k3x9q2m7p" (fun _ => 1 # 2)%Q
                  (User.mk "cust-09" "Wanjiku")
                  (Form.mk "a" "b" "CBD" "c" "small" "15000") (InMemory.initial 0))))).
Proof.
  pose proof (fees_invariant
                (fun text => if String.eqb text "15000" then Some 15000%Q else None)
                "0.k3x9q2m7p" (fun _ => 1 # 2)%Q
                (Form.mk "a" "b" "CBD" "c" "small" "15000") 0 (fun _ => 1)
                (User.mk "cust-09" "Wanjiku") (InMemory.initial 0) []
                None (Supabase.mkDefaults "row-2" 0)
                (Supabase.mkClient (User.mk "cust-09" "Wanjiku") [] [])
                (Supabase.mkDb [] []) []) as H.
  cbv zeta in H. destruct H as (Hnew & Hinit & _).
  destruct Hnew as (_ & _ & Hfront & _); [discriminate |].
  pose proof (fees_invariant (fun _ => None) "0.k3x9q2m7p" (fun _ => 1 # 2)%Q
                (Form.mk "a" "b" "CBD" "c" "small" "") 0 (fun _ => 1)
                (User.mk "cust-09" "Wanjiku")
                (fst (InMemory.onCreatePackage
                        (fun text => if String.eqb text "15000" then Some 15000%Q else None)
                        (fun _ => 1) "0.k3x9q2m7p" (fun _ => 1 # 2)%Q
                        (User.mk "cust-09" "Wanjiku")
                        (Form.mk "a" "b" "CBD" "c" "small" "15000") (InMemory.initial 0)))
                [ (fun _ => 5, Dispatch "pkg-002" "rider-04");
                  (fun _ => 9, VerifyCode "pkg-002" "delivery");
                  (fun _ => 12, MarkDelivered "pkg-002" "rider-04") ]
                None (Supabase.mkDefaults "row-2" 0)
                (Supabase.mkClient (User.mk "cust-09" "Wanjiku") [] [])
                (Supabase.mkDb [] []) []) as H'.
  cbv zeta in H'. destruct H' as (_ & _ & _ & _ & Hmem & _).
  apply Hmem, Hfront, Hinit.
Defined.

(** ** C8: the verified flags *)

Lemma verifiedKept_refl (p : Pkg.t) : verifiedKept p p.
Proof. split; auto. Qed.

Lemma verifiedKept_trans (p q r : Pkg.t) :
  verifiedKept p q -> verifiedKept q r -> verifiedKept p r.
Proof. unfold verifiedKept. intros [? ?] [? ?]. split; auto. Qed.

Lemma verifiedKept_assign (u : Updates.t) (p : Pkg.t) :
  neverClears u -> verifiedKept p (assign u p).
Proof.
  intros [Hw Hd]. unfold verifiedKept, assign; cbn. split; intros Hp.
  - destruct (Updates.otpWarehouseVerified u) as [[|] |]; cbn; congruence.
  - destruct (Updates.otpDeliveryVerified u) as [[|] |]; cbn; congruence.
Qed.

Lemma verifiedKept_touch (now : Z) (p : Pkg.t) : verifiedKept p (touch now p).
Proof. split; auto. Qed.

Lemma InMemory_calls_app cs1 cs2 s :
  InMemoryRun.calls (cs1 ++ cs2) s = InMemoryRun.calls cs2 (InMemoryRun.calls cs1 s).
Proof.
  revert s. induction cs1 as [| [clk c] cs1 IH]; intros s; cbn; [reflexivity | apply IH].
Qed.

Lemma Supabase_calls_app cs1 cs2 db :
  SupabaseRun.calls (cs1 ++ cs2) db = SupabaseRun.calls cs2 (SupabaseRun.calls cs1 db).
Proof.
  revert db. induction cs1 as [| [[d cl] c] cs1 IH]; intros db; cbn; [reflexivity | apply IH].
Qed.

(** C8.  In both editions, take the packages at any point of a sequence
    of calls of AcceptCollection, MarkAtWarehouse, AcceptDelivery,
    Dispatch, VerifyCode and MarkDelivered ([before] has been run) and at
    any later point ([later] has been run too): each package whose
    [otpWarehouseVerified] was [true] still has it [true], and likewise
    for [otpDeliveryVerified].  A flag that is set is never cleared, hence
    it goes from [false] to [true] at most once. *)
Theorem verified_flags_never_revert
    (s : InMemory.State) (before later : list ((nat -> Z) * Call))
    (db : Supabase.Db)
    (dbefore dlater : list ((nat -> Supabase.Defaults) * Supabase.Client * Call)) :
  Forall2 verifiedKept
    (InMemory.packages (InMemoryRun.calls before s))
    (InMemory.packages (InMemoryRun.calls (before ++ later) s))
  /\ Forall2 verifiedKept
       (Supabase.packages (SupabaseRun.calls dbefore db))
       (Supabase.packages (SupabaseRun.calls (dbefore ++ dlater) db)).
Proof.
  rewrite InMemory_calls_app, Supabase_calls_app. split.
  - apply InMemory_calls_related;
      auto using verifiedKept_refl, verifiedKept_assign, verifiedKept_touch.
    exact verifiedKept_trans.
  - apply Supabase_calls_related; auto using verifiedKept_refl, verifiedKept_assign.
    exact verifiedKept_trans.
Qed.

(** ** C9: dispatch *)

Lemma mapById_rewritten (id : string) (f : Pkg.t -> Pkg.t)
    (hit : Pkg.t -> Pkg.t -> Prop) (ps : list Pkg.t) :
  (forall p, hit p (f p)) -> rewritten id hit ps (mapById id f ps).
Proof.
  intros Hf. unfold rewritten.
  induction ps as [| p ps IH]; cbn; constructor; [| exact IH].
  destruct (String.eqb (Pkg.id p) id); [apply Hf | reflexivity].
Qed.

(** C9, as the claim states it, fails on the in-memory edition: a
    dispatch of pkg-002 at clock reading 1000 also changes the package's
    [updatedAt], from unset to 1000. *)
Lemma dispatch_changes_updatedAt :
  Pkg.updatedAt <$> findById "pkg-002" (InMemory.packages (InMemory.initial 0))
    = Some None
  /\ Pkg.updatedAt <$> findById "pkg-002"
       (InMemory.packages
          (InMemory.onDispatch (fun _ => 1000) "pkg-002" "rider-02" (InMemory.initial 0)))
     = Some (Some 1000).
Proof. split; reflexivity. Qed.

(** C9, amended.  A single [onDispatch(pkgId, riderId)] sets
    [riderDeliveryId] to the rider and [status] to [out_for_delivery] on
    the packages carrying [pkgId], leaves every other package as it was,
    and appends exactly two ledger entries for [pkgId]: the admin's
    DISPATCHED_TO_RIDER, then the rider's OUT_FOR_DELIVERY.  In the
    Supabase edition no other field of the package changes; in the
    in-memory edition [updatedAt] is stamped with the clock reading and
    no other field changes. *)
Theorem onDispatch_effect (pkgId riderId : string)
    (clk : nat -> Z) (s : InMemory.State)
    (d : nat -> Supabase.Defaults) (cl : Supabase.Client) (db : Supabase.Db) :
  rewritten pkgId
    (fun p p' => dispatchedTo riderId p p' /\ Pkg.updatedAt p' = Some (clk 0%nat))
    (InMemory.packages s) (InMemory.packages (InMemory.onDispatch clk pkgId riderId s))
  /\ dispatchLedger pkgId riderId
       (InMemory.logs s) (InMemory.logs (InMemory.onDispatch clk pkgId riderId s))
  /\ rewritten pkgId
       (fun p p' => dispatchedTo riderId p p' /\ Pkg.updatedAt p' = Pkg.updatedAt p)
       (Supabase.packages db) (Supabase.packages (Supabase.onDispatch d cl pkgId riderId db))
  /\ dispatchLedger pkgId riderId
       (Supabase.transit_logs db)
       (Supabase.transit_logs (Supabase.onDispatch d cl pkgId riderId db)).
Proof.
  split; [| split; [| split]].
  - apply mapById_rewritten. intros p. unfold dispatchedTo, sameDetails. cbn.
    repeat split.
  - unfold dispatchLedger. cbn. rewrite <- app_assoc. cbn.
    eexists _, _. split; [reflexivity |]. cbn. repeat split.
  - apply mapById_rewritten. intros p. unfold dispatchedTo, sameDetails. cbn.
    repeat split.
  - unfold dispatchLedger. cbn. rewrite <- app_assoc. cbn.
    eexists _, _. split; [reflexivity |]. cbn. repeat split.
Qed.

(** ** C10 and C4: verification *)

Lemma strictEq_true (a : string) (b : option string) :
  JS.strictEq a b = true <-> b = Some a.
Proof.
  destruct b as [c |]; cbn; [| split; discriminate].
  rewrite String.eqb_eq. split; congruence.
Qed.

Lemma strictEq_false (a : string) (b : option string) :
  JS.strictEq a b = false <-> Some a <> b.
Proof.
  destruct (JS.strictEq a b) eqn:E.
  - apply strictEq_true in E. subst. split; [discriminate | congruence].
  - split; [| reflexivity]. intros _ Heq. symmetry in Heq.
    apply strictEq_true in Heq. congruence.
Qed.

(** C10.  [onVerifyOTP(pkgId, type)] takes no submitted code and compares
    nothing.  In the in-memory edition, whenever some package carries
    [pkgId], the call returns, sets the flag of kind [type] on every
    package carrying the id (whatever its codes, value, status or riders),
    leaves the other packages as they were and appends one ledger entry,
    OTP_WAREHOUSE_VERIFIED or OTP_DELIVERY_VERIFIED.  In the Supabase
    edition it does so for every [pkgId].  The comparison with the stored
    code is made by the rider screen's [handleOTPVerify], which invokes
    the handler exactly when the entered text is identical to the stored
    code. *)
Theorem onVerifyOTP_unconditional (pkgId type : string)
    (clk : nat -> Z) (s : InMemory.State) (p : Pkg.t)
    (d : nat -> Supabase.Defaults) (cl : Supabase.Client) (db : Supabase.Db)
    (pkg : Pkg.t) (ui : RiderApp.UI) :
  findById pkgId (InMemory.packages s) = Some p ->
  (exists s',
      InMemory.onVerifyOTP clk pkgId type s = Returned s'
      /\ rewritten pkgId (fun _ q' => verifiedFlag type q' = true)
           (InMemory.packages s) (InMemory.packages s')
      /\ oneEntry pkgId (verifiedEvent type) (InMemory.logs s) (InMemory.logs s'))
  /\ (exists db',
        Supabase.onVerifyOTP d cl pkgId type db = Returned db'
        /\ rewritten pkgId (fun _ q' => verifiedFlag type q' = true)
             (Supabase.packages db) (Supabase.packages db')
        /\ oneEntry pkgId (verifiedEvent type)
             (Supabase.transit_logs db) (Supabase.transit_logs db'))
  /\ (let entered := JS.orEmpty (RiderApp.otpInput ui !! RiderApp.key pkg type) in
      snd (RiderApp.handleOTPVerify (InMemory.onVerifyOTP clk) pkg type ui s)
        = (if JS.strictEq entered (storedCode type pkg)
           then InMemory.onVerifyOTP clk (Pkg.id pkg) type s
           else Returned s)
      /\ snd (RiderApp.handleOTPVerify (Supabase.onVerifyOTP d cl) pkg type ui db)
         = (if JS.strictEq entered (storedCode type pkg)
            then Supabase.onVerifyOTP d cl (Pkg.id pkg) type db
            else Returned db)).
Proof.
  intros Hfind. split; [| split].
  - unfold InMemory.onVerifyOTP, verifiedFlag, verifiedEvent, oneEntry. rewrite Hfind.
    destruct (String.eqb type "warehouse"); eexists; (split; [reflexivity |]); cbn;
      (split; [apply mapById_rewritten; reflexivity |]);
      eexists; (split; [reflexivity |]); split; reflexivity.
  - unfold Supabase.onVerifyOTP, verifiedFlag, verifiedEvent, oneEntry.
    destruct (String.eqb type "warehouse"); eexists; (split; [reflexivity |]); cbn;
      (split; [apply mapById_rewritten; reflexivity |]);
      eexists; (split; [reflexivity |]); split; reflexivity.
  - cbv zeta. unfold RiderApp.handleOTPVerify, storedCode.
    destruct (JS.strictEq _ _); [| split; reflexivity]. split.
    + destruct (InMemory.onVerifyOTP clk (Pkg.id pkg) type s); reflexivity.
    + destruct (Supabase.onVerifyOTP d cl (Pkg.id pkg) type db); reflexivity.
Qed.

Lemma onVerifyOTP_unconditional_witness :
  exists s',
    InMemory.onVerifyOTP (fun _ => 1000) "pkg-003" "delivery" (InMemory.initial 0)
      = Returned s'
    /\ (Pkg.otpDeliveryVerified <$> findById "pkg-003" (InMemory.packages s')) = Some true
    /\ oneEntry "pkg-003" "OTP_DELIVERY_VERIFIED"
         (InMemory.logs (InMemory.initial 0)) (InMemory.logs s').
Proof.
  destruct (findById "pkg-003" (InMemory.packages (InMemory.initial 0))) as [p |] eqn:Hfind;
    [| discriminate].
  destruct (onVerifyOTP_unconditional "pkg-003" "delivery" (fun _ => 1000)
              (InMemory.initial 0) p (fun _ => Supabase.mkDefaults "row-1" 0)
              (Supabase.mkClient (User.mk "rider-03" "Zawadi Mwangi") [] [])
              (Supabase.mkDb [] []) p (RiderApp.mkUI active ∅ ∅) Hfind)
    as ((s' & Hret & _ & Hlog) & _).
  exists s'. split; [exact Hret |]. split; [| exact Hlog].
  injection Hret as <-. reflexivity.
Defined.

(** C4.  Take any attempt to verify a code of either kind on the rider
    screen.  When the text entered for the package is not identical to
    the code stored for that kind (in particular when no code is
    stored), [handleOTPVerify] does not invoke the handler: in both
    editions the packages and the ledger are exactly what they were, so no
    verified flag is set and no entry is appended; only the screen's own
    error flag is raised. *)
Theorem wrong_code_changes_nothing (type : string) (pkg : Pkg.t) (ui : RiderApp.UI)
    (clk : nat -> Z) (s : InMemory.State)
    (d : nat -> Supabase.Defaults) (cl : Supabase.Client) (db : Supabase.Db) :
  Some (JS.orEmpty (RiderApp.otpInput ui !! RiderApp.key pkg type)) <> storedCode type pkg ->
  RiderApp.handleOTPVerify (InMemory.onVerifyOTP clk) pkg type ui s
    = ({| RiderApp.feed := RiderApp.feed ui;
          RiderApp.otpInput := RiderApp.otpInput ui;
          RiderApp.otpError := <[RiderApp.key pkg type := true]> (RiderApp.otpError ui) |},
       Returned s)
  /\ RiderApp.handleOTPVerify (Supabase.onVerifyOTP d cl) pkg type ui db
     = ({| RiderApp.feed := RiderApp.feed ui;
           RiderApp.otpInput := RiderApp.otpInput ui;
           RiderApp.otpError := <[RiderApp.key pkg type := true]> (RiderApp.otpError ui) |},
        Returned db).
Proof.
  intros Hne. apply strictEq_false in Hne.
  unfold RiderApp.handleOTPVerify, storedCode in *.
  rewrite Hne. split; reflexivity.
Qed.

Lemma wrong_code_changes_nothing_witness :
  snd (RiderApp.handleOTPVerify (InMemory.onVerifyOTP (fun _ => 1000))
         (InMemory.pkg_002 0) "delivery"
         (RiderApp.typeCode (InMemory.pkg_002 0) "delivery" "2268"
            (RiderApp.mkUI active ∅ ∅))
         (InMemory.initial 0))
  = Returned (InMemory.initial 0).
Proof.
  refine (f_equal snd
            (proj1 (wrong_code_changes_nothing "delivery" _ _ (fun _ => 1000)
                      (InMemory.initial 0) (fun _ => Supabase.mkDefaults "row-1" 0)
                      (Supabase.mkClient (User.mk "rider-03" "Zawadi Mwangi") [] [])
                      (Supabase.mkDb [] []) _))).
  vm_compute. discriminate.
Defined.

(** ** C1: the delivery gate *)


Lemma In_mapById_hit (id : string) (f : Pkg.t -> Pkg.t) (ps : list Pkg.t) (p : Pkg.t) :
  In p ps -> Pkg.id p = id -> In (f p) (mapById id f ps).
Proof.
  intros Hin Hid. unfold mapById. apply in_map_iff. exists p.
  apply String.eqb_eq in Hid. rewrite Hid. auto.
Qed.

(** C1, as the claim states it, fails: pkg-002 is high-value, dispatched
    to rider-04 and out for delivery with its delivery code not verified,
    and the rider's [onMarkDelivered] call goes through and sets the
    status to [delivered]. *)
Lemma markDelivered_without_code :
  Pkg.isHighValue <$> findById "pkg-002"
    (InMemory.packages
       (InMemory.onDispatch (fun _ => 1000) "pkg-002" "rider-04" (InMemory.initial 0)))
    = Some true
  /\ Pkg.otpDeliveryVerified <$> findById "pkg-002"
       (InMemory.packages
          (InMemory.onDispatch (fun _ => 1000) "pkg-002" "rider-04" (InMemory.initial 0)))
     = Some false
  /\ Pkg.status <$> findById "pkg-002"
       (InMemory.packages
          (InMemory.onDispatch (fun _ => 1000) "pkg-002" "rider-04" (InMemory.initial 0)))
     = Some out_for_delivery
  /\ Pkg.status <$> findById "pkg-002"
       (InMemory.packages
          (InMemory.onMarkDelivered (fun _ => 2000) "pkg-002" "rider-04"
             (InMemory.onDispatch (fun _ => 1000) "pkg-002" "rider-04"
                (InMemory.initial 0))))
     = Some delivered.
Proof. repeat split. Qed.

(** C1, amended.  [onMarkDelivered] has no guard and rejects nothing: in
    both editions a call sets the status of the packages carrying the id
    to [delivered] and appends a DELIVERED entry, whether or not the
    package is high-value and verified.  The gate is on the rider screen:
    Mark as Delivered is not rendered for a high-value package whose
    [otpDeliveryVerified] is [false].  For a package on screen that is out
    for delivery and bound to the rider, once [handleOTPVerify] has been
    given the stored delivery code the package's [otpDeliveryVerified] is
    [true], Mark as Delivered is rendered on its card in the rider's
    active list, and the [onMarkDelivered] call it makes sets the status to
    [delivered]. *)
Theorem markDelivered_gate (pkgId riderId : string)
    (clk clk' : nat -> Z) (s : InMemory.State)
    (d : nat -> Supabase.Defaults) (cl : Supabase.Client) (db : Supabase.Db)
    (rider : Rider.t) (pkg : Pkg.t) (ui : RiderApp.UI) :
  (rewritten pkgId (fun p p' => Pkg.status p' = delivered /\ Pkg.id p' = Pkg.id p)
     (InMemory.packages s) (InMemory.packages (InMemory.onMarkDelivered clk pkgId riderId s))
   /\ oneEntry pkgId "DELIVERED"
        (InMemory.logs s) (InMemory.logs (InMemory.onMarkDelivered clk pkgId riderId s)))
  /\ (rewritten pkgId (fun p p' => Pkg.status p' = delivered /\ Pkg.id p' = Pkg.id p)
        (Supabase.packages db) (Supabase.packages (Supabase.onMarkDelivered d cl pkgId db))
      /\ oneEntry pkgId "DELIVERED"
           (Supabase.transit_logs db)
           (Supabase.transit_logs (Supabase.onMarkDelivered d cl pkgId db)))
  /\ (Pkg.isHighValue pkg = true -> Pkg.otpDeliveryVerified pkg = false ->
      RiderApp.showsMarkDelivered rider pkg = false)
  /\ (In pkg (InMemory.packages s) ->
      Pkg.status pkg = out_for_delivery ->
      RiderApp.isMyDelivery rider pkg = true ->
      Pkg.otpDelivery pkg = Some (JS.orEmpty (RiderApp.otpInput ui !! RiderApp.key pkg "delivery")) ->
      exists s1,
        snd (RiderApp.handleOTPVerify (InMemory.onVerifyOTP clk) pkg "delivery" ui s)
          = Returned s1
        /\ (forall q, In q (InMemory.packages s1) -> Pkg.id q = Pkg.id pkg ->
            Pkg.otpDeliveryVerified q = true)
        /\ In (touch (clk 0%nat) (assign deliveryVerified pkg))
             (RiderApp.cards rider active (InMemory.packages s1))
        /\ RiderApp.showsMarkDelivered rider (touch (clk 0%nat) (assign deliveryVerified pkg))
           = true
        /\ (forall q, In q (InMemory.packages
                              (InMemory.onMarkDelivered clk' (Pkg.id pkg) (Rider.id rider) s1)) ->
            Pkg.id q = Pkg.id pkg -> Pkg.status q = delivered)).
Proof.
  split; [| split; [| split]].
  - split.
    + apply mapById_rewritten. intros p. split; reflexivity.
    + unfold oneEntry. cbn. eexists. split; [reflexivity |]. split; reflexivity.
  - split.
    + apply mapById_rewritten. intros p. split; reflexivity.
    + unfold oneEntry. cbn. eexists. split; [reflexivity |]. split; reflexivity.
  - intros Hhv Hv. unfold RiderApp.showsMarkDelivered. rewrite Hhv, Hv. cbn.
    apply andb_false_r.
  - intros Hin Hst Hmine Hcode.
    destruct (findById_In (Pkg.id pkg) (InMemory.packages s) pkg Hin eq_refl) as [q0 Hfind].
    unfold RiderApp.handleOTPVerify. cbn [String.eqb Ascii.eqb Bool.eqb].
    rewrite Hcode. cbn [JS.strictEq]. rewrite String.eqb_refl.
    unfold InMemory.onVerifyOTP. cbn [String.eqb Ascii.eqb Bool.eqb]. rewrite Hfind.
    eexists. split; [reflexivity |]. cbn [snd InMemory.packages InMemory.addLog InMemory.updatePkg].
    fold deliveryVerified.
    assert (Hnew : In (touch (clk 0%nat) (assign deliveryVerified pkg))
                     (mapById (Pkg.id pkg)
                        (fun p => touch (clk 0%nat) (assign deliveryVerified p))
                        (InMemory.packages s))).
    { apply (In_mapById_hit (Pkg.id pkg)
               (fun p => touch (clk 0%nat) (assign deliveryVerified p))); auto. }
    assert (Hshow : RiderApp.showsMarkDelivered rider
                      (touch (clk 0%nat) (assign deliveryVerified pkg)) = true).
    { unfold RiderApp.showsMarkDelivered, RiderApp.isMyDelivery in *. cbn.
      rewrite Hst, Hmine. cbn. apply orb_true_r. }
    split; [| split; [| split]].
    + intros q Hq Hid. apply In_mapById in Hq. destruct Hq as (p & Hp & ->).
      destruct (String.eqb (Pkg.id p) (Pkg.id pkg)) eqn:E; [reflexivity |].
      apply String.eqb_neq in E. contradiction.
    + cbn [RiderApp.cards]. unfold RiderApp.myActive. apply filter_In.
      split; [exact Hnew |]. unfold RiderApp.isMyDelivery in Hmine. cbn.
      rewrite Hmine. apply orb_true_r.
    + exact Hshow.
    + intros q Hq Hid. cbn in Hq. apply In_mapById in Hq. destruct Hq as (p & Hp & ->).
      destruct (String.eqb (Pkg.id p) (Pkg.id pkg)) eqn:E; [reflexivity |].
      apply String.eqb_neq in E. contradiction.
Qed.

Lemma markDelivered_gate_witness :
  RiderApp.showsMarkDelivered (Rider.mk "rider-04" "Brian Omondi" "0712345004" "Kasarani" "rider")
    (touch 1000 (assign (dispatchUpdates "rider-04") (InMemory.pkg_002 0))) = false
  /\ exists s1,
       snd (RiderApp.handleOTPVerify (InMemory.onVerifyOTP (fun _ => 2000))
              (touch 1000 (assign (dispatchUpdates "rider-04") (InMemory.pkg_002 0)))
              "delivery"
              (RiderApp.mkUI active {[ "pkg-002-delivery" := "2267" ]} ∅)
              (InMemory.onDispatch (fun _ => 1000) "pkg-002" "rider-04" (InMemory.initial 0)))
         = Returned s1
       /\ Pkg.status <$> findById "pkg-002"
            (InMemory.packages (InMemory.onMarkDelivered (fun _ => 3000) "pkg-002" "rider-04" s1))
          = Some delivered.
Proof.
  pose proof (markDelivered_gate "pkg-002" "rider-04" (fun _ => 2000) (fun _ => 3000)
                (InMemory.onDispatch (fun _ => 1000) "pkg-002" "rider-04" (InMemory.initial 0))
                (fun _ => Supabase.mkDefaults "row-1" 0)
                (Supabase.mkClient (User.mk "rider-04" "Brian Omondi") [] [])
                (Supabase.mkDb [] [])
                (Rider.mk "rider-04" "Brian Omondi" "0712345004" "Kasarani" "rider")
                (touch 1000 (assign (dispatchUpdates "rider-04") (InMemory.pkg_002 0)))
                (RiderApp.mkUI active {[ "pkg-002-delivery" := "2267" ]} ∅))
    as (_ & _ & Hgate & Hopen).
  split; [apply Hgate; reflexivity |].
  destruct Hopen as (s1 & Hret & _ & _ & _ & Hdone).
  - right. left. reflexivity.
  - reflexivity.
  - reflexivity.
  - vm_compute. reflexivity.
  - exists s1. split; [exact Hret |].
    injection Hret as <-. reflexivity.
Defined.

(** ** C2: the collection binding *)




(** ** C3: the custody order *)

Lemma Status_eqb_eq (a b : Status) : Status_eqb a b = true -> a = b.
Proof. destruct a, b; cbn; congruence. Qed.

Lemma unique_id (ps : list Pkg.t) (p q : Pkg.t) :
  List.NoDup (List.map Pkg.id ps) -> In p ps -> In q ps -> Pkg.id p = Pkg.id q -> p = q.
Proof.
  induction ps as [| a ps IH]; cbn; intros Hnd Hp Hq Hid; [destruct Hp |].
  inversion Hnd as [| ? ? Hnotin Hnd']; subst.
  destruct Hp as [-> | Hp], Hq as [-> | Hq]; auto.
  - exfalso. apply Hnotin. rewrite Hid. apply in_map, Hq.
  - exfalso. apply Hnotin. rewrite <- Hid. apply in_map, Hp.
Qed.

Lemma mapById_Forall2_In (R : Pkg.t -> Pkg.t -> Prop) (id : string) (f : Pkg.t -> Pkg.t)
    (ps : list Pkg.t) :
  (forall p, R p p) -> (forall p, In p ps -> Pkg.id p = id -> R p (f p)) ->
  Forall2 R ps (mapById id f ps).
Proof.
  intros Hrefl. induction ps as [| p ps IH]; intros Hf; cbn; constructor.
  - destruct (String.eqb (Pkg.id p) id) eqn:E; [| apply Hrefl].
    apply Hf; [left; reflexivity | apply String.eqb_eq, E].
  - apply IH. intros q Hq. apply Hf. right. exact Hq.
Qed.

Lemma notBackward_refl (p : Pkg.t) : notBackward p p.
Proof. split; [reflexivity | apply Nat.le_refl]. Qed.

Lemma notBackward_trans (p q r : Pkg.t) :
  notBackward p q -> notBackward q r -> notBackward p r.
Proof.
  intros [Hid1 Hr1] [Hid2 Hr2]. split; [congruence |].
  eapply Nat.le_trans; eassumption.
Qed.

Lemma notBackward_ids (ps ps' : list Pkg.t) :
  Forall2 notBackward ps ps' -> List.map Pkg.id ps' = List.map Pkg.id ps.
Proof.
  induction 1 as [| p p' ps ps' [Hid _] _ IH]; cbn; [reflexivity |].
  rewrite Hid, IH. reflexivity.
Qed.

Lemma cards_In (rider : Rider.t) (f : Feed) (ps : list Pkg.t) (pkg : Pkg.t) :
  In pkg (RiderApp.cards rider f ps) -> In pkg ps.
Proof.
  destruct f; cbn; unfold RiderApp.collectionFeed, RiderApp.deliveryFeed, RiderApp.myActive;
    rewrite filter_In; tauto.
Qed.

(** Rewriting the one package on screen with an update that does not
    lower its status lowers no status. *)
Lemma update_notBackward (now : Z) (u : Updates.t) (pkg : Pkg.t) (ps : list Pkg.t) :
  List.NoDup (List.map Pkg.id ps) -> In pkg ps ->
  (rank (Pkg.status pkg) <= rank (Pkg.status (assign u pkg)))%nat ->
  Forall2 notBackward ps (mapById (Pkg.id pkg) (fun p => touch now (assign u p)) ps).
Proof.
  intros Hnd Hin Hrank. apply mapById_Forall2_In; [exact notBackward_refl |].
  intros p Hp Hid. rewrite (unique_id ps p pkg Hnd Hp Hin Hid).
  split; [reflexivity | exact Hrank].
Qed.

Lemma onVerifyOTP_packages (clk : nat -> Z) (pkgId type : string) (s : InMemory.State) :
  exists u,
    Updates.status u = None
    /\ InMemory.packages (after (InMemory.onVerifyOTP clk pkgId type s))
       = mapById pkgId (fun p => touch (clk 0%nat) (assign u p)) (InMemory.packages s).
Proof.
  unfold InMemory.onVerifyOTP.
  destruct (String.eqb type "warehouse"), (findById pkgId (InMemory.packages s));
    eexists; (split; [| reflexivity]); reflexivity.
Qed.

Lemma handleOTPVerify_after {S : Type} (cb : string -> string -> S -> Completion S)
    (pkg : Pkg.t) (type : string) (ui : RiderApp.UI) (s : S) :
  after (snd (RiderApp.handleOTPVerify cb pkg type ui s)) = s
  \/ after (snd (RiderApp.handleOTPVerify cb pkg type ui s)) = after (cb (Pkg.id pkg) type s).
Proof.
  unfold RiderApp.handleOTPVerify.
  destruct (JS.strictEq _ _); [| left; reflexivity].
  right. destruct (cb (Pkg.id pkg) type s); reflexivity.
Qed.

(** Pressing a control that is on screen lowers no status. *)
Lemma press_notBackward (clk : nat -> Z) (c : Session.Click) (s : InMemory.State) :
  List.NoDup (List.map Pkg.id (InMemory.packages s)) -> Session.offered s c ->
  Forall2 notBackward (InMemory.packages s) (InMemory.packages (Session.press clk c s)).
Proof.
  intros Hnd.
  destruct c as [rider ui pkg | rider ui pkg | rider ui pkg | rider ui pkg type
                 | rider ui pkg | ui pkg]; cbn [Session.offered Session.press];
    intros [Hin Hshow].
  - apply cards_In in Hin.
    unfold RiderApp.showsAcceptCollection in Hshow.
    apply andb_true_iff in Hshow. destruct Hshow as [Hst _]. apply Status_eqb_eq in Hst.
    apply (update_notBackward _ (collectionUpdates (Rider.id rider))); auto.
    rewrite Hst. cbn. lia.
  - apply cards_In in Hin.
    unfold RiderApp.showsMarkAtWarehouse in Hshow.
    apply andb_true_iff in Hshow. destruct Hshow as [Hst _]. apply Status_eqb_eq in Hst.
    apply update_notBackward; auto. rewrite Hst. cbn. lia.
  - apply cards_In in Hin. apply update_notBackward; auto.
  - apply cards_In in Hin.
    destruct (handleOTPVerify_after (InMemory.onVerifyOTP clk) pkg type ui s) as [-> | ->].
    + apply Forall2_R_refl, notBackward_refl.
    + destruct (onVerifyOTP_packages clk (Pkg.id pkg) type s) as (u & Hu & ->).
      apply update_notBackward; auto.
      unfold assign; cbn. rewrite Hu. cbn. lia.
  - apply cards_In in Hin.
    unfold RiderApp.showsMarkDelivered in Hshow.
    apply andb_true_iff in Hshow. destruct Hshow as [Hshow _].
    apply andb_true_iff in Hshow. destruct Hshow as [Hst _]. apply Status_eqb_eq in Hst.
    apply update_notBackward; auto. rewrite Hst. cbn. lia.
  - unfold AdminDashboard.atHub in Hin. apply filter_In in Hin.
    destruct Hin as [Hin Hst]. apply Status_eqb_eq in Hst.
    unfold AdminDashboard.handleDispatch.
    destruct (negb (JS.truthy (AdminDashboard.selectedRider ui))); cbn [snd].
    + apply Forall2_R_refl, notBackward_refl.
    + apply update_notBackward; auto. rewrite Hst. cbn. lia.
Qed.

(** C3, as the claim states it, fails: pkg-003 is out for delivery, and
    an [onAcceptCollection] call on it sets its status back to
    [picked_up]. *)
Lemma accept_collection_moves_backward :
  Pkg.status <$> findById "pkg-003" (InMemory.packages (InMemory.initial 0))
    = Some out_for_delivery
  /\ Pkg.status <$> findById "pkg-003"
       (InMemory.packages
          (InMemoryRun.calls [(fun _ => 1000, AcceptCollection "pkg-003" "rider-04")]
             (InMemory.initial 0)))
     = Some picked_up
  /\ (rank picked_up < rank out_for_delivery)%nat.
Proof. repeat split. cbn. lia. Qed.

(** C3, amended.  The handlers do not look at the current status, so a
    direct call can move a package backward.  On the screens of the
    in-memory edition each control is rendered only in the status it
    starts from: starting from packages with distinct ids, however many
    controls that are on screen are pressed by riders and the admin
    (Accept Collection, Mark at Warehouse, Accept Delivery, Dispatch,
    Verify, Mark as Delivered), every package keeps its place and its id
    and its status never moves backward in the order searching_rider,
    picked_up, at_warehouse, out_for_delivery, delivered. *)
Theorem status_never_backward_on_screen (s s' : InMemory.State) :
  List.NoDup (List.map Pkg.id (InMemory.packages s)) ->
  Session.reaches s s' ->
  Forall2 notBackward (InMemory.packages s) (InMemory.packages s').
Proof.
  intros Hnd Hreach. induction Hreach as [| s1 clk c _ IH Hoff].
  - apply Forall2_R_refl, notBackward_refl.
  - eapply Forall2_R_trans; [exact notBackward_trans | exact IH |].
    apply press_notBackward; [| exact Hoff].
    rewrite (notBackward_ids _ _ IH). exact Hnd.
Qed.

Lemma status_never_backward_on_screen_witness :
  Forall2 notBackward
    (InMemory.packages (InMemory.initial 0))
    (InMemory.packages
       (Session.press (fun _ => 2000)
          (Session.ClickMarkDelivered
             (Rider.mk "rider-03" "Zawadi Mwangi" "0712345003" "Ruiru" "rider")
             (RiderApp.mkUI active ∅ ∅) (InMemory.pkg_003 0))
          (Session.press (fun _ => 1000)
             (Session.ClickDispatch
                (AdminDashboard.mkUI (Some (InMemory.pkg_002 0)) "rider-04")
                (InMemory.pkg_002 0))
             (InMemory.initial 0)))).
Proof.
  apply status_never_backward_on_screen.
  - cbn. repeat constructor; cbn; intuition discriminate.
  - apply Session.reaches_press.
    + apply Session.reaches_press; [apply Session.reaches_here |].
      split; [right; left; reflexivity | reflexivity].
    + split; [| reflexivity]. left. reflexivity.
Defined.

(** ** Checks of the model on the source's own figures *)

Example round_tie : JS.Math_round 76.5 = 77.
Proof. reflexivity. Qed.

Example fees_of_5100 : calcFees 5100 = Fees.mk 200 77 277 false.
Proof. reflexivity. Qed.

Example fees_of_8500 : Fees.protectionFee (calcFees 8500) = 128.
Proof. reflexivity. Qed.

Example otp_of_smallest_draw : generateOTP 0 = "1000".
Proof. reflexivity. Qed.

(** The largest draw, [1 - 2^-53]. *)
Example otp_of_largest_draw :
  generateOTP (9007199254740991 # 9007199254740992) = "9999".
Proof. vm_compute. reflexivity. Qed.

(** The draw 0.3333333333333333: the binary64 product is 3000, where the
    exact one is just below. *)
Example otp_of_a_third :
  Binary64.isDouble (6004799503160661 # 18014398509481984) = true
  /\ generateOTP (6004799503160661 # 18014398509481984) = "4000"
  /\ JS.Math_floor (1000 + (6004799503160661 # 18014398509481984) * 9000) = 3999.
Proof. vm_compute. repeat split. Qed.

(** The rounding agrees with the binary64 operations of the Standard
    Library ([SpecFloat]) on the fee product of 8566.666666666666, on the
    sum of the base rate and a fee of 1499999999999999737856, and on the
    code product of the draw 0.3333333333333333. *)
Example product_as_in_SpecFloat :
  Binary64.ofSpecFloat
    (SFmul 53 1024 (S754_finite false 4709574805640533 (-39))
       (S754_finite false 8646911284551352 (-59)))
  = Binary64.finite (Binary64.round ((4709574805640533 # 549755813888) * rate)).
Proof. vm_compute. reflexivity. Qed.

Example sum_as_in_SpecFloat :
  Binary64.ofSpecFloat
    (SFadd 53 1024 (S754_finite false 7036874417766400 (-45))
       (S754_finite false 5722045898437499 18))
  = Binary64.finite (Binary64.round (200 + 1499999999999999737856)).
Proof. vm_compute. reflexivity. Qed.

Example code_product_as_in_SpecFloat :
  Binary64.ofSpecFloat
    (SFmul 53 1024 (S754_finite false 6004799503160661 (-54))
       (S754_finite false 4947802324992000 (-39)))
  = Binary64.finite (Binary64.round ((6004799503160661 # 18014398509481984) * 9000)).
Proof. vm_compute. reflexivity. Qed.

(** A total of 22 digits is printed with an exponent. *)
Example note_of_a_large_total :
  JS.numberToString 1499999999999999737856 = "1.4999999999999997e+21"
  /\ JS.numberToString 425 = "425".
Proof. vm_compute. split; reflexivity. Qed.

Example tracking_of_draw : generateTracking "0.k3x9q2m7p" = "MHB-K3X9Q2".
Proof. reflexivity. Qed.

Example delivery_feed_of_rider_04 :
  RiderApp.deliveryFeed (Rider.mk "rider-04" "Brian Omondi" "0712345004" "Kasarani" "rider")
    (InMemory.initialPackages 0) = [InMemory.pkg_001 0].
Proof. reflexivity. Qed.

(** * Further properties of the engine *)

(** ** The ledger only grows *)

Lemma InMemory_call_logs (clk : nat -> Z) (c : Call) (s : InMemory.State) :
  exists added,
    InMemory.logs (InMemoryRun.call clk c s) = (InMemory.logs s ++ added)%list
    /\ (length added <= 2)%nat
    /\ Forall (fun e => Log.packageId e = target c) added.
Proof.
  destruct c as [pkgId r | pkgId r | pkgId r | pkgId r | pkgId type | pkgId r];
    cbn [InMemoryRun.call target].
  1-3, 6: (eexists [_]; split; [reflexivity |]; split; [cbn; lia |];
           repeat constructor).
  - exists [ Log.mk ("log-" ++ JS.toString (clk 1%nat)) pkgId (Some "admin-01") "admin"
               (Some "Admin Hub") "DISPATCHED_TO_RIDER" (Some "Baruk Central, CBD")
               (Some ("Assigned to " ++ default "undefined" (riderName RIDERS r)))
               (clk 2%nat);
             Log.mk ("log-" ++ JS.toString (clk 3%nat)) pkgId (Some r) "rider"
               (riderName RIDERS r) "OUT_FOR_DELIVERY" (Some "Baruk Central, CBD") None
               (clk 4%nat) ].
    split; [| split; [cbn; lia | repeat constructor]].
    cbn. rewrite <- app_assoc. reflexivity.
  - unfold InMemory.onVerifyOTP.
    destruct (String.eqb type "warehouse"), (findById pkgId (InMemory.packages s)); cbn.
    1, 3: (eexists [_]; split; [reflexivity |]; split; [cbn; lia |];
           repeat constructor).
    all: exists []; rewrite app_nil_r; split; [reflexivity |];
      split; [cbn; lia | constructor].
Qed.

Lemma Supabase_call_logs (d : nat -> Supabase.Defaults) (cl : Supabase.Client)
    (c : Call) (db : Supabase.Db) :
  exists added,
    Supabase.transit_logs (SupabaseRun.call d cl c db)
      = (Supabase.transit_logs db ++ added)%list
    /\ (length added <= 2)%nat
    /\ Forall (fun e => Log.packageId e = target c) added.
Proof.
  destruct c as [pkgId r | pkgId r | pkgId r | pkgId r | pkgId type | pkgId r];
    cbn [SupabaseRun.call target].
  1-3, 6: (eexists [_]; split; [reflexivity |]; split; [cbn; lia |];
           repeat constructor).
  - exists [ Log.mk (Supabase.gen_random_uuid (d 0%nat)) pkgId
               (Some (User.id (Supabase.user cl))) "admin"
               (Some (User.name (Supabase.user cl))) "DISPATCHED_TO_RIDER"
               (Some "Baruk Central, CBD")
               (Some ("Assigned to "
                      ++ default "undefined" (riderName (Supabase.riders cl) r)))
               (Supabase.now (d 0%nat));
             Log.mk (Supabase.gen_random_uuid (d 1%nat)) pkgId (Some r) "rider"
               (riderName (Supabase.riders cl) r) "OUT_FOR_DELIVERY"
               (Some "Baruk Central, CBD") None (Supabase.now (d 1%nat)) ].
    split; [| split; [cbn; lia | repeat constructor]].
    cbn. rewrite <- app_assoc. reflexivity.
  - unfold Supabase.onVerifyOTP. destruct (String.eqb type "warehouse"); cbn;
      (eexists [_]; split; [reflexivity |]; split; [cbn; lia |]; repeat constructor).
Qed.

Lemma InMemory_calls_logs (cs : list ((nat -> Z) * Call)) (s : InMemory.State) :
  exists added,
    InMemory.logs (InMemoryRun.calls cs s) = (InMemory.logs s ++ added)%list
    /\ (length added <= 2 * length cs)%nat
    /\ Forall (fun e => In (Log.packageId e) (List.map (fun x => target (snd x)) cs)) added.
Proof.
  revert s. induction cs as [| [clk c] cs IH]; intros s; cbn [InMemoryRun.calls].
  - exists []. rewrite app_nil_r. repeat split; [cbn; lia | constructor].
  - destruct (IH (InMemoryRun.call clk c s)) as (more & Heq & Hlen & Hall).
    destruct (InMemory_call_logs clk c s) as (first & Heq1 & Hlen1 & Hall1).
    exists (first ++ more)%list. rewrite Heq, Heq1, <- app_assoc.
    split; [reflexivity |]. split.
    + rewrite length_app. cbn [length]. lia.
    + apply Forall_app. split.
      * eapply List.Forall_impl; [| exact Hall1]. intros e He. left. symmetry. exact He.
      * eapply List.Forall_impl; [| exact Hall]. intros e He. right. exact He.
Qed.

Lemma Supabase_calls_logs
    (dcs : list ((nat -> Supabase.Defaults) * Supabase.Client * Call)) (db : Supabase.Db) :
  exists added,
    Supabase.transit_logs (SupabaseRun.calls dcs db)
      = (Supabase.transit_logs db ++ added)%list
    /\ (length added <= 2 * length dcs)%nat
    /\ Forall (fun e => In (Log.packageId e) (List.map (fun x => target (snd x)) dcs)) added.
Proof.
  revert db. induction dcs as [| [[d cl] c] dcs IH]; intros db; cbn [SupabaseRun.calls].
  - exists []. rewrite app_nil_r. repeat split; [cbn; lia | constructor].
  - destruct (IH (SupabaseRun.call d cl c db)) as (more & Heq & Hlen & Hall).
    destruct (Supabase_call_logs d cl c db) as (first & Heq1 & Hlen1 & Hall1).
    exists (first ++ more)%list. rewrite Heq, Heq1, <- app_assoc.
    split; [reflexivity |]. split.
    + rewrite length_app. cbn [length]. lia.
    + apply Forall_app. split.
      * eapply List.Forall_impl; [| exact Hall1]. intros e He. left. symmetry. exact He.
      * eapply List.Forall_impl; [| exact Hall]. intros e He. right. exact He.
Qed.

(** X1.  The ledger is append-only.  Whatever sequence of handler calls is
    made, in either edition, the ledger afterwards is the ledger before
    followed by new entries: no entry is changed, dropped or reordered.
    There are at most two new entries per call, and each names the
    package of one of the calls. *)
Theorem ledger_append_only
    (cs : list ((nat -> Z) * Call)) (s : InMemory.State)
    (dcs : list ((nat -> Supabase.Defaults) * Supabase.Client * Call)) (db : Supabase.Db) :
  (exists added,
      InMemory.logs (InMemoryRun.calls cs s) = (InMemory.logs s ++ added)%list
      /\ (length added <= 2 * length cs)%nat
      /\ Forall (fun e => In (Log.packageId e) (List.map (fun x => target (snd x)) cs)) added)
  /\ (exists added,
        Supabase.transit_logs (SupabaseRun.calls dcs db)
          = (Supabase.transit_logs db ++ added)%list
        /\ (length added <= 2 * length dcs)%nat
        /\ Forall (fun e => In (Log.packageId e) (List.map (fun x => target (snd x)) dcs))
             added).
Proof.
  split; [apply InMemory_calls_logs | apply Supabase_calls_logs].
Qed.

Lemma timeline_app (pkgId : string) (old added : list Log.t) :
  timeline pkgId (old ++ added) = (timeline pkgId old ++ timeline pkgId added)%list.
Proof. unfold timeline. apply List.filter_app. Qed.

Lemma timeline_of_others (pkgId : string) (ids : list string) (added : list Log.t) :
  ~ In pkgId ids -> Forall (fun e => In (Log.packageId e) ids) added ->
  timeline pkgId added = [].
Proof.
  intros Hnot. induction 1 as [| e added He _ IH]; [reflexivity |].
  cbn. destruct (String.eqb (Log.packageId e) pkgId) eqn:E; [| exact IH].
  apply String.eqb_eq in E. rewrite E in He. contradiction.
Qed.

(** X2.  The custody timeline the customer screen shows for a package is
    never rewritten: after any sequence of handler calls, in either
    edition, it is the earlier timeline followed by new entries in the
    order they were made; and when none of the calls is made on the
    package, its timeline is exactly what it was. *)
Theorem timeline_only_grows (pkgId : string)
    (cs : list ((nat -> Z) * Call)) (s : InMemory.State)
    (dcs : list ((nat -> Supabase.Defaults) * Supabase.Client * Call)) (db : Supabase.Db) :
  (exists more,
      timeline pkgId (InMemory.logs (InMemoryRun.calls cs s))
        = (timeline pkgId (InMemory.logs s) ++ more)%list
      /\ (~ In pkgId (List.map (fun x => target (snd x)) cs) -> more = []))
  /\ (exists more,
        timeline pkgId (Supabase.transit_logs (SupabaseRun.calls dcs db))
          = (timeline pkgId (Supabase.transit_logs db) ++ more)%list
        /\ (~ In pkgId (List.map (fun x => target (snd x)) dcs) -> more = [])).
Proof.
  split.
  - destruct (InMemory_calls_logs cs s) as (added & -> & _ & Hall).
    exists (timeline pkgId added). split; [apply timeline_app |].
    intros Hnot. eapply timeline_of_others; eassumption.
  - destruct (Supabase_calls_logs dcs db) as (added & -> & _ & Hall).
    exists (timeline pkgId added). split; [apply timeline_app |].
    intros Hnot. eapply timeline_of_others; eassumption.
Qed.

Lemma timeline_only_grows_witness :
  timeline "pkg-001"
    (InMemory.logs
       (InMemoryRun.calls
          [ (fun _ => 5, Dispatch "pkg-002" "rider-04");
            (fun _ => 9, MarkDelivered "pkg-003" "rider-03") ]
          (InMemory.initial 0)))
  = timeline "pkg-001" (InMemory.logs (InMemory.initial 0)).
Proof.
  destruct (timeline_only_grows "pkg-001"
              [ (fun _ => 5, Dispatch "pkg-002" "rider-04");
                (fun _ => 9, MarkDelivered "pkg-003" "rider-03") ]
              (InMemory.initial 0) [] (Supabase.mkDb [] []))
    as ((more & Heq & Hnone) & _).
  rewrite Heq, Hnone; [apply app_nil_r |].
  cbn. intros [H | [H | []]]; discriminate.
Defined.

(** ** Calls on an id no package carries *)

Lemma mapById_absent (id : string) (f : Pkg.t -> Pkg.t) (ps : list Pkg.t) :
  findById id ps = None -> mapById id f ps = ps.
Proof.
  unfold findById, mapById. induction ps as [| p ps IH]; cbn; [reflexivity |].
  destruct (String.eqb (Pkg.id p) id); [discriminate |].
  intros H. rewrite (IH H). reflexivity.
Qed.

(** X3.  A call on an id that no package carries changes no package, yet
    it is not rejected and it still writes to the ledger: each handler
    appends its entries (two for a dispatch, one otherwise) for a package
    that does not exist.  The one exception is the in-memory
    [onVerifyOTP], which throws on the missing package before it writes,
    leaving packages and ledger as they were. *)
Theorem call_on_unknown_id (c : Call)
    (clk : nat -> Z) (s : InMemory.State)
    (d : nat -> Supabase.Defaults) (cl : Supabase.Client) (db : Supabase.Db) :
  findById (target c) (InMemory.packages s) = None ->
  findById (target c) (Supabase.packages db) = None ->
  InMemory.packages (InMemoryRun.call clk c s) = InMemory.packages s
  /\ length (InMemory.logs (InMemoryRun.call clk c s))
     = (length (InMemory.logs s) + (if isVerify c then 0 else entries c))%nat
  /\ (forall pkgId type, c = VerifyCode pkgId type ->
      InMemory.onVerifyOTP clk pkgId type s = Threw s)
  /\ Supabase.packages (SupabaseRun.call d cl c db) = Supabase.packages db
  /\ length (Supabase.transit_logs (SupabaseRun.call d cl c db))
     = (length (Supabase.transit_logs db) + entries c)%nat.
Proof.
  intros Hmem Hdb. split; [| split; [| split; [| split]]].
  - destruct (InMemory_call_packages clk c s) as (id & u & _ & Heq).
    destruct c; cbn [target] in *; cbn [InMemoryRun.call] in *;
      try (cbn; apply mapById_absent; exact Hmem).
    unfold InMemory.onVerifyOTP. rewrite Hmem.
    destruct (String.eqb type "warehouse"); cbn; apply mapById_absent; exact Hmem.
  - destruct c; cbn [target] in *; cbn [InMemoryRun.call isVerify entries];
      try (cbn; rewrite ?length_app; cbn; lia).
    unfold InMemory.onVerifyOTP. rewrite Hmem.
    destruct (String.eqb type "warehouse"); cbn; lia.
  - intros pkgId type ->. cbn [target] in Hmem.
    unfold InMemory.onVerifyOTP, InMemory.updatePkg. rewrite Hmem.
    rewrite !mapById_absent by exact Hmem.
    destruct s. destruct (String.eqb type "warehouse"); reflexivity.
  - destruct c; cbn [target] in *; cbn [SupabaseRun.call];
      try (cbn; apply mapById_absent; exact Hdb).
    unfold Supabase.onVerifyOTP.
    destruct (String.eqb type "warehouse"); cbn; apply mapById_absent; exact Hdb.
  - destruct c; cbn [target] in *; cbn [SupabaseRun.call entries];
      try (cbn; rewrite ?length_app; cbn; lia).
    unfold Supabase.onVerifyOTP.
    destruct (String.eqb type "warehouse"); cbn; rewrite ?length_app; cbn; lia.
Qed.

Lemma call_on_unknown_id_witness :
  InMemory.packages
    (InMemoryRun.call (fun _ => 1000) (MarkDelivered "pkg-404" "rider-01") (InMemory.initial 0))
  = InMemory.packages (InMemory.initial 0)
  /\ length (InMemory.logs
               (InMemoryRun.call (fun _ => 1000) (MarkDelivered "pkg-404" "rider-01")
                  (InMemory.initial 0)))
     = 8%nat.
Proof.
  destruct (call_on_unknown_id (MarkDelivered "pkg-404" "rider-01") (fun _ => 1000)
              (InMemory.initial 0) (fun _ => Supabase.mkDefaults "row-1" 0)
              (Supabase.mkClient (User.mk "rider-01" "Kip Mutai") [] [])
              (Supabase.mkDb [] []) eq_refl eq_refl)
    as (Hp & Hl & _).
  split; [exact Hp | exact Hl].
Defined.

(** ** The shape of the fees *)

(** X4.  The protection fee grows with the declared value and has a gap.
    Up to a declared value of 5000 it is 0 and the total is 200; above
    5000 it is at least 75 and the total at least 275, so the fee is never
    between 1 and 74; a high-value package pays at least 150 of
    protection.  The total is never below the base rate of 200. *)
Theorem protection_fee_shape (v w : Q) :
  ((v <= 5000)%Q ->
   Fees.protectionFee (calcFees v) = 0 /\ Fees.total (calcFees v) = 200)
  /\ ((5000 < v)%Q ->
      75 <= Fees.protectionFee (calcFees v) /\ 275 <= Fees.total (calcFees v))
  /\ ((v <= w)%Q -> Fees.protectionFee (calcFees v) <= Fees.protectionFee (calcFees w))
  /\ (Fees.isHighValue (calcFees v) = true -> 150 <= Fees.protectionFee (calcFees v))
  /\ 200 <= Fees.total (calcFees v).
Proof.
  split; [| split; [| split; [| split; [| apply total_from_200]]]].
  - intros H. split; [apply protectionFee_upto, H |].
    change (Fees.total (calcFees v))
      with (Binary64.nearestZ (200 + Fees.protectionFee (calcFees v))).
    rewrite (protectionFee_upto v H). reflexivity.
  - intros H. pose proof (protectionFee_from_75 v H) as Hf. split; [exact Hf |].
    change (Fees.total (calcFees v))
      with (Binary64.nearestZ (200 + Fees.protectionFee (calcFees v))).
    rewrite <- (nearestZ_exact 275) by (cbn; lia).
    apply nearestZ_mono; lia.
  - intros Hvw. destruct (Qlt_le_dec 5000 v) as [Hv | Hv].
    + assert (Hw : (5000 < w)%Q) by lra.
      rewrite (protectionFee_above v Hv), (protectionFee_above w Hw).
      apply fee_mono; lra.
    + rewrite (protectionFee_upto v Hv). apply protectionFee_nonneg.
  - unfold calcFees at 1; cbn [Fees.isHighValue]. intros Hhv. apply gt_spec in Hhv.
    assert (H5 : (5000 < v)%Q) by lra. rewrite (protectionFee_above v H5).
    change 150 with (JS.Math_round (Binary64.nearest (10000 * rate))).
    apply fee_mono; lra.
Qed.

Lemma protection_fee_shape_witness :
  Fees.total (calcFees 5000) = 200
  /\ 75 <= Fees.protectionFee (calcFees 5000.5)
  /\ Fees.protectionFee (calcFees 5000.5) <= Fees.protectionFee (calcFees 12000)
  /\ 150 <= Fees.protectionFee (calcFees 12000).
Proof.
  destruct (protection_fee_shape 5000 5000) as (Hlow & _).
  destruct (protection_fee_shape 5000.5 12000) as (_ & Hup & Hmono & _).
  destruct (protection_fee_shape 12000 12000) as (_ & _ & _ & Hhv & _).
  split; [apply Hlow; discriminate |].
  split; [apply Hup; reflexivity |].
  split; [apply Hmono; discriminate | apply Hhv; reflexivity].
Defined.

(** ** Identifiers *)

Lemma to_int_not_nil (n : Z) :
  Z.to_int n <> Decimal.Pos Decimal.Nil /\ Z.to_int n <> Decimal.Neg Decimal.Nil.
Proof.
  destruct n as [| p | p]; cbn; split; try discriminate; intros [= H];
    exact (Unsigned.to_uint_nonnil p H).
Qed.

(** Different integers print differently. *)
Lemma toString_inj (a b : Z) : JS.toString a = JS.toString b -> a = b.
Proof.
  unfold JS.toString. intros H.
  apply DecimalZ.to_int_inj.
  destruct (to_int_not_nil a) as [Ha1 Ha2], (to_int_not_nil b) as [Hb1 Hb2].
  pose proof (NilZero.isi _ Ha1 Ha2) as Ia. pose proof (NilZero.isi _ Hb1 Hb2) as Ib.
  rewrite H in Ia. congruence.
Qed.

(** X5.  Package ids come from the clock alone: two bookings get the same
    package id exactly when [Date.now()] returned the same millisecond
    for both, whoever books and whatever is booked.  (Two packages with
    one id are then rewritten together by every later handler call.) *)
Theorem ids_collide_on_equal_clock (parseFloat : string -> option Q)
    (clk1 clk2 : nat -> Z) (r1 r2 : string) (rnd1 rnd2 : nat -> Q)
    (u1 u2 : User.t) (f1 f2 : Form.t) (s1 s2 : InMemory.State) :
  Pkg.id (snd (InMemory.onCreatePackage parseFloat clk1 r1 rnd1 u1 f1 s1))
  = Pkg.id (snd (InMemory.onCreatePackage parseFloat clk2 r2 rnd2 u2 f2 s2))
  <-> clk1 0%nat = clk2 0%nat.
Proof.
  cbn. split.
  - intros [= H]. apply toString_inj, H.
  - intros ->. reflexivity.
Qed.

Lemma substring_length (n m : nat) (s : string) :
  String.length (String.substring n m s) = Nat.min m (String.length s - n).
Proof.
  revert n m. induction s as [| c s IH]; intros n m.
  - destruct n, m; reflexivity.
  - destruct n as [| n].
    + destruct m as [| m]; [reflexivity |]. cbn. rewrite IH.
      rewrite Nat.sub_0_r. reflexivity.
    + cbn. apply IH.
Qed.

Lemma toUpperCase_length (s : string) :
  String.length (JS.toUpperCase s) = String.length s.
Proof. induction s as [| c s IH]; cbn; [reflexivity | rewrite IH; reflexivity]. Qed.

Lemma upper_not_lower (c : ascii) :
  (97 <=? nat_of_ascii (JS.upper c))%nat && (nat_of_ascii (JS.upper c) <=? 122)%nat = false.
Proof.
  unfold JS.upper.
  destruct ((97 <=? nat_of_ascii c)%nat && (nat_of_ascii c <=? 122)%nat) eqn:E; [| exact E].
  apply andb_true_iff in E. destruct E as [Hlo Hhi].
  apply Nat.leb_le in Hlo. apply Nat.leb_le in Hhi.
  rewrite nat_ascii_embedding by lia.
  apply andb_false_iff. left. apply Nat.leb_gt. lia.
Qed.

Lemma toUpperCase_noLowerCase (s : string) : noLowerCase (JS.toUpperCase s) = true.
Proof.
  induction s as [| c s IH]; cbn [JS.toUpperCase noLowerCase]; [reflexivity |].
  rewrite upper_not_lower, IH. reflexivity.
Qed.

(** X6.  A tracking code always starts with MHB- and carries no lower-case
    letter, but its length is not fixed: after the prefix come the
    characters 3 to 8 of the base-36 text of the draw, as many as there
    are.  A draw whose text has eight characters or more gives the full
    ten-character code; a draw of 0, whose text is the single character 0,
    gives the bare prefix. *)
Theorem tracking_code_shape (random36 : string) :
  String.prefix "MHB-" (generateTracking random36) = true
  /\ String.length (generateTracking random36)
     = (4 + Nat.min 6 (String.length random36 - 2))%nat
  /\ noLowerCase (generateTracking random36) = true
  /\ ((8 <= String.length random36)%nat -> String.length (generateTracking random36) = 10%nat)
  /\ generateTracking "0" = "MHB-".
Proof.
  unfold generateTracking, JS.substring.
  assert (Hlen : String.length
                   ("MHB-" ++ JS.toUpperCase (String.substring 2 (8 - 2) random36))
                 = (4 + Nat.min 6 (String.length random36 - 2))%nat).
  { change (String.length
              ("MHB-" ++ JS.toUpperCase (String.substring 2 (8 - 2) random36)))
      with (4 + String.length (JS.toUpperCase (String.substring 2 6 random36)))%nat.
    rewrite toUpperCase_length, substring_length. reflexivity. }
  split.
  { apply String.prefix_correct.
    destruct (JS.toUpperCase (String.substring 2 (8 - 2) random36)); reflexivity. }
  split; [exact Hlen |]. split; [| split].
  - change (noLowerCase ("MHB-" ++ JS.toUpperCase (String.substring 2 (8 - 2) random36)))
      with (noLowerCase (JS.toUpperCase (String.substring 2 6 random36))).
    apply toUpperCase_noLowerCase.
  - intros H. rewrite Hlen. lia.
  - reflexivity.
Qed.

Lemma tracking_code_shape_witness :
  String.length (generateTracking "0.k3x9q2m7p") = 10%nat.
Proof.
  destruct (tracking_code_shape "0.k3x9q2m7p") as (_ & _ & _ & Hfull & _).
  apply Hfull. cbn. lia.
Defined.

(** ** What the screens allow *)

Lemma stays_refl (p : Pkg.t) : stays p p.
Proof. split; auto. Qed.

Lemma stays_trans (p q r : Pkg.t) : stays p q -> stays q r -> stays p r.
Proof.
  intros [Hid1 H1] [Hid2 H2]. split; [congruence |].
  intros Ha. rewrite <- (H1 Ha). apply H2. rewrite (H1 Ha). exact Ha.
Qed.

Lemma stays_ids (ps ps' : list Pkg.t) :
  Forall2 stays ps ps' -> List.map Pkg.id ps' = List.map Pkg.id ps.
Proof.
  induction 1 as [| p p' ps ps' [Hid _] _ IH]; cbn; [reflexivity |].
  rewrite Hid, IH. reflexivity.
Qed.

(** Rewriting the one package on screen, which is not in an absorbing
    status or keeps its status, changes no absorbing status. *)
Lemma update_stays (now : Z) (u : Updates.t) (pkg : Pkg.t) (ps : list Pkg.t) :
  List.NoDup (List.map Pkg.id ps) -> In pkg ps ->
  (absorbing (Pkg.status pkg) = false \/ Updates.status u = None) ->
  Forall2 stays ps (mapById (Pkg.id pkg) (fun p => touch now (assign u p)) ps).
Proof.
  intros Hnd Hin Hok. apply mapById_Forall2_In; [exact stays_refl |].
  intros p Hp Hid. rewrite (unique_id ps p pkg Hnd Hp Hin Hid).
  split; [reflexivity |]. intros Ha. destruct Hok as [Hno | Hnone].
  - congruence.
  - cbn. rewrite Hnone. reflexivity.
Qed.

Lemma press_stays (clk : nat -> Z) (c : Session.Click) (s : InMemory.State) :
  List.NoDup (List.map Pkg.id (InMemory.packages s)) -> Session.offered s c ->
  Forall2 stays (InMemory.packages s) (InMemory.packages (Session.press clk c s)).
Proof.
  intros Hnd.
  destruct c as [rider ui pkg | rider ui pkg | rider ui pkg | rider ui pkg type
                 | rider ui pkg | ui pkg]; cbn [Session.offered Session.press];
    intros [Hin Hshow].
  - apply cards_In in Hin.
    unfold RiderApp.showsAcceptCollection in Hshow.
    apply andb_true_iff in Hshow. destruct Hshow as [Hst _]. apply Status_eqb_eq in Hst.
    apply (update_stays _ (collectionUpdates (Rider.id rider))); auto.
    left. rewrite Hst. reflexivity.
  - apply cards_In in Hin.
    unfold RiderApp.showsMarkAtWarehouse in Hshow.
    apply andb_true_iff in Hshow. destruct Hshow as [Hst _]. apply Status_eqb_eq in Hst.
    apply update_stays; auto. left. rewrite Hst. reflexivity.
  - apply cards_In in Hin. apply update_stays; auto.
  - apply cards_In in Hin.
    destruct (handleOTPVerify_after (InMemory.onVerifyOTP clk) pkg type ui s) as [-> | ->].
    + apply Forall2_R_refl, stays_refl.
    + destruct (onVerifyOTP_packages clk (Pkg.id pkg) type s) as (u & Hu & ->).
      apply update_stays; auto.
  - apply cards_In in Hin.
    unfold RiderApp.showsMarkDelivered in Hshow.
    apply andb_true_iff in Hshow. destruct Hshow as [Hshow _].
    apply andb_true_iff in Hshow. destruct Hshow as [Hst _]. apply Status_eqb_eq in Hst.
    apply update_stays; auto. left. rewrite Hst. reflexivity.
  - unfold AdminDashboard.atHub in Hin. apply filter_In in Hin.
    destruct Hin as [Hin Hst]. apply Status_eqb_eq in Hst.
    unfold AdminDashboard.handleDispatch.
    destruct (negb (JS.truthy (AdminDashboard.selectedRider ui))); cbn [snd].
    + apply Forall2_R_refl, stays_refl.
    + apply update_stays; auto. left. rewrite Hst. reflexivity.
Qed.

(** X7.  On the screens of the in-memory edition a package that is
    [picked_up] is stuck: Mark at Warehouse is rendered only while the
    status is still [searching_rider], which Accept Collection has just
    left, and no other control starts from [picked_up].  Starting from
    packages with distinct ids, whatever controls are pressed while on
    screen, a package that is [picked_up], [delivered] or [cancelled]
    keeps that status for good. *)
Theorem picked_up_is_stuck_on_screen (s s' : InMemory.State) :
  List.NoDup (List.map Pkg.id (InMemory.packages s)) ->
  Session.reaches s s' ->
  Forall2 stays (InMemory.packages s) (InMemory.packages s').
Proof.
  intros Hnd Hreach. induction Hreach as [| s1 clk c _ IH Hoff].
  - apply Forall2_R_refl, stays_refl.
  - eapply Forall2_R_trans; [exact stays_trans | exact IH |].
    apply press_stays; [| exact Hoff].
    rewrite (stays_ids _ _ IH). exact Hnd.
Qed.

Lemma picked_up_is_stuck_on_screen_witness :
  Forall2 stays
    (InMemory.packages
       (InMemory.onAcceptCollection (fun _ => 500) "pkg-001" "rider-02" (InMemory.initial 0)))
    (InMemory.packages
       (Session.press (fun _ => 1000)
          (Session.ClickDispatch
             (AdminDashboard.mkUI (Some (InMemory.pkg_002 0)) "rider-04")
             (InMemory.pkg_002 0))
          (InMemory.onAcceptCollection (fun _ => 500) "pkg-001" "rider-02"
             (InMemory.initial 0)))).
Proof.
  apply picked_up_is_stuck_on_screen.
  - cbn. repeat constructor; cbn; intuition discriminate.
  - apply Session.reaches_press; [apply Session.reaches_here |].
    split; [left; reflexivity | reflexivity].
Defined.

Lemma cards_In_filter (rider : Rider.t) (f : Feed) (ps : list Pkg.t) (pkg : Pkg.t) :
  In pkg (RiderApp.cards rider f ps) ->
  In pkg (RiderApp.collectionFeed rider ps) \/ In pkg (RiderApp.deliveryFeed rider ps)
  \/ In pkg (RiderApp.myActive rider ps).
Proof. destruct f; cbn; auto. Qed.

(** X8.  The rider screen gates by actor.  Mark as Delivered is on screen
    only for the rider bound as delivery rider, and the DELIVERED entry it
    writes names that rider; Mark at Warehouse only for the bound
    collection rider, who is named in the ARRIVED_AT_WAREHOUSE entry;
    Accept Delivery only for a rider whose home zone is the package's
    delivery zone, on a package at the warehouse; and a code panel only
    for the bound rider of a high-value package whose code of that kind
    is not yet verified. *)
Theorem screen_gates_by_actor (clk : nat -> Z) (s : InMemory.State)
    (rider : Rider.t) (ui : RiderApp.UI) (pkg : Pkg.t) (type : string) :
  (Session.offered s (Session.ClickMarkDelivered rider ui pkg) ->
   Pkg.riderDeliveryId pkg = Some (Rider.id rider)
   /\ oneEntryBy (Pkg.id pkg) "DELIVERED" (Pkg.riderDeliveryId pkg) (InMemory.logs s)
        (InMemory.logs (Session.press clk (Session.ClickMarkDelivered rider ui pkg) s)))
  /\ (Session.offered s (Session.ClickMarkAtWarehouse rider ui pkg) ->
      Pkg.riderCollectionId pkg = Some (Rider.id rider)
      /\ oneEntryBy (Pkg.id pkg) "ARRIVED_AT_WAREHOUSE" (Pkg.riderCollectionId pkg)
           (InMemory.logs s)
           (InMemory.logs (Session.press clk (Session.ClickMarkAtWarehouse rider ui pkg) s)))
  /\ (Session.offered s (Session.ClickAcceptDelivery rider ui pkg) ->
      Pkg.deliveryZone pkg = Rider.zone rider /\ Pkg.status pkg = at_warehouse)
  /\ (Session.offered s (Session.ClickVerify rider ui pkg type) ->
      Pkg.isHighValue pkg = true /\ verifiedFlag type pkg = false
      /\ ((type = "warehouse" /\ Pkg.riderCollectionId pkg = Some (Rider.id rider)
           /\ Pkg.status pkg = at_warehouse)
          \/ (type = "delivery" /\ Pkg.riderDeliveryId pkg = Some (Rider.id rider)
              /\ Pkg.status pkg = out_for_delivery))).
Proof.
  split; [| split; [| split]].
  - intros [_ Hshow]. unfold RiderApp.showsMarkDelivered, RiderApp.isMyDelivery in Hshow.
    rewrite !andb_true_iff in Hshow. destruct Hshow as [[_ Hmine] _].
    apply strictEq_true in Hmine. split; [exact Hmine |].
    rewrite Hmine. cbn. eexists. repeat split.
  - intros [_ Hshow]. unfold RiderApp.showsMarkAtWarehouse, RiderApp.isMyCollection in Hshow.
    rewrite !andb_true_iff in Hshow. destruct Hshow as [_ Hmine].
    apply strictEq_true in Hmine. split; [exact Hmine |].
    rewrite Hmine. cbn. eexists. repeat split.
  - intros [_ Hshow]. unfold RiderApp.showsAcceptDelivery in Hshow.
    rewrite !andb_true_iff in Hshow. destruct Hshow as [[Hst _] Hzone].
    apply Status_eqb_eq in Hst. apply String.eqb_eq in Hzone. auto.
  - intros [_ Hshow]. unfold RiderApp.showsVerify, verifiedFlag in *.
    destruct (String.eqb type "warehouse") eqn:Ew.
    + apply String.eqb_eq in Ew.
      unfold RiderApp.needsWarehouseOTP, RiderApp.isMyCollection in Hshow.
      rewrite !andb_true_iff, negb_true_iff in Hshow.
      destruct Hshow as [[[Hhv Hmine] Hst] Hflag].
      apply strictEq_true in Hmine. apply Status_eqb_eq in Hst. auto 7.
    + destruct (String.eqb type "delivery") eqn:Ed; [| discriminate].
      apply String.eqb_eq in Ed.
      unfold RiderApp.needsDeliveryOTP, RiderApp.isMyDelivery in Hshow.
      rewrite !andb_true_iff, negb_true_iff in Hshow.
      destruct Hshow as [[[Hhv Hmine] Hst] Hflag].
      apply strictEq_true in Hmine. apply Status_eqb_eq in Hst. auto 7.
Qed.

Lemma screen_gates_by_actor_witness :
  oneEntryBy "pkg-003" "DELIVERED" (Some "rider-03")
    (InMemory.logs (InMemory.initial 0))
    (InMemory.logs
       (Session.press (fun _ => 2000)
          (Session.ClickMarkDelivered
             (Rider.mk "rider-03" "Zawadi Mwangi" "0712345003" "Ruiru" "rider")
             (RiderApp.mkUI active ∅ ∅) (InMemory.pkg_003 0))
          (InMemory.initial 0))).
Proof.
  destruct (screen_gates_by_actor (fun _ => 2000) (InMemory.initial 0)
              (Rider.mk "rider-03" "Zawadi Mwangi" "0712345003" "Ruiru" "rider")
              (RiderApp.mkUI active ∅ ∅) (InMemory.pkg_003 0) "delivery")
    as (Hdone & _).
  destruct Hdone as [_ Hentry]; [| exact Hentry].
  split; [left; reflexivity | reflexivity].
Defined.

(** X9.  Accepting a delivery does not start it and is not final.  After
    Accept Delivery is pressed the package carries the accepting rider
    and leaves every rider's delivery feed, but its status is still
    [at_warehouse]: it stays in the hub inventory, where a Dispatch to
    any other rider is on screen and, when pressed, replaces the
    accepting rider and sets the status to [out_for_delivery]. *)
Theorem accepted_delivery_can_be_redispatched (clk clk' : nat -> Z) (s : InMemory.State)
    (rider other : Rider.t) (ui : RiderApp.UI) (pkg : Pkg.t) (chosen : string) :
  Session.offered s (Session.ClickAcceptDelivery rider ui pkg) ->
  JS.truthy chosen = true ->
  let s1 := Session.press clk (Session.ClickAcceptDelivery rider ui pkg) s in
  let pkg1 := touch (clk 0%nat) (assign (deliveryUpdates (Rider.id rider)) pkg) in
  let admin := AdminDashboard.mkUI (Some pkg1) chosen in
  Pkg.riderDeliveryId pkg1 = Some (Rider.id rider)
  /\ Pkg.status pkg1 = at_warehouse
  /\ (JS.truthy (Rider.id rider) = true ->
      ~ In pkg1 (RiderApp.deliveryFeed other (InMemory.packages s1)))
  /\ Session.offered s1 (Session.ClickDispatch admin pkg1)
  /\ (forall q, In q (InMemory.packages (Session.press clk' (Session.ClickDispatch admin pkg1) s1)) ->
      Pkg.id q = Pkg.id pkg ->
      Pkg.riderDeliveryId q = Some chosen /\ Pkg.status q = out_for_delivery).
Proof.
  intros [Hin Hshow] Hchosen. cbv zeta.
  apply cards_In in Hin.
  unfold RiderApp.showsAcceptDelivery in Hshow.
  rewrite !andb_true_iff in Hshow. destruct Hshow as [[Hst _] _].
  pose proof (Status_eqb_eq _ _ Hst) as Hst'.
  assert (Hnew : In (touch (clk 0%nat) (assign (deliveryUpdates (Rider.id rider)) pkg))
                   (InMemory.packages
                      (Session.press clk (Session.ClickAcceptDelivery rider ui pkg) s))).
  { cbn. apply (In_mapById_hit (Pkg.id pkg)
                  (fun p => touch (clk 0%nat) (assign (deliveryUpdates (Rider.id rider)) p)));
      auto. }
  split; [reflexivity |]. split; [exact Hst' |]. split; [| split].
  - intros Hid. unfold RiderApp.deliveryFeed. rewrite filter_In. intros [_ Hf].
    cbn in Hf. rewrite Hid in Hf. cbn in Hf. rewrite andb_false_r in Hf. discriminate.
  - split.
    + unfold AdminDashboard.atHub. apply filter_In. split; [exact Hnew |].
      cbn. exact Hst.
    + unfold AdminDashboard.showsDispatch. cbn. rewrite String.eqb_refl, Hchosen.
      reflexivity.
  - intros q Hq Hid. cbn [Session.press] in Hq.
    unfold AdminDashboard.handleDispatch in Hq. cbn [AdminDashboard.selectedRider] in Hq.
    rewrite Hchosen in Hq. cbn in Hq.
    apply In_mapById in Hq. destruct Hq as (p & _ & ->).
    destruct (String.eqb (Pkg.id p) (Pkg.id pkg)) eqn:E; [split; reflexivity |].
    apply String.eqb_neq in E. contradiction.
Qed.

Lemma findById_Some (id : string) (ps : list Pkg.t) (p : Pkg.t) :
  findById id ps = Some p -> In p ps /\ Pkg.id p = id.
Proof.
  unfold findById. intros H. apply find_some in H.
  destruct H as [Hin Heq]. apply String.eqb_eq in Heq. auto.
Qed.

Lemma accepted_delivery_can_be_redispatched_witness :
  Pkg.riderDeliveryId <$> findById "pkg-001"
    (InMemory.packages
       (Session.press (fun _ => 2000)
          (Session.ClickDispatch
             (AdminDashboard.mkUI
                (Some (touch 1000 (assign (deliveryUpdates "rider-04") (InMemory.pkg_001 0))))
                "rider-02")
             (touch 1000 (assign (deliveryUpdates "rider-04") (InMemory.pkg_001 0))))
          (Session.press (fun _ => 1000)
             (Session.ClickAcceptDelivery
                (Rider.mk "rider-04" "Brian Omondi" "0712345004" "Kasarani" "rider")
                (RiderApp.mkUI delivery ∅ ∅) (InMemory.pkg_001 0))
             (InMemory.initial 0))))
  = Some (Some "rider-02").
Proof.
  pose proof (proj2 (proj2 (proj2 (proj2
            (accepted_delivery_can_be_redispatched (fun _ => 1000) (fun _ => 2000)
               (InMemory.initial 0)
               (Rider.mk "rider-04" "Brian Omondi" "0712345004" "Kasarani" "rider")
               (Rider.mk "rider-02" "Faith Wanjiru" "0712345002" "Ngong" "rider")
               (RiderApp.mkUI delivery ∅ ∅) (InMemory.pkg_001 0) "rider-02"
               (conj (or_introl eq_refl) eq_refl) eq_refl))))) as H.
  cbv zeta in H.
  destruct (findById "pkg-001" _) as [q |] eqn:E; [| discriminate E].
  apply findById_Some in E. destruct E as [Hin Hid].
  destruct (H q Hin Hid) as [Hr _]. cbn. rewrite Hr. reflexivity.
Defined.

(** ** Each code is verified at most once *)

Lemma press_effect (clk : nat -> Z) (c : Session.Click) (s : InMemory.State) :
  Session.offered s c ->
  In (pressed c) (InMemory.packages s)
  /\ pressEffect (clk 0%nat) (pressed c) s (Session.press clk c s).
Proof.
  destruct c as [rider ui pkg | rider ui pkg | rider ui pkg | rider ui pkg type
                 | rider ui pkg | ui pkg]; cbn [Session.offered Session.press pressed];
    intros [Hin Hshow].
  1-3, 5: (split; [eapply cards_In; exact Hin |]; right; left;
           eexists _, [_];
           refine (conj _ (conj _ (conj eq_refl (conj eq_refl _))));
           [reflexivity | reflexivity | repeat constructor; cbn; discriminate]).
  - pose proof (cards_In _ _ _ _ Hin) as Hin'. split; [exact Hin' |].
    destruct (findById_In (Pkg.id pkg) (InMemory.packages s) pkg Hin' eq_refl) as [q Hq].
    unfold RiderApp.handleOTPVerify.
    destruct (JS.strictEq _ _); [| left; reflexivity].
    unfold InMemory.onVerifyOTP. rewrite Hq.
    unfold RiderApp.showsVerify in Hshow.
    destruct (String.eqb type "warehouse") eqn:Ew.
    + right. right. left. cbn [snd after].
      unfold RiderApp.needsWarehouseOTP in Hshow.
      rewrite !andb_true_iff, negb_true_iff in Hshow. destruct Hshow as [_ Hflag].
      eexists. split; [exact Hflag |]. split; [reflexivity |].
      split; [reflexivity |]. split; reflexivity.
    + right. right. right. cbn [snd after].
      destruct (String.eqb type "delivery"); [| discriminate].
      unfold RiderApp.needsDeliveryOTP in Hshow.
      rewrite !andb_true_iff, negb_true_iff in Hshow. destruct Hshow as [_ Hflag].
      eexists. split; [exact Hflag |]. split; [reflexivity |].
      split; [reflexivity |]. split; reflexivity.
  - unfold AdminDashboard.atHub in Hin. apply filter_In in Hin. destruct Hin as [Hin _].
    split; [exact Hin |].
    unfold AdminDashboard.handleDispatch.
    destruct (negb (JS.truthy (AdminDashboard.selectedRider ui))); cbn [snd];
      [left; reflexivity |].
    right. left.
    exists (dispatchUpdates (AdminDashboard.selectedRider ui)),
      [ Log.mk ("log-" ++ JS.toString (clk 1%nat)) (Pkg.id pkg) (Some "admin-01") "admin"
          (Some "Admin Hub") "DISPATCHED_TO_RIDER" (Some "Baruk Central, CBD")
          (Some ("Assigned to "
                 ++ default "undefined"
                      (riderName RIDERS (AdminDashboard.selectedRider ui))))
          (clk 2%nat);
        Log.mk ("log-" ++ JS.toString (clk 3%nat)) (Pkg.id pkg)
          (Some (AdminDashboard.selectedRider ui)) "rider"
          (riderName RIDERS (AdminDashboard.selectedRider ui)) "OUT_FOR_DELIVERY"
          (Some "Baruk Central, CBD") None (clk 4%nat) ].
    split; [reflexivity |]. split; [reflexivity |].
    split; [reflexivity |]. split; [cbn; rewrite <- app_assoc; reflexivity |].
    repeat constructor; cbn; discriminate.
Qed.

Lemma mapById_cases (f : Pkg.t -> Pkg.t) (pkg : Pkg.t) (ps : list Pkg.t) :
  (forall p, In p ps -> Pkg.id p = Pkg.id pkg -> p = pkg) ->
  Forall2 (fun p p' => (Pkg.id p <> Pkg.id pkg /\ p' = p) \/ (p = pkg /\ p' = f pkg))
    ps (mapById (Pkg.id pkg) f ps).
Proof.
  induction ps as [| p ps IH]; intros Huniq; cbn; constructor.
  - destruct (String.eqb (Pkg.id p) (Pkg.id pkg)) eqn:E.
    + apply String.eqb_eq in E. right.
      rewrite (Huniq p (or_introl eq_refl) E). auto.
    + apply String.eqb_neq in E. left. auto.
  - apply IH. intros q Hq. apply Huniq. right. exact Hq.
Qed.

Lemma Forall2_compose {A : Type} (J K L : A -> A -> Prop) (xs ys zs : list A) :
  (forall a b c, J a b -> K b c -> L a c) ->
  Forall2 J xs ys -> Forall2 K ys zs -> Forall2 L xs zs.
Proof.
  intros HL HJ. revert zs. induction HJ as [| a b xs ys Hab _ IH]; intros zs HK.
  - inversion HK. constructor.
  - inversion HK as [| ? c ? zs' Hbc HK']; subst. constructor; eauto.
Qed.

Lemma countEvent_app (id ev : string) (old added : list Log.t) :
  countEvent id ev (old ++ added) = (countEvent id ev old + countEvent id ev added)%nat.
Proof. unfold countEvent. rewrite List.filter_app, length_app. reflexivity. Qed.

Lemma countEvent_other_event (id ev : string) (added : list Log.t) :
  Forall (fun e => Log.event e <> ev) added -> countEvent id ev added = 0%nat.
Proof.
  unfold countEvent. induction 1 as [| e added He _ IH]; [reflexivity |].
  cbn. apply String.eqb_neq in He. rewrite He, andb_false_r. exact IH.
Qed.

Lemma countEvent_one (id ev : string) (e : Log.t) :
  countEvent id ev [e]
  = (if String.eqb (Log.packageId e) id && String.eqb (Log.event e) ev then 1 else 0)%nat.
Proof.
  unfold countEvent. cbn.
  destruct (String.eqb (Log.packageId e) id && String.eqb (Log.event e) ev); reflexivity.
Qed.

Lemma once_step (logs0 : list Log.t) (ps0 : list Pkg.t) (now : Z) (pkg : Pkg.t)
    (s1 s2 : InMemory.State) :
  List.NoDup (List.map Pkg.id (InMemory.packages s1)) ->
  In pkg (InMemory.packages s1) ->
  pressEffect now pkg s1 s2 ->
  Forall2 (verifiedOnce logs0 (InMemory.logs s1)) ps0 (InMemory.packages s1) ->
  Forall2 (verifiedOnce logs0 (InMemory.logs s2)) ps0 (InMemory.packages s2).
Proof.
  intros Hnd Hin Heff Hinv.
  assert (Huniq : forall p, In p (InMemory.packages s1) -> Pkg.id p = Pkg.id pkg -> p = pkg)
    by (intros p Hp Hid; exact (unique_id _ p pkg Hnd Hp Hin Hid)).
  destruct Heff as [-> | [(u & added & Hw & Hd & Hps & Hlogs & Hplain)
                         | [(e & Hflag & Hps & Hlogs & Hpid & Hev)
                           | (e & Hflag & Hps & Hlogs & Hpid & Hev)]]];
    [exact Hinv | | |]; rewrite Hps, Hlogs;
    (eapply Forall2_compose; [| exact Hinv | apply mapById_cases; exact Huniq]);
    intros a b c (Hid & [Hkw Hkd] & Hcw & Hcd) Hk; unfold verifiedOnce;
    rewrite !countEvent_app.
  - assert (H0w : countEvent (Pkg.id a) "OTP_WAREHOUSE_VERIFIED" added = 0%nat).
    { apply countEvent_other_event. eapply List.Forall_impl; [| exact Hplain].
      intros x [Hx _]. exact Hx. }
    assert (H0d : countEvent (Pkg.id a) "OTP_DELIVERY_VERIFIED" added = 0%nat).
    { apply countEvent_other_event. eapply List.Forall_impl; [| exact Hplain].
      intros x [_ Hx]. exact Hx. }
    rewrite H0w, H0d, !Nat.add_0_r.
    destruct Hk as [[_ ->] | [-> ->]].
    + repeat split; assumption.
    + unfold verifiedKept. cbn. rewrite Hw, Hd. cbn. repeat split; assumption.
  - rewrite !countEvent_one, Hpid, Hev. cbn [String.eqb Ascii.eqb Bool.eqb andb].
    rewrite andb_false_r, Nat.add_0_r.
    destruct Hk as [[Hne ->] | [-> ->]].
    + assert (E : String.eqb (Pkg.id pkg) (Pkg.id a) = false)
        by (apply String.eqb_neq; congruence).
      rewrite E. cbn. rewrite Nat.add_0_r. repeat split; assumption.
    + rewrite <- Hid in Hcw, Hcd |- *. rewrite String.eqb_refl. cbn [andb].
      assert (Ha : Pkg.otpWarehouseVerified a = false).
      { destruct (Pkg.otpWarehouseVerified a); [| reflexivity].
        rewrite Hkw in Hflag by reflexivity. discriminate. }
      rewrite Ha, Hflag in Hcw. unfold verifiedKept. cbn.
      rewrite Ha. cbn in *. repeat split; auto; lia.
  - rewrite !countEvent_one, Hpid, Hev. cbn [String.eqb Ascii.eqb Bool.eqb andb].
    rewrite andb_false_r, Nat.add_0_r.
    destruct Hk as [[Hne ->] | [-> ->]].
    + assert (E : String.eqb (Pkg.id pkg) (Pkg.id a) = false)
        by (apply String.eqb_neq; congruence).
      rewrite E. cbn. rewrite Nat.add_0_r. repeat split; assumption.
    + rewrite <- Hid in Hcw, Hcd |- *. rewrite String.eqb_refl. cbn [andb].
      assert (Ha : Pkg.otpDeliveryVerified a = false).
      { destruct (Pkg.otpDeliveryVerified a); [| reflexivity].
        rewrite Hkd in Hflag by reflexivity. discriminate. }
      rewrite Ha, Hflag in Hcd. unfold verifiedKept. cbn.
      rewrite Ha. cbn in *. repeat split; auto; lia.
Qed.

Lemma verifiedOnce_refl (logs : list Log.t) (p : Pkg.t) : verifiedOnce logs logs p p.
Proof.
  split; [reflexivity |]. split; [apply verifiedKept_refl |]. split; lia.
Qed.

Lemma verifiedOnce_ids (logs0 logs1 : list Log.t) (ps ps' : list Pkg.t) :
  Forall2 (verifiedOnce logs0 logs1) ps ps' -> List.map Pkg.id ps' = List.map Pkg.id ps.
Proof.
  induction 1 as [| p p' ps ps' [Hid _] _ IH]; cbn; [reflexivity |].
  rewrite Hid, IH. reflexivity.
Qed.

(** X10.  Through the screens each code is verified at most once, and the
    ledger agrees with the flags.  Starting from packages with distinct
    ids, after any controls pressed while on screen: a package whose flag
    of a kind was already set has no further OTP_WAREHOUSE_VERIFIED
    (resp. OTP_DELIVERY_VERIFIED) entry; a package whose flag is still
    unset has none either; and a package whose flag went from unset to
    set has at most one. *)
Theorem each_code_verified_once (s s' : InMemory.State) :
  List.NoDup (List.map Pkg.id (InMemory.packages s)) ->
  Session.reaches s s' ->
  Forall2 (verifiedOnce (InMemory.logs s) (InMemory.logs s'))
    (InMemory.packages s) (InMemory.packages s').
Proof.
  intros Hnd Hreach. induction Hreach as [| s1 clk c _ IH Hoff].
  - apply Forall2_R_refl, verifiedOnce_refl.
  - destruct (press_effect clk c s1 Hoff) as [Hin Heff].
    apply (once_step _ _ (clk 0%nat) (pressed c) s1); [| exact Hin | exact Heff | exact IH].
    rewrite (verifiedOnce_ids _ _ _ _ IH). exact Hnd.
Qed.

Lemma each_code_verified_once_witness :
  Forall2
    (verifiedOnce (InMemory.logs (InMemory.initial 0))
       (InMemory.logs
          (Session.press (fun _ => 2000)
             (Session.ClickVerify
                (Rider.mk "rider-04" "Brian Omondi" "0712345004" "Kasarani" "rider")
                (RiderApp.mkUI active {[ "pkg-002-delivery" := "2267" ]} ∅)
                (touch 1000 (assign (dispatchUpdates "rider-04") (InMemory.pkg_002 0)))
                "delivery")
             (Session.press (fun _ => 1000)
                (Session.ClickDispatch
                   (AdminDashboard.mkUI (Some (InMemory.pkg_002 0)) "rider-04")
                   (InMemory.pkg_002 0))
                (InMemory.initial 0)))))
    (InMemory.packages (InMemory.initial 0))
    (InMemory.packages
       (Session.press (fun _ => 2000)
          (Session.ClickVerify
             (Rider.mk "rider-04" "Brian Omondi" "0712345004" "Kasarani" "rider")
             (RiderApp.mkUI active {[ "pkg-002-delivery" := "2267" ]} ∅)
             (touch 1000 (assign (dispatchUpdates "rider-04") (InMemory.pkg_002 0)))
             "delivery")
          (Session.press (fun _ => 1000)
             (Session.ClickDispatch
                (AdminDashboard.mkUI (Some (InMemory.pkg_002 0)) "rider-04")
                (InMemory.pkg_002 0))
             (InMemory.initial 0)))).
Proof.
  apply each_code_verified_once.
  - cbn. repeat constructor; cbn; intuition discriminate.
  - apply Session.reaches_press.
    + apply Session.reaches_press; [apply Session.reaches_here |].
      split; [right; left; reflexivity | reflexivity].
    + split; [left; reflexivity | reflexivity].
Defined.

Example verification_is_recorded_once :
  countEvent "pkg-002" "OTP_DELIVERY_VERIFIED"
    (InMemory.logs
       (Session.press (fun _ => 2000)
          (Session.ClickVerify
             (Rider.mk "rider-04" "Brian Omondi" "0712345004" "Kasarani" "rider")
             (RiderApp.mkUI active {[ "pkg-002-delivery" := "2267" ]} ∅)
             (touch 1000 (assign (dispatchUpdates "rider-04") (InMemory.pkg_002 0)))
             "delivery")
          (Session.press (fun _ => 1000)
             (Session.ClickDispatch
                (AdminDashboard.mkUI (Some (InMemory.pkg_002 0)) "rider-04")
                (InMemory.pkg_002 0))
             (InMemory.initial 0))))
  = 1%nat.
Proof. vm_compute. reflexivity. Qed.

(** ** Booking on the customer screen *)

Lemma truthy_true (s : string) : JS.truthy s = true <-> s <> "".
Proof.
  unfold JS.truthy. rewrite negb_true_iff. split.
  - intros H. apply String.eqb_neq, H.
  - intros H. apply String.eqb_neq, H.
Qed.

Lemma truthy_false (s : string) : JS.truthy s = false <-> s = "".
Proof. unfold JS.truthy. rewrite negb_false_iff. apply String.eqb_eq. Qed.

(** X11.  A booking is checked for three fields only.  With an empty
    pickup address, delivery address or description, [handleSubmit] does
    nothing: no package, no ledger entry, the form is kept.  Otherwise it
    books whatever the zone, size and declared value are: one package is
    put in front of the others, which are untouched, one ORDER_PLACED
    entry by the customer is appended, the package is a fresh booking
    (the user's, the form's route, [searching_rider], nobody bound,
    nothing verified), and the screen returns to the tracking view with an
    empty form and the package as confirmation. *)
Theorem booking_checks_three_fields (parseFloat : string -> option Q)
    (clk : nat -> Z) (random36 : string) (rnd : nat -> Q) (user : User.t)
    (ui : CustomerApp.UI Pkg.t) (s : InMemory.State) :
  let book :=
    CustomerApp.handleSubmit (InMemory.onCreatePackage parseFloat clk random36 rnd user) in
  let f := CustomerApp.form ui in
  ((Form.pickupAddress f = "" \/ Form.deliveryAddress f = "" \/ Form.description f = "") ->
   book ui s = (ui, s))
  /\ (Form.pickupAddress f <> "" -> Form.deliveryAddress f <> "" ->
      Form.description f <> "" ->
      exists pkg,
        fst (book ui s)
          = CustomerApp.mkUI CustomerApp.track CustomerApp.emptyForm (Some pkg)
              (CustomerApp.expandedPkg ui)
        /\ InMemory.packages (snd (book ui s)) = pkg :: InMemory.packages s
        /\ oneEntryBy (Pkg.id pkg) "ORDER_PLACED" (Some (User.id user))
             (InMemory.logs s) (InMemory.logs (snd (book ui s)))
        /\ freshBooking user f pkg).
Proof.
  cbv zeta. unfold CustomerApp.handleSubmit. split.
  - intros H.
    assert (E : negb (JS.truthy (Form.pickupAddress (CustomerApp.form ui)))
                || negb (JS.truthy (Form.deliveryAddress (CustomerApp.form ui)))
                || negb (JS.truthy (Form.description (CustomerApp.form ui))) = true).
    { rewrite !orb_true_iff, !negb_true_iff, !truthy_false. tauto. }
    rewrite E. reflexivity.
  - intros Hp Hd Hdesc.
    apply truthy_true in Hp. apply truthy_true in Hd. apply truthy_true in Hdesc.
    rewrite Hp, Hd, Hdesc. cbn [negb orb].
    eexists. split; [reflexivity |]. split; [reflexivity |]. split.
    + cbn. eexists. repeat split.
    + repeat split.
Qed.

Lemma booking_checks_three_fields_witness :
  CustomerApp.handleSubmit
    (InMemory.onCreatePackage (fun _ => None) (fun _ => 1700000000000) "0.k3x9q2m7p"
       (fun _ => 1 # 2)%Q (User.mk "cust-current" "Amara Osei"))
    (CustomerApp.mkUI CustomerApp.new
       (Form.mk "Sarit Centre" "Garden City Mall" "Kasarani" "" "small" "3000") None None)
    (InMemory.initial 0)
  = (CustomerApp.mkUI CustomerApp.new
       (Form.mk "Sarit Centre" "Garden City Mall" "Kasarani" "" "small" "3000") None None,
     InMemory.initial 0).
Proof.
  refine (proj1 (booking_checks_three_fields (fun _ => None) (fun _ => 1700000000000)
                   "0.k3x9q2m7p" (fun _ => 1 # 2)%Q (User.mk "cust-current" "Amara Osei")
                   (CustomerApp.mkUI CustomerApp.new
                      (Form.mk "Sarit Centre" "Garden City Mall" "Kasarani" "" "small" "3000")
                      None None)
                   (InMemory.initial 0)) _).
  right. right. reflexivity.
Defined.

(** X12.  The price shown is the price charged, and the declared value is
    never checked.  The package [onCreatePackage] creates carries exactly
    the fees of the preview the customer screen shows for the same form,
    in both editions.  When the declared value does not parse as a number
    (as when the field is left empty), the booking goes through at the
    base rate: declared value 0, total 200, not high-value, no codes. *)
Theorem price_shown_is_price_charged (parseFloat : string -> option Q)
    (clk : nat -> Z) (random36 : string) (rnd : nat -> Q) (user : User.t)
    (ui : CustomerApp.UI Pkg.t) (s : InMemory.State)
    (inserted logged : Supabase.Defaults) (cl : Supabase.Client) (db : Supabase.Db) :
  let shown := CustomerApp.fees parseFloat ui in
  let pkg :=
    snd (InMemory.onCreatePackage parseFloat clk random36 rnd user (CustomerApp.form ui) s) in
  charged shown pkg
  /\ (exists row,
        snd (Supabase.onCreatePackage parseFloat (Some inserted) logged random36 rnd cl
               (CustomerApp.form ui) db) = Some row
        /\ charged shown row)
  /\ (parseFloat (Form.declaredValue (CustomerApp.form ui)) = None ->
      shown = Fees.mk 200 0 200 false
      /\ Pkg.declaredValue pkg = 0%Q
      /\ Pkg.otpWarehouse pkg = None /\ Pkg.otpDelivery pkg = None).
Proof.
  cbv zeta. split; [repeat split |]. split.
  - eexists. split; [reflexivity |]. repeat split.
  - intros Hnan. unfold CustomerApp.fees. cbn. rewrite Hnan. repeat split.
Qed.

Lemma price_shown_is_price_charged_witness :
  Pkg.total
    (snd (InMemory.onCreatePackage (fun _ => None) (fun _ => 1700000000000) "0.k3x9q2m7p"
            (fun _ => 1 # 2)%Q (User.mk "cust-current" "Amara Osei")
            (Form.mk "Sarit Centre" "Garden City Mall" "Kasarani" "Shoes" "small" "")
            (InMemory.initial 0)))
  = 200.
Proof.
  destruct (price_shown_is_price_charged (fun _ => None) (fun _ => 1700000000000)
              "0.k3x9q2m7p" (fun _ => 1 # 2)%Q (User.mk "cust-current" "Amara Osei")
              (CustomerApp.mkUI CustomerApp.new
                 (Form.mk "Sarit Centre" "Garden City Mall" "Kasarani" "Shoes" "small" "")
                 None None)
              (InMemory.initial 0) (Supabase.mkDefaults "row-1" 0)
              (Supabase.mkDefaults "row-2" 0)
              (Supabase.mkClient (User.mk "cust-current" "Amara Osei") [] [])
              (Supabase.mkDb [] []))
    as ((_ & _ & Htotal & _) & _ & Hnan).
  destruct (Hnan eq_refl) as (Hshown & _).
  cbn [CustomerApp.form] in Htotal. rewrite Htotal, Hshown. reflexivity.
Defined.

(** ** The customer's tracking list *)

Lemma filter_none {A : Type} (f : A -> bool) (l : list A) :
  (forall x, In x l -> f x = false) -> List.filter f l = [].
Proof.
  induction l as [| a l IH]; intros H; cbn; [reflexivity |].
  rewrite (H a (or_introl eq_refl)). apply IH. intros x Hx. apply H. right. exact Hx.
Qed.

Lemma filter_all {A : Type} (f : A -> bool) (l : list A) :
  (forall x, In x l -> f x = true) -> List.filter f l = l.
Proof.
  induction l as [| a l IH]; intros H; cbn; [reflexivity |].
  rewrite (H a (or_introl eq_refl)). f_equal. apply IH. intros x Hx. apply H. right. exact Hx.
Qed.

Lemma owned_In (user : User.t) (packages : list Pkg.t) (p : Pkg.t) :
  In p (CustomerApp.owned user packages) -> Pkg.customerId p = User.id user.
Proof.
  unfold CustomerApp.owned. intros H. apply filter_In in H.
  destruct H as [_ H]. apply String.eqb_eq, H.
Qed.

Lemma In_firstn {A : Type} (n : nat) (l : list A) (x : A) : In x (firstn n l) -> In x l.
Proof.
  revert l. induction n as [| n IH]; intros [| a l]; cbn; try tauto.
  intros [H | H]; [left; exact H | right; apply IH, H].
Qed.

(** X13.  The tracking view lists the packages of the literal customer id
    "cust-current" followed by the first two packages it is given, and it
    is given the signed-in user's own packages.  So every card is one of
    the user's packages; a user with any other id (every account of the
    Supabase edition) sees the first two of their packages and no others,
    however many they have booked; and the user "cust-current" of the
    in-memory edition sees all of theirs, the first two once more at the
    end. *)
Theorem tracking_list_shows_first_two (user : User.t) (packages : list Pkg.t) :
  let mine := CustomerApp.owned user packages in
  Forall (fun p => Pkg.customerId p = User.id user) (CustomerApp.listed mine)
  /\ (User.id user <> "cust-current" ->
      CustomerApp.listed mine = firstn 2 mine
      /\ (length (CustomerApp.listed mine) <= 2)%nat)
  /\ (User.id user = "cust-current" ->
      CustomerApp.listed mine = (mine ++ firstn 2 mine)%list).
Proof.
  cbv zeta. unfold CustomerApp.listed, CustomerApp.myPackages. split; [| split].
  - apply List.Forall_forall. intros p Hp. apply in_app_or in Hp.
    destruct Hp as [Hp | Hp].
    + apply filter_In in Hp. destruct Hp as [Hp _]. apply (owned_In _ _ _ Hp).
    + apply In_firstn in Hp. apply (owned_In _ _ _ Hp).
  - intros Hother. rewrite filter_none.
    + split; [reflexivity |]. cbn [app]. apply firstn_le_length.
    + intros p Hp. apply owned_In in Hp. rewrite Hp. apply String.eqb_neq, Hother.
  - intros Hcur. rewrite filter_all; [reflexivity |].
    intros p Hp. apply owned_In in Hp. rewrite Hp. apply String.eqb_eq, Hcur.
Qed.

Lemma tracking_list_shows_first_two_witness :
  List.map Pkg.description (CustomerApp.owned wanjiku (InMemory.packages threeBookings))
  = ["Books"; "Shoes"; "Lamp"]
  /\ CustomerApp.listed (CustomerApp.owned wanjiku (InMemory.packages threeBookings))
     = firstn 2 (CustomerApp.owned wanjiku (InMemory.packages threeBookings))
  /\ List.map Pkg.description
       (CustomerApp.listed (CustomerApp.owned wanjiku (InMemory.packages threeBookings)))
     = ["Books"; "Shoes"].
Proof.
  split; [reflexivity |].
  assert (H : User.id wanjiku <> "cust-current") by discriminate.
  pose proof (proj1 (proj1 (proj2 (tracking_list_shows_first_two wanjiku
                                     (InMemory.packages threeBookings))) H)) as E.
  split; [exact E |]. rewrite E. reflexivity.
Defined.

(** ** No handler cancels *)

Lemma notCancelled_refl (p : Pkg.t) : notCancelled p p.
Proof. split; [reflexivity | tauto]. Qed.

Lemma notCancelled_trans (p q r : Pkg.t) :
  notCancelled p q -> notCancelled q r -> notCancelled p r.
Proof. intros [H1 H2] [H3 H4]. split; [congruence | tauto]. Qed.

Lemma notCancelled_update (now : Z) (u : Updates.t) (p : Pkg.t) :
  Updates.status u <> Some cancelled -> notCancelled p (touch now (assign u p)).
Proof.
  intros Hu. split; [reflexivity |]. cbn.
  destruct (Updates.status u) as [st |]; cbn; [| tauto].
  intros ->. exfalso. apply Hu. reflexivity.
Qed.

Lemma notCancelled_assign (u : Updates.t) (p : Pkg.t) :
  Updates.status u <> Some cancelled -> notCancelled p (assign u p).
Proof.
  intros Hu. split; [reflexivity |]. cbn.
  destruct (Updates.status u) as [st |]; cbn; [| tauto].
  intros ->. exfalso. apply Hu. reflexivity.
Qed.

Lemma InMemory_call_notCancelled (clk : nat -> Z) (c : Call) (s : InMemory.State) :
  Forall2 notCancelled (InMemory.packages s) (InMemory.packages (InMemoryRun.call clk c s)).
Proof.
  destruct c as [pkgId r | pkgId r | pkgId r | pkgId r | pkgId type | pkgId r]; cbn;
    try (apply mapById_Forall2; [exact notCancelled_refl |];
         intros p _; apply notCancelled_update; cbn; discriminate).
  destruct (onVerifyOTP_packages clk pkgId type s) as (u & Hu & ->).
  apply mapById_Forall2; [exact notCancelled_refl |].
  intros p _. apply notCancelled_update. rewrite Hu. discriminate.
Qed.

Lemma Supabase_call_notCancelled (d : nat -> Supabase.Defaults) (cl : Supabase.Client)
    (c : Call) (db : Supabase.Db) :
  Forall2 notCancelled (Supabase.packages db) (Supabase.packages (SupabaseRun.call d cl c db)).
Proof.
  destruct c as [pkgId r | pkgId r | pkgId r | pkgId r | pkgId type | pkgId r]; cbn;
    try (apply mapById_Forall2; [exact notCancelled_refl |];
         intros p _; apply notCancelled_assign; cbn; discriminate).
  unfold Supabase.onVerifyOTP.
  destruct (String.eqb type "warehouse"); cbn;
    (apply mapById_Forall2; [exact notCancelled_refl |];
     intros p _; apply notCancelled_assign; cbn; discriminate).
Qed.

(** X14.  The engine has no way to cancel.  In both editions, whatever
    calls of AcceptCollection, MarkAtWarehouse, AcceptDelivery, Dispatch,
    VerifyCode and MarkDelivered are made, every package keeps its place
    and its id, and a package that is [cancelled] afterwards was
    [cancelled] before. *)
Theorem no_call_cancels (cs : list ((nat -> Z) * Call)) (s : InMemory.State)
    (dcs : list ((nat -> Supabase.Defaults) * Supabase.Client * Call)) (db : Supabase.Db) :
  Forall2 notCancelled (InMemory.packages s) (InMemory.packages (InMemoryRun.calls cs s))
  /\ Forall2 notCancelled (Supabase.packages db)
       (Supabase.packages (SupabaseRun.calls dcs db)).
Proof.
  split.
  - revert s. induction cs as [| [clk c] cs IH]; intros s; cbn.
    + apply Forall2_R_refl, notCancelled_refl.
    + eapply Forall2_R_trans;
        [exact notCancelled_trans | apply InMemory_call_notCancelled | apply IH].
  - revert db. induction dcs as [| [[d cl] c] dcs IH]; intros db; cbn.
    + apply Forall2_R_refl, notCancelled_refl.
    + eapply Forall2_R_trans;
        [exact notCancelled_trans | apply Supabase_call_notCancelled | apply IH].
Qed.

(** ** The progress bar of the customer screen *)

(** Pressing a control does nothing or makes one call. *)
Lemma press_is_call (clk : nat -> Z) (c : Session.Click) (s : InMemory.State) :
  Session.press clk c s = s \/ exists k, Session.press clk c s = InMemoryRun.call clk k s.
Proof.
  destruct c as [rider ui pkg | rider ui pkg | rider ui pkg | rider ui pkg type
                 | rider ui pkg | ui pkg]; cbn [Session.press].
  - right. exists (AcceptCollection (Pkg.id pkg) (Rider.id rider)). reflexivity.
  - right. exists (MarkAtWarehouse (Pkg.id pkg) (Rider.id rider)). reflexivity.
  - right. exists (AcceptDelivery (Pkg.id pkg) (Rider.id rider)). reflexivity.
  - destruct (handleOTPVerify_after (InMemory.onVerifyOTP clk) pkg type ui s) as [-> | ->].
    + left. reflexivity.
    + right. exists (VerifyCode (Pkg.id pkg) type). reflexivity.
  - right. exists (MarkDelivered (Pkg.id pkg) (Rider.id rider)). reflexivity.
  - unfold AdminDashboard.handleDispatch.
    destruct (negb (JS.truthy (AdminDashboard.selectedRider ui))); cbn [snd].
    + left. reflexivity.
    + right. exists (Dispatch (Pkg.id pkg) (AdminDashboard.selectedRider ui)). reflexivity.
Qed.

Lemma reaches_notCancelled (s s' : InMemory.State) :
  Session.reaches s s' ->
  Forall2 notCancelled (InMemory.packages s) (InMemory.packages s').
Proof.
  induction 1 as [| s1 clk c _ IH _].
  - apply Forall2_R_refl, notCancelled_refl.
  - eapply Forall2_R_trans; [exact notCancelled_trans | exact IH |].
    destruct (press_is_call clk c s1) as [-> | [k ->]].
    + apply Forall2_R_refl, notCancelled_refl.
    + apply InMemory_call_notCancelled.
Qed.

Lemma reaches_notBackward (s s' : InMemory.State) :
  List.NoDup (List.map Pkg.id (InMemory.packages s)) ->
  Session.reaches s s' ->
  Forall2 notBackward (InMemory.packages s) (InMemory.packages s').
Proof.
  intros Hnd Hreach. induction Hreach as [| s1 clk c _ IH Hoff].
  - apply Forall2_R_refl, notBackward_refl.
  - eapply Forall2_R_trans; [exact notBackward_trans | exact IH |].
    apply press_notBackward; [| exact Hoff].
    rewrite (notBackward_ids _ _ IH). exact Hnd.
Qed.

Lemma Forall2_both {A B : Type} (R1 R2 R3 : A -> B -> Prop) (l : list A) (l' : list B) :
  (forall a b, R1 a b -> R2 a b -> R3 a b) ->
  Forall2 R1 l l' -> Forall2 R2 l l' -> Forall2 R3 l l'.
Proof.
  intros H H1. induction H1 as [| a b l l' Hab _ IH]; intros H2.
  - constructor.
  - inversion H2; subst. constructor; auto.
Qed.

(** The bar counts the steps in the custody order; a cancelled package
    has no step at all. *)
Lemma idx_rank (st : Status) :
  CustomerApp.idx st = if Status_eqb st cancelled then -1 else Z.of_nat (rank st).
Proof. destruct st; reflexivity. Qed.

Lemma progressKept_of (p p' : Pkg.t) : notBackward p p' -> notCancelled p p' -> progressKept p p'.
Proof.
  intros [Hid Hrank] [_ Hc]. split; [exact Hid |].
  intros i. unfold CustomerApp.reached. rewrite !idx_rank, !Z.leb_le.
  destruct (Pkg.status p'); cbn [Status_eqb];
    try (destruct (Pkg.status p); cbn [Status_eqb rank] in *; lia).
  specialize (Hc eq_refl). rewrite Hc. cbn. lia.
Qed.

(** X15.  The customer's progress bar never loses a step.  The bar draws
    step [i] as reached when [i <= steps.indexOf(status)], which is the
    position of the status in the custody order and -1 for a cancelled
    package.  On the screens of the in-memory edition, starting from
    packages with distinct ids, whatever controls riders and the admin
    press while they are on screen, every step drawn as reached for a
    package stays drawn as reached. *)
Theorem progress_bar_never_goes_back (s s' : InMemory.State) :
  List.NoDup (List.map Pkg.id (InMemory.packages s)) ->
  Session.reaches s s' ->
  Forall2 progressKept (InMemory.packages s) (InMemory.packages s').
Proof.
  intros Hnd Hreach.
  apply (Forall2_both notBackward notCancelled progressKept _ _ progressKept_of).
  - apply reaches_notBackward; assumption.
  - apply reaches_notCancelled; assumption.
Qed.

Lemma progress_bar_never_goes_back_witness :
  Forall2 progressKept
    (InMemory.packages (InMemory.initial 0))
    (InMemory.packages
       (Session.press (fun _ => 1000)
          (Session.ClickDispatch
             (AdminDashboard.mkUI (Some (InMemory.pkg_002 0)) "rider-04")
             (InMemory.pkg_002 0))
          (InMemory.initial 0))).
Proof.
  apply progress_bar_never_goes_back.
  - cbn. repeat constructor; cbn; intuition discriminate.
  - apply Session.reaches_press; [apply Session.reaches_here |].
    split; [right; left; reflexivity | reflexivity].
Defined.

(** ** The counters of the admin screen *)

(** Rounding looks at the value only, not at the fraction that denotes
    it. *)
Lemma nearest_comp (x y : Q) : (x == y)%Q -> Binary64.nearest x = Binary64.nearest y.
Proof.
  intros H. unfold Binary64.nearest. apply Qred_complete.
  destruct (Qeq_dec x 0) as [Z | N].
  - rewrite (roundAt_comp _ x 0 Z), roundAt_zero.
    assert (Zy : (y == 0)%Q) by (rewrite <- H; exact Z).
    rewrite (roundAt_comp _ y 0 Zy), roundAt_zero. reflexivity.
  - assert (Pa : (0 < Qabs x)%Q).
    { destruct (Qlt_le_dec 0 (Qabs x)) as [P | P]; [exact P | exfalso].
      apply N. apply Qabs_Qle_condition in P. lra. }
    destruct (ilog2_spec (Qabs x) Pa) as [Hl Hu].
    assert (E : Binary64.exponent y = Binary64.exponent x).
    { unfold Binary64.exponent. f_equal. f_equal.
      apply ilog2_unique; rewrite <- H; assumption. }
    rewrite E. rewrite (roundAt_comp _ x y H). reflexivity.
Qed.

Lemma round_comp (x y : Q) : (x == y)%Q -> Binary64.round x = Binary64.round y.
Proof.
  intros H. unfold Binary64.round. rewrite (nearest_comp x y H).
  replace (Qle_bool 0 x) with (Qle_bool 0 y); [reflexivity |].
  destruct (Qle_bool 0 y) eqn:E.
  - symmetry. apply Qle_bool_iff. apply Qle_bool_iff in E. rewrite H. exact E.
  - destruct (Qle_bool 0 x) eqn:E'; [| reflexivity].
    apply Qle_bool_iff in E'. rewrite H in E'. apply Qle_bool_iff in E'. congruence.
Qed.

(** An integer of fewer than 54 bits is the binary64 value of itself. *)
Lemma round_Z (n : Z) :
  Z.abs n < 2 ^ 53 -> Binary64.round (inject_Z n) = Binary64.Fin (inject_Z n).
Proof.
  intros Hn. unfold Binary64.round. rewrite (nearest_Z n Hn).
  replace (Qle_bool (Binary64.pow2 1024) (Qabs (inject_Z n))) with false; [reflexivity |].
  symmetry. apply not_true_is_false. intros H. apply Qle_bool_iff in H.
  change (Qabs (inject_Z n)) with (inject_Z (Z.abs n)) in H.
  assert (H' : (inject_Z (Z.abs n) < inject_Z (2 ^ 53))%Q) by (rewrite <- Zlt_Qlt; exact Hn).
  rewrite <- (pow2_Z 53) in H' by lia.
  assert (Binary64.pow2 53 <= Binary64.pow2 1024)%Q by (apply pow2_le; lia).
  lra.
Qed.

Lemma sumTotals_cons (p : Pkg.t) (ps : list Pkg.t) :
  sumTotals (p :: ps) = Pkg.total p + sumTotals ps.
Proof. reflexivity. Qed.

Lemma sumTotals_nonneg (ps : list Pkg.t) :
  Forall (fun p => 0 <= Pkg.total p) ps -> 0 <= sumTotals ps.
Proof.
  induction 1 as [| q qs Hq _ IH]; [reflexivity |]. rewrite sumTotals_cons. lia.
Qed.

(** While the running sum stays below [2^53] every addition is exact. *)
Lemma totalFees_exact (ps : list Pkg.t) (a : Z) :
  0 <= a -> Forall (fun p => 0 <= Pkg.total p) ps -> a + sumTotals ps < 2 ^ 53 ->
  fold_left (fun s p => Binary64.plus s (Binary64.Fin (inject_Z (Pkg.total p))))
    ps (Binary64.Fin (inject_Z a))
  = Binary64.Fin (inject_Z (a + sumTotals ps)).
Proof.
  revert a. induction ps as [| p ps IH]; intros a Ha Hall Hsum.
  - cbn. rewrite Z.add_0_r. reflexivity.
  - inversion Hall as [| ? ? Hp Hps]; subst.
    pose proof (sumTotals_nonneg ps Hps) as Hs.
    rewrite sumTotals_cons in Hsum |- *.
    cbn [fold_left Binary64.plus].
    rewrite (round_comp _ (inject_Z (a + Pkg.total p))) by (rewrite inject_Z_plus; reflexivity).
    rewrite round_Z by lia.
    rewrite (IH (a + Pkg.total p)) by (try assumption; lia).
    f_equal. f_equal. lia.
Qed.

Lemma totalFees_sameFees (ps ps' : list Pkg.t) :
  Forall2 sameFees ps ps' -> AdminHub.totalFees ps' = AdminHub.totalFees ps.
Proof.
  intros H. unfold AdminHub.totalFees. generalize (Binary64.Fin 0).
  induction H as [| p p' ps ps' (_ & _ & Ht) _ IH]; intros acc; [reflexivity |].
  cbn [fold_left]. rewrite Ht. apply IH.
Qed.

(** X16.  The Total Fees counter of the admin screen, the binary64 sum
    of the [total] of all packages, moves only when a package is booked.
    No sequence of calls of the six handlers changes it, in either
    edition.  While the totals are non-negative and add up to less than
    [2^53] with the new one, the counter is their exact sum, and a
    booking of the in-memory edition raises it by the total of the new
    package. *)
Theorem total_fees_counter (parseFloat : string -> option Q)
    (random36 : string) (rnd : nat -> Q) (form : Form.t)
    (clk : nat -> Z) (user : User.t) (s : InMemory.State)
    (cs : list ((nat -> Z) * Call))
    (db : Supabase.Db)
    (dcs : list ((nat -> Supabase.Defaults) * Supabase.Client * Call)) :
  let created := InMemory.onCreatePackage parseFloat clk random36 rnd user form s in
  AdminHub.totalFees (InMemory.packages (InMemoryRun.calls cs s))
    = AdminHub.totalFees (InMemory.packages s)
  /\ AdminHub.totalFees (Supabase.packages (SupabaseRun.calls dcs db))
     = AdminHub.totalFees (Supabase.packages db)
  /\ (Forall (fun p => 0 <= Pkg.total p) (InMemory.packages s) ->
      sumTotals (InMemory.packages s) + Pkg.total (snd created) < 2 ^ 53 ->
      AdminHub.totalFees (InMemory.packages s)
        = Binary64.Fin (inject_Z (sumTotals (InMemory.packages s)))
      /\ AdminHub.totalFees (InMemory.packages (fst created))
         = Binary64.Fin
             (inject_Z (sumTotals (InMemory.packages s) + Pkg.total (snd created)))).
Proof.
  cbv zeta. split; [| split].
  - apply totalFees_sameFees, InMemory_calls_related;
      auto using sameFees_refl, sameFees_assign, sameFees_touch.
    exact sameFees_trans.
  - apply totalFees_sameFees, Supabase_calls_related;
      auto using sameFees_refl, sameFees_assign.
    exact sameFees_trans.
  - intros Hall Hsum.
    set (new := snd (InMemory.onCreatePackage parseFloat clk random36 rnd user form s)) in *.
    assert (Hnew : 200 <= Pkg.total new) by apply total_from_200.
    pose proof (sumTotals_nonneg _ Hall) as Hs.
    split.
    + unfold AdminHub.totalFees.
      rewrite (totalFees_exact _ 0) by (try assumption; lia). reflexivity.
    + change (InMemory.packages
                (fst (InMemory.onCreatePackage parseFloat clk random36 rnd user form s)))
        with (new :: InMemory.packages s).
      unfold AdminHub.totalFees.
      rewrite (totalFees_exact _ 0).
      * rewrite sumTotals_cons. f_equal. f_equal. lia.
      * lia.
      * constructor; [lia | exact Hall].
      * rewrite sumTotals_cons. lia.
Qed.

Lemma total_fees_counter_witness :
  AdminHub.totalFees
    (InMemory.packages
       (fst (InMemory.onCreatePackage
               (fun text => if String.eqb text "15000" then Some 15000%Q else None)
               (fun _ => 1700000000000) "0.k3x9q2m7p" (fun _ => 1 # 2)%Q
               (User.mk "cust-09" "Wanjiku")
               (Form.mk "Sarit Centre" "Garden City Mall" "Kasarani" "Camera" "small" "15000")
               (InMemory.initial 0))))
  = Binary64.Fin (inject_Z (953 + 425)).
Proof.
  refine (proj2 (proj2 (proj2 (total_fees_counter
            (fun text => if String.eqb text "15000" then Some 15000%Q else None)
            "0.k3x9q2m7p" (fun _ => 1 # 2)%Q
            (Form.mk "Sarit Centre" "Garden City Mall" "Kasarani" "Camera" "small" "15000")
            (fun _ => 1700000000000) (User.mk "cust-09" "Wanjiku") (InMemory.initial 0)
            [] (Supabase.mkDb [] []) [])) _ _)).
  - repeat constructor; cbn; lia.
  - vm_compute. reflexivity.
Defined.

(** Beyond that range the counter is not the sum: after a booking that
    declares [10^23] on the packages [App] starts with, whose totals add
    up to 953, the counter equals the total of the new package. *)
Example total_fees_counter_absorbs :
  AdminHub.totalFees
    (InMemory.packages
       (fst (InMemory.onCreatePackage
               (fun text =>
                  if String.eqb text "1e23" then Some 99999999999999991611392%Q else None)
               (fun _ => 1700000000000) "0.k3x9q2m7p" (fun _ => 1 # 2)%Q
               (User.mk "cust-09" "Wanjiku")
               (Form.mk "Sarit Centre" "Garden City Mall" "Kasarani" "Bullion" "large" "1e23")
               (InMemory.initial 0))))
  = Binary64.Fin 1499999999999999737856.
Proof. vm_compute. reflexivity. Qed.

Lemma count_statuses (packages : list Pkg.t) :
  (length (AdminDashboard.atHub packages) + length (AdminHub.inTransit packages)
   + length (AdminHub.delivered packages)
   = length (List.filter live packages))%nat.
Proof.
  unfold AdminDashboard.atHub, AdminHub.inTransit, AdminHub.delivered, live.
  induction packages as [| p ps IH]; [reflexivity |].
  cbn [List.filter].
  destruct (Pkg.status p); cbn [Status_eqb existsb orb negb length] in IH |- *; lia.
Qed.

(** X17.  The counters of the admin screen count every package once.
    Each package that is not cancelled is in exactly one of At Hub, In
    Transit and Delivered, and a cancelled package is in none; on a rider
    card, Active and Delivered split the packages bound to the rider in
    either leg. *)
Theorem admin_counters_partition (packages : list Pkg.t) (rider : Rider.t) :
  (length (AdminDashboard.atHub packages) + length (AdminHub.inTransit packages)
   + length (AdminHub.delivered packages)
   = length (List.filter live packages))%nat
  /\ (length (AdminHub.active rider packages) + length (AdminHub.done rider packages)
      = length (AdminHub.myPkgs rider packages))%nat.
Proof.
  split; [apply count_statuses |].
  unfold AdminHub.active, AdminHub.done.
  induction (AdminHub.myPkgs rider packages) as [| p ps IH]; [reflexivity |].
  cbn [List.filter]. destruct (Status_eqb (Pkg.status p) delivered); cbn; lia.
Qed.

(** ** The rider chosen at the hub *)

Lemma inZone_In (riders : list Rider.t) (pkg : Pkg.t) (x : Rider.t) :
  In x (AdminHub.inZone riders pkg) <-> In x riders /\ Rider.zone x = Pkg.deliveryZone pkg.
Proof. unfold AdminHub.inZone. rewrite filter_In, String.eqb_eq. tauto. Qed.

(** X18.  The zone only filters the rider list; the choice itself is not
    tied to the row.  When the delivery zone of a package has riders, the
    rider list of its row offers exactly those.  But the chosen rider is
    kept when the row is cancelled: after a rider [r] is chosen on the row
    of one package and that row is cancelled, opening the row of another
    package shows Dispatch enabled at once, and pressing it dispatches
    that package to [r], in its zone or not, and clears the selection. *)
Theorem rider_choice_outlives_its_row (clk : nat -> Z) (riders : list Rider.t)
    (ui : AdminDashboard.UI) (pkgA pkgB : Pkg.t) (r : string) (s : InMemory.State) :
  r <> "" ->
  let ui' :=
    AdminHub.openRow pkgB
      (AdminHub.cancel (AdminHub.chooseRider r (AdminHub.openRow pkgA ui))) in
  ((exists x, In x riders /\ Rider.zone x = Pkg.deliveryZone pkgB) ->
   (In r (AdminHub.riderOptions riders pkgB)
    <-> exists x, In x riders /\ Rider.zone x = Pkg.deliveryZone pkgB /\ Rider.id x = r))
  /\ AdminDashboard.showsDispatch ui' pkgB = true
  /\ AdminDashboard.handleDispatch (InMemory.onDispatch clk) pkgB ui' s
     = (AdminDashboard.mkUI None "", InMemory.onDispatch clk (Pkg.id pkgB) r s)
  /\ rewritten (Pkg.id pkgB) (dispatchedTo r) (InMemory.packages s)
       (InMemory.packages (InMemory.onDispatch clk (Pkg.id pkgB) r s)).
Proof.
  intros Hr. cbv zeta.
  assert (Ht : JS.truthy r = true) by (apply truthy_true, Hr).
  split; [| split; [| split]].
  - intros (x & Hx & Hz). unfold AdminHub.riderOptions.
    assert (Hin : In x (AdminHub.inZone riders pkgB)) by (apply inZone_In; auto).
    destruct (AdminHub.inZone riders pkgB) as [| y l] eqn:E; [destruct Hin |].
    rewrite <- E. cbn [length Nat.eqb]. replace (Nat.eqb (length (AdminHub.inZone riders pkgB)) 0)
      with false by (rewrite E; reflexivity).
    rewrite app_nil_r. split.
    + intros [H | H]; [exfalso; apply Hr; symmetry; exact H |].
      apply in_map_iff in H. destruct H as (z & Hid & Hz').
      apply inZone_In in Hz'. exists z. tauto.
    + intros (z & Hz1 & Hz2 & Hid). right. apply in_map_iff. exists z.
      split; [exact Hid | apply inZone_In; auto].
  - unfold AdminDashboard.showsDispatch. cbn. rewrite String.eqb_refl, Ht. reflexivity.
  - unfold AdminDashboard.handleDispatch. cbn. rewrite Ht. reflexivity.
  - apply mapById_rewritten. intros p. unfold dispatchedTo, sameDetails. cbn.
    repeat split.
Qed.

Lemma rider_choice_outlives_its_row_witness :
  ~ In "rider-01" (AdminHub.riderOptions RIDERS (InMemory.pkg_001 0))
  /\ AdminDashboard.handleDispatch (InMemory.onDispatch (fun _ => 1000)) (InMemory.pkg_001 0)
       (AdminHub.openRow (InMemory.pkg_001 0)
          (AdminHub.cancel
             (AdminHub.chooseRider "rider-01"
                (AdminHub.openRow (InMemory.pkg_002 0) (AdminDashboard.mkUI None "")))))
       (InMemory.initial 0)
     = (AdminDashboard.mkUI None "",
        InMemory.onDispatch (fun _ => 1000) "pkg-001" "rider-01" (InMemory.initial 0)).
Proof.
  split.
  - cbn. intuition discriminate.
  - refine (proj1 (proj2 (proj2
             (rider_choice_outlives_its_row (fun _ => 1000) RIDERS
                (AdminDashboard.mkUI None "") (InMemory.pkg_002 0) (InMemory.pkg_001 0)
                "rider-01" (InMemory.initial 0) _)))).
    discriminate.
Defined.

(** ** Signing in and accounts *)

Lemma lower_upper (c : ascii) : JSText.lower (JS.upper c) = JSText.lower c.
Proof. destruct c as [[] [] [] [] [] [] [] []]; reflexivity. Qed.

Lemma isSpace_upper (c : ascii) : JSText.isSpace (JS.upper c) = JSText.isSpace c.
Proof. destruct c as [[] [] [] [] [] [] [] []]; reflexivity. Qed.

Lemma toLowerCase_toUpperCase (s : string) :
  JSText.toLowerCase (JS.toUpperCase s) = JSText.toLowerCase s.
Proof.
  induction s as [| c r IH]; [reflexivity |].
  cbn [JS.toUpperCase JSText.toLowerCase]. rewrite lower_upper, IH. reflexivity.
Qed.

Lemma trimStart_toUpperCase (s : string) :
  JSText.trimStart (JS.toUpperCase s) = JS.toUpperCase (JSText.trimStart s).
Proof.
  induction s as [| c r IH]; [reflexivity |].
  cbn [JS.toUpperCase JSText.trimStart]. rewrite isSpace_upper.
  destruct (JSText.isSpace c); [exact IH | reflexivity].
Qed.

Lemma trimEnd_toUpperCase (s : string) :
  JSText.trimEnd (JS.toUpperCase s) = JS.toUpperCase (JSText.trimEnd s).
Proof.
  induction s as [| c r IH]; [reflexivity |].
  cbn [JS.toUpperCase JSText.trimEnd]. rewrite IH, isSpace_upper.
  destruct (JSText.trimEnd r); cbn [JS.toUpperCase]; [| reflexivity].
  destruct (JSText.isSpace c); reflexivity.
Qed.

Lemma normalise_toUpperCase (s : string) :
  JSText.normalise (JS.toUpperCase s) = JSText.normalise s.
Proof.
  unfold JSText.normalise, JSText.trim.
  rewrite trimStart_toUpperCase, trimEnd_toUpperCase. apply toLowerCase_toUpperCase.
Qed.

Lemma trimEnd_pad (s : string) : JSText.trimEnd (s ++ " ") = JSText.trimEnd s.
Proof.
  induction s as [| c r IH]; [reflexivity |].
  change ((String c r) ++ " ") with (String c (r ++ " ")).
  cbn [JSText.trimEnd]. rewrite IH. reflexivity.
Qed.

Lemma trim_pad (s : string) : JSText.trim (" " ++ s ++ " ") = JSText.trim s.
Proof.
  unfold JSText.trim.
  change (JSText.trimStart (" " ++ s ++ " ")) with (JSText.trimStart (s ++ " ")).
  induction s as [| c r IH]; [reflexivity |].
  change ((String c r) ++ " ") with (String c (r ++ " ")).
  cbn [JSText.trimStart]. destruct (JSText.isSpace c); [exact IH |].
  apply (trimEnd_pad (String c r)).
Qed.

Lemma normalise_pad_upper (s : string) :
  JSText.normalise (" " ++ JS.toUpperCase s ++ " ") = JSText.normalise s.
Proof.
  unfold JSText.normalise. rewrite trim_pad. apply normalise_toUpperCase.
Qed.

Lemma find_In_some {A : Type} (f : A -> bool) (l : list A) (a : A) :
  List.find f l = Some a -> In a l /\ f a = true.
Proof. apply List.find_some. Qed.

(** X19.  Signing in, in-memory edition.  An ASCII address is matched
    after its surrounding blanks are dropped and its letters are put in
    lower case; the password is compared as typed.  So [handleLogin] hands
    an account to [onLogin] exactly when the account is one of
    [MOCK_ACCOUNTS] with that normalised address and exactly that
    password; typing the address in capitals with a blank on either side
    gives the same answer; and every mock account signs in with its stored
    address and password. *)
Theorem login_by_normalised_email (email password : string) :
  isAscii email = true ->
  (forall a, LoginScreen.handleLogin email password = Some a <->
             In a MOCK_ACCOUNTS /\ Account.email a = JSText.normalise email
             /\ Account.password a = password)
  /\ LoginScreen.handleLogin (" " ++ JS.toUpperCase email ++ " ") password
     = LoginScreen.handleLogin email password
  /\ (forall a, In a MOCK_ACCOUNTS ->
                LoginScreen.handleLogin (Account.email a) (Account.password a) = Some a).
Proof.
  intros _. split; [| split].
  - intros a. unfold LoginScreen.handleLogin. split.
    + intros H. apply find_In_some in H. destruct H as [Hin H].
      apply andb_true_iff in H. destruct H as [He Hp].
      apply String.eqb_eq in He. apply String.eqb_eq in Hp. auto.
    + intros (Hin & He & Hp). rewrite <- He, <- Hp.
      cbn in Hin. destruct Hin as [<- | [<- | [<- | [<- | []]]]]; reflexivity.
  - unfold LoginScreen.handleLogin. rewrite normalise_pad_upper. reflexivity.
  - intros a Hin.
    cbn in Hin. destruct Hin as [<- | [<- | [<- | [<- | []]]]]; reflexivity.
Qed.

Lemma login_by_normalised_email_witness :
  LoginScreen.handleLogin " ADMIN@BARUK.CO " "admin123"
  = Some (Account.mk "admin-01" "admin@baruk.co" "admin123" "admin" "Hub Admin" None).
Proof.
  destruct (login_by_normalised_email "admin@baruk.co" "admin123" eq_refl) as (_ & Hpad & Hall).
  change (LoginScreen.handleLogin " ADMIN@BARUK.CO " "admin123")
    with (LoginScreen.handleLogin (" " ++ JS.toUpperCase "admin@baruk.co" ++ " ") "admin123").
  rewrite Hpad.
  apply (Hall (Account.mk "admin-01" "admin@baruk.co" "admin123" "admin" "Hub Admin" None)).
  cbn. tauto.
Defined.

(** The password is compared as typed: in capitals it is refused. *)
Example login_password_is_exact :
  LoginScreen.handleLogin "admin@baruk.co" "ADMIN123" = None.
Proof. reflexivity. Qed.

Lemma missing_false (x : option string) :
  AddRider.missing x = false <-> exists v, x = Some v /\ v <> "".
Proof.
  unfold AddRider.missing. rewrite negb_false_iff, truthy_true. split.
  - destruct x as [v |]; cbn; [| congruence]. intros H. exists v. auto.
  - intros (v & -> & H). exact H.
Qed.

Lemma accounts_hit (riders : list Rider.t) (userEmail : option string) (e : string) :
  existsb (JS.strictEq e) (AddRider.accounts riders userEmail) = JS.strictEq e userEmail.
Proof.
  unfold AddRider.accounts. rewrite existsb_app. cbn [existsb]. rewrite orb_false_r.
  induction riders as [| r rs IH]; [reflexivity | exact IH].
Qed.

(** X20.  The Add Rider panel.  The zone list displays the first zone
    while the form's [zone] is still unset, and an unset zone counts as a
    missing field: with the list left as displayed the form is refused
    with "Please fill in all fields.".  For a form whose name, address,
    phone and licence are ASCII text: the check for an existing account
    looks at [accounts], whose riders carry no address, so it refuses the
    address of the signed-in admin and no other, and the address of an
    existing rider passes; a form that passes is handed to [onAddRider],
    which asks for a "rider" account with the address normalised and the
    name, phone and licence trimmed; the form is emptied and no error is
    set, whatever the request answers. *)
Theorem add_rider_checks (riders : list Rider.t) (userEmail : option string) (now : Z)
    (f : AddRider.Form) :
  let out := AddRider.handleAddRider (AddRider.accounts riders userEmail) now f in
  (AddRider.zone f = None ->
   AddRider.shownZone f = "Westlands"
   /\ out = AddRider.mkOut "Please fill in all fields." "" f None)
  /\ (forall n e p w l z,
        f = AddRider.mkForm (Some n) (Some e) (Some p) (Some w) (Some l) (Some z) ->
        n <> "" -> e <> "" -> p <> "" -> w <> "" -> l <> "" -> z <> "" ->
        isAscii n = true -> isAscii e = true -> isAscii p = true -> isAscii l = true ->
        (userEmail = Some (JSText.normalise e) ->
         out = AddRider.mkOut "An account with this email already exists." "" f None)
        /\ (userEmail <> Some (JSText.normalise e) ->
            AddRider.riderFormError out = ""
            /\ AddRider.riderForm out = AddRider.emptyForm
            /\ AddRider.onAddRider <$> AddRider.added out
               = Some (SignUp.mk (JSText.normalise e) w (JSText.trim n) (JSText.trim p)
                         "rider" (Some z) (Some (JSText.trim l))))).
Proof.
  cbv zeta. split.
  - intros Hz. unfold AddRider.shownZone, AddRider.handleAddRider. rewrite Hz.
    split; [reflexivity |].
    replace (AddRider.missing None) with true by reflexivity.
    rewrite !orb_true_r. reflexivity.
  - intros n e p w l z -> Hn He Hp Hw Hl Hz _ _ _ _.
    unfold AddRider.handleAddRider. cbn [AddRider.name AddRider.email AddRider.phone
      AddRider.password AddRider.licenseNumber AddRider.zone].
    assert (M : forall v, v <> "" -> AddRider.missing (Some v) = false).
    { intros v Hv. apply missing_false. exists v. auto. }
    rewrite (M n Hn), (M e He), (M p Hp), (M w Hw), (M l Hl), (M z Hz).
    cbn [orb JS.orEmpty default from_option]. unfold id. rewrite accounts_hit. split.
    + intros ->. cbn [JS.strictEq]. rewrite String.eqb_refl. reflexivity.
    + intros Hne.
      assert (E : JS.strictEq (JSText.normalise e) userEmail = false).
      { apply strictEq_false. congruence. }
      rewrite E. cbn [AddRider.riderFormError AddRider.riderForm AddRider.added].
      split; [reflexivity |]. split; [reflexivity |].
      cbn. unfold AddRider.onAddRider. cbn. unfold AddRider.shownZone. cbn.
      apply truthy_true in Hz. rewrite Hz. reflexivity.
Qed.

Lemma add_rider_checks_witness :
  AddRider.handleAddRider (AddRider.accounts RIDERS (Some "admin@baruk.co")) 1700000000000
    (AddRider.mkForm (Some "Kip Mutai") (Some "kip@baruk.co") (Some "0712345001")
       (Some "rider123") (Some "DL-1001") None)
  = AddRider.mkOut "Please fill in all fields." ""
      (AddRider.mkForm (Some "Kip Mutai") (Some "kip@baruk.co") (Some "0712345001")
         (Some "rider123") (Some "DL-1001") None)
      None
  /\ AddRider.riderFormError
       (AddRider.handleAddRider (AddRider.accounts RIDERS (Some "admin@baruk.co"))
          1700000000000
          (AddRider.mkForm (Some "Kip Mutai") (Some "kip@baruk.co") (Some "0712345001")
             (Some "rider123") (Some "DL-1001") (Some "Westlands")))
     = "".
Proof.
  split.
  - apply (proj1 (add_rider_checks RIDERS (Some "admin@baruk.co") 1700000000000
                    (AddRider.mkForm (Some "Kip Mutai") (Some "kip@baruk.co")
                       (Some "0712345001") (Some "rider123") (Some "DL-1001") None))).
    reflexivity.
  - refine (proj1 (proj2 (proj2 (add_rider_checks RIDERS (Some "admin@baruk.co")
                                   1700000000000
                                   (AddRider.mkForm (Some "Kip Mutai") (Some "kip@baruk.co")
                                      (Some "0712345001") (Some "rider123")
                                      (Some "DL-1001") (Some "Westlands")))
                            "Kip Mutai" "kip@baruk.co" "0712345001" "rider123" "DL-1001"
                            "Westlands" eq_refl _ _ _ _ _ _ eq_refl eq_refl eq_refl eq_refl)
                     _)); discriminate.
Defined.

(** X21.  What the sign-up form sends, for a name, address and phone of
    ASCII text.  Whatever the service answers, [handleSignup] sends a
    request exactly when the five fields are non-empty, the password has
    six UTF-16 code units or more and the confirmation equals it;
    otherwise it sets an error and sends nothing.  The request is for a
    "customer" account, without zone or licence, with that password, the
    address normalised and the name and phone trimmed.  The fields are
    only required to be non-empty before trimming. *)
Theorem signup_request (signUp : SignUp.t -> SignUpResult) (form : SignupScreen.Form) :
  isAscii (SignupScreen.name form) = true ->
  isAscii (SignupScreen.email form) = true ->
  isAscii (SignupScreen.phone form) = true ->
  let checked :=
    SignupScreen.name form <> "" /\ SignupScreen.email form <> ""
    /\ SignupScreen.phone form <> ""
    /\ (6 <= JSText.length (SignupScreen.password form))%nat
    /\ SignupScreen.password form = SignupScreen.confirm form in
  (checked ->
   SignupScreen.sent (SignupScreen.handleSignup signUp form)
   = Some (SignUp.mk (JSText.normalise (SignupScreen.email form))
             (SignupScreen.password form) (JSText.trim (SignupScreen.name form))
             (JSText.trim (SignupScreen.phone form)) "customer" None None))
  /\ (~ checked ->
      SignupScreen.sent (SignupScreen.handleSignup signUp form) = None
      /\ SignupScreen.error (SignupScreen.handleSignup signUp form) <> ""
      /\ SignupScreen.success (SignupScreen.handleSignup signUp form) = "").
Proof.
  intros _ _ _. cbv zeta. unfold SignupScreen.handleSignup.
  destruct (JS.truthy (SignupScreen.name form)) eqn:En; cbn [negb orb];
    [| apply truthy_false in En; split;
       [intros (H & _); congruence | intros _; cbn; repeat split; discriminate]].
  destruct (JS.truthy (SignupScreen.email form)) eqn:Ee; cbn [negb orb];
    [| apply truthy_false in Ee; split;
       [intros (_ & H & _); congruence | intros _; cbn; repeat split; discriminate]].
  destruct (JS.truthy (SignupScreen.phone form)) eqn:Ep; cbn [negb orb];
    [| apply truthy_false in Ep; split;
       [intros (_ & _ & H & _); congruence | intros _; cbn; repeat split; discriminate]].
  apply truthy_true in En. apply truthy_true in Ee. apply truthy_true in Ep.
  destruct (JS.truthy (SignupScreen.password form)) eqn:Ew; cbn [negb orb];
    [| apply truthy_false in Ew; split;
       [intros (_ & _ & _ & H & _); rewrite Ew in H; cbn in H; lia
       | intros _; cbn; repeat split; discriminate]].
  destruct (JS.truthy (SignupScreen.confirm form)) eqn:Ec; cbn [negb orb];
    [| apply truthy_false in Ec; apply truthy_true in Ew; split;
       [intros (_ & _ & _ & _ & H); congruence
       | intros _; cbn; repeat split; discriminate]].
  destruct (Nat.ltb_spec (JSText.length (SignupScreen.password form)) 6) as [Hlt | Hge].
  { split; [intros (_ & _ & _ & H & _); lia | intros _; cbn; repeat split; discriminate]. }
  destruct (String.eqb_spec (SignupScreen.password form) (SignupScreen.confirm form))
    as [Heq | Hneq]; cbn [negb].
  - split.
    + intros _. destruct (signUp _); reflexivity.
    + intros H. exfalso. apply H. auto.
  - split; [intros (_ & _ & _ & _ & H); congruence |].
    intros _. cbn. repeat split; discriminate.
Qed.

Lemma signup_request_witness :
  SignupScreen.sent
    (SignupScreen.handleSignup (fun _ => SignedUp)
       (SignupScreen.mkForm " " " Amara@Baruk.CO " "0712 000 000" "secret1" "secret1"))
  = Some (SignUp.mk "amara@baruk.co" "secret1" "" "0712 000 000" "customer" None None).
Proof.
  refine (proj1 (signup_request (fun _ => SignedUp)
                   (SignupScreen.mkForm " " " Amara@Baruk.CO " "0712 000 000"
                      "secret1" "secret1")
                   eq_refl eq_refl eq_refl) _).
  repeat split; try discriminate. vm_compute. lia.
Defined.

(** The password is measured in UTF-16 code units: three accented
    letters, six bytes of UTF-8, are too short. *)
Example signup_counts_code_units :
  JSText.length "ééé" = 3%nat
  /\ SignupScreen.handleSignup (fun _ => SignedUp)
       (SignupScreen.mkForm "Amara" "amara@baruk.co" "0712000000" "ééé" "ééé")
     = SignupScreen.mkOut "Password must be at least 6 characters." "" None.
Proof. vm_compute. split; reflexivity. Qed.

(** ** A booking the store refuses *)

(** X22.  In the Supabase edition the customer screen does not wait for
    the store.  [handleSubmit] takes what the asynchronous
    [onCreatePackage] returns, sets it as [submitted] and empties the
    form at once.  So when the three required fields are filled and the
    store refuses the row, no package and no ledger entry is written, and
    still the screen returns to the tracking view with the form emptied
    and the confirmation card rendered, over a result that holds no
    package. *)
Theorem refused_booking_is_confirmed (parseFloat : string -> option Q)
    (logged : Supabase.Defaults) (random36 : string) (rnd : nat -> Q)
    (cl : Supabase.Client) (ui : CustomerApp.UI (option Pkg.t)) (db : Supabase.Db) :
  Form.pickupAddress (CustomerApp.form ui) <> "" ->
  Form.deliveryAddress (CustomerApp.form ui) <> "" ->
  Form.description (CustomerApp.form ui) <> "" ->
  let book :=
    CustomerApp.handleSubmit
      (Supabase.onCreatePackage parseFloat None logged random36 rnd cl) in
  snd (book ui db) = db
  /\ fst (book ui db)
     = CustomerApp.mkUI CustomerApp.track CustomerApp.emptyForm (Some None)
         (CustomerApp.expandedPkg ui)
  /\ confirmationShown (fst (book ui db)) = true.
Proof.
  intros Hp Hd Hdesc. cbv zeta. unfold CustomerApp.handleSubmit.
  apply truthy_true in Hp. apply truthy_true in Hd. apply truthy_true in Hdesc.
  rewrite Hp, Hd, Hdesc. cbn [negb orb]. repeat split.
Qed.

Lemma refused_booking_is_confirmed_witness :
  confirmationShown
    (fst (CustomerApp.handleSubmit
            (Supabase.onCreatePackage (fun _ => None) None (Supabase.mkDefaults "row-2" 0)
               "0.k3x9q2m7p" (fun _ => 1 # 2)%Q
               (Supabase.mkClient (User.mk "u-1" "Amara Osei") [] []))
            (CustomerApp.mkUI CustomerApp.new
               (Form.mk "Sarit Centre" "Garden City Mall" "Kasarani" "Shoes" "small" "3000")
               None None)
            (Supabase.mkDb [] [])))
  = true.
Proof.
  refine (proj2 (proj2 (refused_booking_is_confirmed (fun _ => None)
                          (Supabase.mkDefaults "row-2" 0) "0.k3x9q2m7p" (fun _ => 1 # 2)%Q
                          (Supabase.mkClient (User.mk "u-1" "Amara Osei") [] [])
                          (CustomerApp.mkUI CustomerApp.new
                             (Form.mk "Sarit Centre" "Garden City Mall" "Kasarani" "Shoes"
                                "small" "3000")
                             None None)
                          (Supabase.mkDb [] []) _ _ _))); discriminate.
Defined.
